(** * Track-and-trace upload tool: the job processing pipeline

    A shallow embedding of [trackandtrace/queue_processor.py],
    [trackandtrace/file_processor.py] and
    [trackandtrace/database_handler.py], and the properties of the job
    state machine, the retry controller, the duplicate index and the
    staged load that hold (or fail) on it.

    Python objects that the code mutates in place ([ProcessingJob], the
    dictionaries of the file processor, the database) are threaded
    explicitly: every operation takes the current value and returns the
    new one.  Wall-clock time, the database server, the parser of
    spreadsheets and the digest function are outside the repository; they
    appear as a [World] that the operations read and advance, and as
    section variables. *)

From Stdlib Require Import ZArith List String Ascii Bool Lia Arith.
From Stdlib Require Import DecimalString Decimal DecimalNat.
From Stdlib Require Import Permutation Sorted.
Import ListNotations.

Local Open Scope string_scope.
Local Open Scope list_scope.
Local Open Scope Z_scope.

Set Implicit Arguments.

(* ===================================================================== *)
(** ** Strings as Python uses them                                        *)
(* ===================================================================== *)

Module Py.

(** [sep.join(parts)] *)
Fixpoint join (sep : string) (parts : list string) : string :=
  match parts with
  | [] => EmptyString
  | [p] => p
  | p :: rest => (p ++ sep ++ join sep rest)%string
  end.

(** [str(n)] for a non-negative integer *)
Definition str_nat (n : nat) : string :=
  NilEmpty.string_of_uint (Nat.to_uint n).

(** [str(z)] for an integer *)
Definition str_int (z : Z) : string :=
  match z with
  | Z0 => "0"
  | Zpos p => str_nat (Pos.to_nat p)
  | Zneg p => ("-" ++ str_nat (Pos.to_nat p))%string
  end.

Definition lower_ascii (c : ascii) : ascii :=
  let n := nat_of_ascii c in
  if ((65 <=? n) && (n <=? 90))%nat then ascii_of_nat (n + 32) else c.

(** [s.lower()] on ASCII text *)
Fixpoint lower (s : string) : string :=
  match s with
  | EmptyString => EmptyString
  | String c r => String (lower_ascii c) (lower r)
  end.

Definition is_space (c : ascii) : bool :=
  let n := nat_of_ascii c in
  ((n =? 32) || ((9 <=? n) && (n <=? 13)))%nat.

Fixpoint lstrip (s : string) : string :=
  match s with
  | EmptyString => EmptyString
  | String c r => if is_space c then lstrip r else s
  end.

Fixpoint rev_string (s : string) (acc : string) : string :=
  match s with
  | EmptyString => acc
  | String c r => rev_string r (String c acc)
  end.

(** [s.strip()] *)
Definition strip (s : string) : string :=
  rev_string (lstrip (rev_string (lstrip s) EmptyString)) EmptyString.

(** [s.replace(' ', '_')] *)
Fixpoint replace_space (s : string) : string :=
  match s with
  | EmptyString => EmptyString
  | String c r =>
      String (if Ascii.eqb c " "%char then "_"%char else c) (replace_space r)
  end.

(** [s.endswith(suffix)] *)
Definition endswith (s suffix : string) : bool :=
  let n := String.length s in
  let m := String.length suffix in
  ((m <=? n)%nat && String.eqb (substring (n - m) m s) suffix).

(** [repr(xs)] for a list of plain strings: ['a', 'b'] *)
Definition repr_list (xs : list string) : string :=
  ("[" ++ join ", " (map (fun x => "'" ++ x ++ "'") xs) ++ "]")%string.

Definition is_digit (c : ascii) : bool :=
  let n := nat_of_ascii c in ((48 <=? n) && (n <=? 57))%nat.

(** The text starts with four digits, a dash, two digits, a dash and two
    digits: a match of [\d{4}-\d{2}-\d{2}] at position 0. *)
Definition date_here (s : string) : bool :=
  match s with
  | String a (String b (String c (String d (String m1 (String e
      (String f (String m2 (String g (String h _))))))))) =>
      is_digit a && is_digit b && is_digit c && is_digit d &&
      Ascii.eqb m1 "-"%char && is_digit e && is_digit f &&
      Ascii.eqb m2 "-"%char && is_digit g && is_digit h
  | _ => false
  end.

(** [re.search(r'\d{4}-\d{2}-\d{2}', s) is not None] *)
Fixpoint contains_date (s : string) : bool :=
  date_here s ||
  match s with
  | EmptyString => false
  | String _ r => contains_date r
  end.

(** A Python [dict] keeps its keys in insertion order; assigning to a
    key that is present replaces the value where it stands. *)
Section Dict.
Variable V : Type.

Fixpoint dict_get (k : string) (d : list (string * V)) : option V :=
  match d with
  | [] => None
  | (k', v) :: rest => if String.eqb k' k then Some v else dict_get k rest
  end.

Fixpoint dict_set (k : string) (v : V) (d : list (string * V))
  : list (string * V) :=
  match d with
  | [] => [(k, v)]
  | (k', v') :: rest =>
      if String.eqb k' k then (k, v) :: rest
      else (k', v') :: dict_set k v rest
  end.

Fixpoint dict_del (k : string) (d : list (string * V))
  : list (string * V) :=
  match d with
  | [] => []
  | (k', v') :: rest =>
      if String.eqb k' k then dict_del k rest
      else (k', v') :: dict_del k rest
  end.

Definition dict_mem (k : string) (d : list (string * V)) : bool :=
  match dict_get k d with Some _ => true | None => false end.
End Dict.

(** [range(n)] *)
Definition range (n : Z) : list Z :=
  map Z.of_nat (seq 0 (Z.to_nat n)).

End Py.

(* ===================================================================== *)
(** ** Tabular data (the part of a pandas DataFrame the pipeline uses)    *)
(* ===================================================================== *)

(** A cell is missing ([NaN], [None] and [NaT] alike), text, a number or a
    point in time.  The pipeline never computes with numbers, so a numeric
    cell carries an integer. *)
Inductive Cell : Type :=
| NaN
| Str (s : string)
| Num (x : Z)
| Stamp (t : Z).

Inductive Dtype : Type := DObject | DInt64 | DFloat64 | DDatetime.

Record DataFrame : Type := {
  header : list (string * Dtype);
  rows : list (list Cell)
}.

Definition cell_eqb (a b : Cell) : bool :=
  match a, b with
  | NaN, NaN => true
  | Str s, Str t => String.eqb s t
  | Num x, Num y => Z.eqb x y
  | Stamp x, Stamp y => Z.eqb x y
  | _, _ => false
  end.

Definition dtype_eqb (a b : Dtype) : bool :=
  match a, b with
  | DObject, DObject | DInt64, DInt64
  | DFloat64, DFloat64 | DDatetime, DDatetime => true
  | _, _ => false
  end.

Definition isna (c : Cell) : bool :=
  match c with NaN => true | _ => false end.

Module DF.

(** [df.columns] *)
Definition columns (df : DataFrame) : list string := map fst (header df).

(** [len(df)] *)
Definition len (df : DataFrame) : Z := Z.of_nat (List.length (rows df)).

(** [df.empty]: some axis has length zero *)
Definition empty (df : DataFrame) : bool :=
  match header df, rows df with
  | [], _ => true
  | _, [] => true
  | _, _ => false
  end.

(** [col in df.columns] *)
Definition has_column (col : string) (df : DataFrame) : bool :=
  existsb (String.eqb col) (columns df).

(** [df.dropna(how='all')] *)
Definition dropna_all (df : DataFrame) : DataFrame :=
  {| header := header df;
     rows := filter (fun r => negb (forallb isna r)) (rows df) |}.

(** Position of the first column called [col]. *)
Fixpoint index_of (col : string) (cols : list string) : option nat :=
  match cols with
  | [] => None
  | c :: rest =>
      if String.eqb c col then Some O
      else option_map S (index_of col rest)
  end.

(** The value a row holds in column [col]; missing when there is no such
    column. *)
Definition cell_at (cols : list string) (col : string) (r : list Cell)
  : Cell :=
  match index_of col cols with
  | Some i => nth i r NaN
  | None => NaN
  end.

(** The values of column [col], top to bottom. *)
Definition column_values (col : string) (df : DataFrame) : list Cell :=
  map (cell_at (columns df) col) (rows df).

(** [df.drop_duplicates(subset=[col], keep='first')]: a row is kept when
    no earlier row carries the same value in [col]; missing values count
    as equal to each other. *)
Fixpoint keep_first (cols : list string) (col : string)
         (seen : list Cell) (rs : list (list Cell)) : list (list Cell) :=
  match rs with
  | [] => []
  | r :: rest =>
      let k := cell_at cols col r in
      if existsb (cell_eqb k) seen then keep_first cols col seen rest
      else r :: keep_first cols col (k :: seen) rest
  end.

Definition drop_duplicates (col : string) (df : DataFrame) : DataFrame :=
  {| header := header df;
     rows := keep_first (columns df) col [] (rows df) |}.

(** Apply [f] to the cells of every column named [col]. *)
Fixpoint map_in_row (cols : list string) (col : string)
         (f : Cell -> Cell) (r : list Cell) : list Cell :=
  match cols, r with
  | c :: cs, x :: xs =>
      (if String.eqb c col then f x else x) :: map_in_row cs col f xs
  | _, _ => r
  end.

Definition map_column (col : string) (f : Cell -> Cell) (dt : Dtype -> Dtype)
           (df : DataFrame) : DataFrame :=
  {| header := map (fun h => if String.eqb (fst h) col
                             then (fst h, dt (snd h)) else h) (header df);
     rows := map (map_in_row (columns df) col f) (rows df) |}.

(** [df[col] = value] with a scalar: overwrite the column when it is
    there, append it otherwise. *)
Definition assign (col : string) (dt : Dtype) (v : Cell) (df : DataFrame)
  : DataFrame :=
  if has_column col df
  then map_column col (fun _ => v) (fun _ => dt) df
  else {| header := header df ++ [(col, dt)];
          rows := map (fun r => r ++ [v]) (rows df) |}.

(** [df[col].dtype] when the name denotes one column. *)
Definition dtype_of (col : string) (df : DataFrame) : option Dtype :=
  match filter (fun h => String.eqb (fst h) col) (header df) with
  | [(_, dt)] => Some dt
  | _ => None
  end.

(** [df[col] = series]: the column takes the given values row by row. *)
Fixpoint put_rows (cols : list string) (col : string)
         (vals : list Cell) (rs : list (list Cell)) : list (list Cell) :=
  match rs, vals with
  | r :: rs', v :: vs =>
      map_in_row cols col (fun _ => v) r :: put_rows cols col vs rs'
  | _, _ => rs
  end.

Definition put_column (col : string) (dt : Dtype) (vals : list Cell)
           (df : DataFrame) : DataFrame :=
  {| header := map (fun h => if String.eqb (fst h) col
                             then (fst h, dt) else h) (header df);
     rows := put_rows (columns df) col vals (rows df) |}.

(** [df.columns = f(df.columns)] *)
Definition rename_columns (f : string -> string) (df : DataFrame)
  : DataFrame :=
  {| header := map (fun h => (f (fst h), snd h)) (header df);
     rows := rows df |}.

(** No two columns share a name. *)
Fixpoint unique_names (cols : list string) : bool :=
  match cols with
  | [] => true
  | c :: rest => negb (existsb (String.eqb c) rest) && unique_names rest
  end.

End DF.

(* ===================================================================== *)
(** ** Configuration ([config.py])                                        *)
(* ===================================================================== *)

Record DatabaseConfig : Type := {
  temp_schema : string;
  target_table : string;
  unique_key : string
}.

Record ProcessingConfig : Type := {
  pending_dir : string;
  processed_dir : string;
  file_retention_days : Z
}.

(** The defaults of the dataclass [DatabaseConfig]. *)
Definition default_database_config : DatabaseConfig :=
  {| temp_schema := "temp_processing";
     target_table := "tracking_data";
     unique_key := "hawb" |}.

(* ===================================================================== *)
(** ** Jobs ([queue_processor.py])                                        *)
(* ===================================================================== *)

Inductive JobStatus : Type :=
| PENDING | IN_PROGRESS | COMPLETED | FAILED | CANCELLED.

(** The values of the enumeration, and its members in their order. *)
Definition status_value (s : JobStatus) : string :=
  match s with
  | PENDING => "pending"
  | IN_PROGRESS => "in_progress"
  | COMPLETED => "completed"
  | FAILED => "failed"
  | CANCELLED => "cancelled"
  end.

Definition all_statuses : list JobStatus :=
  [PENDING; IN_PROGRESS; COMPLETED; FAILED; CANCELLED].

Definition status_eqb (a b : JobStatus) : bool :=
  match a, b with
  | PENDING, PENDING | IN_PROGRESS, IN_PROGRESS | COMPLETED, COMPLETED
  | FAILED, FAILED | CANCELLED, CANCELLED => true
  | _, _ => false
  end.

(** The states the specification calls terminal. *)
Definition is_terminal (s : JobStatus) : bool :=
  match s with
  | COMPLETED | FAILED | CANCELLED => true
  | PENDING | IN_PROGRESS => false
  end.

(** [job.processing_stats] as [process_job] fills it. *)
Record JobStats : Type := {
  total_records : Z;
  processed_files : Z;
  failed_files : Z;
  processing_time : Z
}.

Record ProcessingJob : Type := {
  id : string;
  email_uid : Z;
  subject : string;
  sender : string;
  date : Z;
  files : list string;
  status : JobStatus;
  created_at : Z;
  started_at : option Z;
  completed_at : option Z;
  error_message : option string;
  processing_stats : option JobStats;
  retry_count : Z;
  max_retries : Z
}.

(** The dictionary [add_job] receives. *)
Record JobData : Type := {
  jd_id : string;
  jd_email_uid : Z;
  jd_subject : string;
  jd_sender : string;
  jd_date : Z;
  jd_files : list string
}.

Definition with_status (s : JobStatus) (j : ProcessingJob) : ProcessingJob :=
  {| id := id j; email_uid := email_uid j; subject := subject j;
     sender := sender j; date := date j; files := files j;
     status := s; created_at := created_at j; started_at := started_at j;
     completed_at := completed_at j; error_message := error_message j;
     processing_stats := processing_stats j; retry_count := retry_count j;
     max_retries := max_retries j |}.

Definition with_started_at (t : Z) (j : ProcessingJob) : ProcessingJob :=
  {| id := id j; email_uid := email_uid j; subject := subject j;
     sender := sender j; date := date j; files := files j;
     status := status j; created_at := created_at j; started_at := Some t;
     completed_at := completed_at j; error_message := error_message j;
     processing_stats := processing_stats j; retry_count := retry_count j;
     max_retries := max_retries j |}.

Definition with_completed_at (t : Z) (j : ProcessingJob) : ProcessingJob :=
  {| id := id j; email_uid := email_uid j; subject := subject j;
     sender := sender j; date := date j; files := files j;
     status := status j; created_at := created_at j; started_at := started_at j;
     completed_at := Some t; error_message := error_message j;
     processing_stats := processing_stats j; retry_count := retry_count j;
     max_retries := max_retries j |}.

Definition with_error_message (e : string) (j : ProcessingJob)
  : ProcessingJob :=
  {| id := id j; email_uid := email_uid j; subject := subject j;
     sender := sender j; date := date j; files := files j;
     status := status j; created_at := created_at j; started_at := started_at j;
     completed_at := completed_at j; error_message := Some e;
     processing_stats := processing_stats j; retry_count := retry_count j;
     max_retries := max_retries j |}.

Definition with_processing_stats (s : JobStats) (j : ProcessingJob)
  : ProcessingJob :=
  {| id := id j; email_uid := email_uid j; subject := subject j;
     sender := sender j; date := date j; files := files j;
     status := status j; created_at := created_at j; started_at := started_at j;
     completed_at := completed_at j; error_message := error_message j;
     processing_stats := Some s; retry_count := retry_count j;
     max_retries := max_retries j |}.

Definition with_retry_count (n : Z) (j : ProcessingJob) : ProcessingJob :=
  {| id := id j; email_uid := email_uid j; subject := subject j;
     sender := sender j; date := date j; files := files j;
     status := status j; created_at := created_at j; started_at := started_at j;
     completed_at := completed_at j; error_message := error_message j;
     processing_stats := processing_stats j; retry_count := n;
     max_retries := max_retries j |}.

(** The job [add_job] builds from its dictionary. *)
Definition new_job (job_data : JobData) (t : Z) : ProcessingJob :=
  {| id := jd_id job_data; email_uid := jd_email_uid job_data;
     subject := jd_subject job_data; sender := jd_sender job_data;
     date := jd_date job_data; files := jd_files job_data;
     status := PENDING; created_at := t;
     started_at := None; completed_at := None; error_message := None;
     processing_stats := None; retry_count := 0; max_retries := 3 |}.

(* ===================================================================== *)
(** ** The duplicate index ([file_processor.py])                          *)
(* ===================================================================== *)

(** [processing_stats] of one file, as [process_job] builds it. *)
Record FileStats : Type := {
  records_processed : Z;
  temp_table : string;
  fs_processing_time : Z
}.

(** One entry of [FileProcessor._processed_files]. *)
Record FileInfo : Type := {
  file_path : string;
  file_hash : string;
  content_hash : string;
  processed_at : Z;
  file_size : Z;
  records_count : Z;
  fi_processing_stats : FileStats
}.

(* ===================================================================== *)
(** ** The world around the pipeline                                      *)
(* ===================================================================== *)

(** What the pipeline does that an observer can see, newest first in
    [log]. *)
Inductive Event : Type :=
| EvStatus (job : string) (s : JobStatus)      (* job.status = s *)
| EvStartedAt (job : string) (t : Z)           (* job.started_at = t *)
| EvCompletedAt (job : string) (t : Z)         (* job.completed_at = t *)
| EvAttempt (job : string) (attempt : Z)       (* process_job is entered *)
| EvSleep (retry_count : Z) (seconds : Z)      (* time.sleep(seconds) *)
| EvTempCreated (table : string)               (* staging table created *)
| EvTempDropped (table : string)               (* staging table dropped *)
| EvSql (statement : string)                   (* statement executed *)
| EvMarkRead (uid : Z).                        (* mail flagged as seen *)

Record World : Type := {
  clock : Z;                                   (* datetime.now() *)
  uuids : nat;                                 (* uuid4() calls so far *)
  fs : list (string * string);                 (* path to file content *)
  _processed_files : list (string * FileInfo); (* the duplicate index *)
  temp_schema_exists : bool;
  temp_tables : list (string * DataFrame);     (* the staging schema *)
  target : bool;                               (* the target table exists *)
  db_ok : nat -> bool;                         (* does the n-th call succeed *)
  db_calls : nat;                              (* database calls so far *)
  io_ok : Z -> bool;                           (* do mkdir and move go
                                                  through at this time *)
  log : list Event
}.

Definition with_clock (t : Z) (w : World) : World :=
  {| clock := t; uuids := uuids w; fs := fs w;
     _processed_files := _processed_files w;
     temp_schema_exists := temp_schema_exists w;
     temp_tables := temp_tables w; target := target w;
     db_ok := db_ok w; db_calls := db_calls w; io_ok := io_ok w;
     log := log w |}.

Definition with_uuids (n : nat) (w : World) : World :=
  {| clock := clock w; uuids := n; fs := fs w;
     _processed_files := _processed_files w;
     temp_schema_exists := temp_schema_exists w;
     temp_tables := temp_tables w; target := target w;
     db_ok := db_ok w; db_calls := db_calls w; io_ok := io_ok w;
     log := log w |}.

Definition with_fs (f : list (string * string)) (w : World) : World :=
  {| clock := clock w; uuids := uuids w; fs := f;
     _processed_files := _processed_files w;
     temp_schema_exists := temp_schema_exists w;
     temp_tables := temp_tables w; target := target w;
     db_ok := db_ok w; db_calls := db_calls w; io_ok := io_ok w;
     log := log w |}.

Definition with_processed_files (d : list (string * FileInfo)) (w : World)
  : World :=
  {| clock := clock w; uuids := uuids w; fs := fs w;
     _processed_files := d;
     temp_schema_exists := temp_schema_exists w;
     temp_tables := temp_tables w; target := target w;
     db_ok := db_ok w; db_calls := db_calls w; io_ok := io_ok w;
     log := log w |}.

Definition with_temp_schema (b : bool) (w : World) : World :=
  {| clock := clock w; uuids := uuids w; fs := fs w;
     _processed_files := _processed_files w;
     temp_schema_exists := b;
     temp_tables := temp_tables w; target := target w;
     db_ok := db_ok w; db_calls := db_calls w; io_ok := io_ok w;
     log := log w |}.

Definition with_temp_tables (t : list (string * DataFrame)) (w : World)
  : World :=
  {| clock := clock w; uuids := uuids w; fs := fs w;
     _processed_files := _processed_files w;
     temp_schema_exists := temp_schema_exists w;
     temp_tables := t; target := target w;
     db_ok := db_ok w; db_calls := db_calls w; io_ok := io_ok w;
     log := log w |}.

Definition with_target (t : bool) (w : World) : World :=
  {| clock := clock w; uuids := uuids w; fs := fs w;
     _processed_files := _processed_files w;
     temp_schema_exists := temp_schema_exists w;
     temp_tables := temp_tables w; target := t;
     db_ok := db_ok w; db_calls := db_calls w; io_ok := io_ok w;
     log := log w |}.

Definition with_db_calls (n : nat) (w : World) : World :=
  {| clock := clock w; uuids := uuids w; fs := fs w;
     _processed_files := _processed_files w;
     temp_schema_exists := temp_schema_exists w;
     temp_tables := temp_tables w; target := target w;
     db_ok := db_ok w; db_calls := n; io_ok := io_ok w; log := log w |}.

Definition with_io_ok (f : Z -> bool) (w : World) : World :=
  {| clock := clock w; uuids := uuids w; fs := fs w;
     _processed_files := _processed_files w;
     temp_schema_exists := temp_schema_exists w;
     temp_tables := temp_tables w; target := target w;
     db_ok := db_ok w; db_calls := db_calls w; io_ok := f;
     log := log w |}.

Definition emit (e : Event) (w : World) : World :=
  {| clock := clock w; uuids := uuids w; fs := fs w;
     _processed_files := _processed_files w;
     temp_schema_exists := temp_schema_exists w;
     temp_tables := temp_tables w; target := target w;
     db_ok := db_ok w; db_calls := db_calls w; io_ok := io_ok w;
     log := e :: log w |}.

(** [datetime.now()]: the reading, and a clock that has moved on. *)
Definition now (w : World) : Z * World :=
  (clock w, with_clock (clock w + 1) w).

(** [time.sleep(seconds)]; the job's retry count at that moment is logged
    with it. *)
Definition sleep (retry : Z) (seconds : Z) (w : World) : World :=
  emit (EvSleep retry seconds) (with_clock (clock w + seconds) w).

(** One round trip to the database server: it succeeds or raises. *)
Definition db_call (w : World) : bool * World :=
  (db_ok w (db_calls w), with_db_calls (S (db_calls w)) w).

(** Assignments to the fields of a job that the claims count. *)
Definition set_status (s : JobStatus) (j : ProcessingJob) (w : World)
  : ProcessingJob * World :=
  (with_status s j, emit (EvStatus (id j) s) w).

Definition set_started_at (j : ProcessingJob) (w : World)
  : ProcessingJob * World :=
  let '(t, w1) := now w in
  (with_started_at t j, emit (EvStartedAt (id j) t) w1).

Definition set_completed_at (j : ProcessingJob) (w : World)
  : ProcessingJob * World :=
  let '(t, w1) := now w in
  (with_completed_at t j, emit (EvCompletedAt (id j) t) w1).

(* ===================================================================== *)
(** ** Paths ([pathlib])                                                  *)
(* ===================================================================== *)

Module Path.

Fixpoint has_char (c : ascii) (s : string) : bool :=
  match s with
  | EmptyString => false
  | String d r => Ascii.eqb c d || has_char c r
  end.

(** [Path(p).name]: what follows the last separator. *)
Fixpoint name (p : string) : string :=
  match p with
  | EmptyString => EmptyString
  | String _ r => if has_char "/"%char p then name r else p
  end.

(** Split at the last dot: the text before it, and the text from it on. *)
Fixpoint split_last_dot (s : string) : option (string * string) :=
  match s with
  | EmptyString => None
  | String c r =>
      match split_last_dot r with
      | Some (a, b) => Some (String c a, b)
      | None => if Ascii.eqb c "."%char then Some (EmptyString, s) else None
      end
  end.

(** [(Path(p).stem, Path(p).suffix)] of a file name: the suffix starts at
    the last dot unless that dot opens or closes the name. *)
Definition stem_suffix (nm : string) : string * string :=
  match split_last_dot nm with
  | Some (a, b) =>
      if (String.eqb a EmptyString || (String.length b <=? 1)%nat)
      then (nm, EmptyString) else (a, b)
  | None => (nm, EmptyString)
  end.

(** [Path(a) / b] *)
Definition join (a b : string) : string := (a ++ "/" ++ b)%string.

End Path.

(* ===================================================================== *)
(** ** A small instance of the environment                                *)
(* ===================================================================== *)

(** The examples run the pipeline in an environment whose workbooks are
    lines of text: rows are separated by [;] and cells by [,], the first
    row is the header and every column is a text column. *)
Module Sample.

Fixpoint split_on (sep : ascii) (s : string) : list string :=
  match s with
  | EmptyString => [EmptyString]
  | String c rest =>
      if Ascii.eqb c sep then EmptyString :: split_on sep rest
      else match split_on sep rest with
           | [] => [String c EmptyString]
           | part :: parts => String c part :: parts
           end
  end.

Definition cell_of (s : string) : Cell :=
  if String.eqb s EmptyString then NaN else Str s.

Definition parse (text : string) : DataFrame :=
  match split_on ";"%char text with
  | [] => {| header := []; rows := [] |}
  | first :: others =>
      {| header := map (fun c => (c, DObject)) (split_on ","%char first);
         rows := map (fun r => map cell_of (split_on ","%char r)) others |}
  end.

(** A workbook that starts with [!] cannot be read; one that starts with
    [~] holds the same sheet in another encoding. *)
Definition read_excel (bytes : string) : string + DataFrame :=
  match bytes with
  | String "!"%char _ => inl "File is not a zip file"%string
  | String "~"%char text => inr (parse text)
  | _ => inr (parse bytes)
  end.

Definition show_cell (c : Cell) : string :=
  match c with
  | NaN => "NaN"
  | Str s => s
  | Num x => Py.str_int x
  | Stamp t => ("T" ++ Py.str_int t)%string
  end.

Definition to_string (df : DataFrame) : string :=
  Py.join ";" (Py.join "," (DF.columns df)
               :: map (fun r => Py.join "," (map show_cell r)) (rows df)).

Definition md5 (bytes : string) : string := ("#" ++ bytes)%string.

Definition to_datetime (col : list Cell) : option (list Cell) := None.

Definition proc_config : ProcessingConfig :=
  {| pending_dir := "pending"; processed_dir := "processed";
     file_retention_days := 30 |}.

(** A world with the given files, in which the database answers as the
    oracle says. *)
Definition world (files : list (string * string)) (oracle : nat -> bool)
  : World :=
  {| clock := 0; uuids := 0; fs := files; _processed_files := [];
     temp_schema_exists := false; temp_tables := []; target := false;
     db_ok := oracle; db_calls := 0; io_ok := fun _ => true; log := [] |}.

Definition job_data (files : list string) : JobData :=
  {| jd_id := "email_7_0000"; jd_email_uid := 7; jd_subject := "report";
     jd_sender := "ops@example.org"; jd_date := 0; jd_files := files |}.

(** The database is down for the first call and up afterwards. *)
Definition down_once (n : nat) : bool := negb (Nat.eqb n 0).

Definition always_down (n : nat) : bool := false.

Definition always_up (n : nat) : bool := true.

(** The database answers the first [k] calls and is down afterwards. *)
Definition up_for (k n : nat) : bool := Nat.ltb n k.

(** One sheet, and the same sheet in the other encoding. *)
Definition sheet : string := "hawb,x;A,1;B,2".

Definition sheet_again : string := "~hawb,x;A,1;B,2".

(** A sheet without the key column, and one in which a key comes twice. *)
Definition sheet_without_key : string := "awb,x;A,1".

Definition sheet_with_repeated_key : string := "hawb,x;A,1;A,2".

(** A job that has been started at time 0. *)
Definition started_job (files : list string) : ProcessingJob :=
  with_started_at 0 (with_status IN_PROGRESS (new_job (job_data files) 0)).

End Sample.

(* ===================================================================== *)
(** ** The file processor and the database handler                        *)
(* ===================================================================== *)

Section Pipeline.

(** What the repository takes from its libraries and its configuration. *)
Variable md5 : string -> string.               (* hashlib.md5(b).hexdigest() *)
Variable read_excel : string -> string + DataFrame.
                                               (* pd.read_excel: the error
                                                  raised, or the frame *)
Variable to_string : DataFrame -> string.      (* df.to_string(index=False) *)
Variable to_datetime : list Cell -> option (list Cell).
                                               (* pd.to_datetime(coerce);
                                                  None when it raises *)
Variable isoformat : Z -> string.              (* str() of a point in time *)
Variable strftime_Ymd : Z -> string.           (* strftime("%Y%m%d") *)
Variable uuid4_hex8 : nat -> string.           (* uuid.uuid4().hex[:8] *)
Variable db_config : DatabaseConfig.
Variable proc_config : ProcessingConfig.

(** [series.astype(str)] on one cell *)
Definition astype_str (c : Cell) : string :=
  match c with
  | NaN => "nan"
  | Str s => s
  | Num x => Py.str_int x
  | Stamp t => isoformat t
  end.

(** *** file_processor.py *)

(** [_calculate_file_hash]: the digest of the bytes, or the empty string
    when the file cannot be read. *)
Definition _calculate_file_hash (path : string) (w : World) : string :=
  match Py.dict_get path (fs w) with
  | Some bytes => md5 bytes
  | None => EmptyString
  end.

(** [_calculate_content_hash] *)
Definition _calculate_content_hash (df : DataFrame) : string :=
  md5 (to_string df).

(** The first record of the index that [select] maps to [h], in the
    order the dictionary iterates. *)
Fixpoint find_record (select : FileInfo -> string) (h : string)
         (d : list (string * FileInfo)) : option string :=
  match d with
  | [] => None
  | (processed_file, info) :: rest =>
      if String.eqb (select info) h then Some processed_file
      else find_record select h rest
  end.

(** [is_duplicate_file] *)
Definition is_duplicate_file (path : string) (w : World)
  : bool * option string :=
  let h := _calculate_file_hash path w in
  if String.eqb h EmptyString then (false, None)
  else match find_record file_hash h (_processed_files w) with
       | Some processed_file => (true, Some processed_file)
       | None => (false, None)
       end.

(** [is_duplicate_content] *)
Definition is_duplicate_content (df : DataFrame) (path : string) (w : World)
  : bool * option string :=
  let h := _calculate_content_hash df in
  if String.eqb h EmptyString then (false, None)
  else match find_record content_hash h (_processed_files w) with
       | Some processed_file => (true, Some processed_file)
       | None => (false, None)
       end.

(** The outcome of validating or processing a file:
    [(is_valid, error_msg, df)]. *)
Definition FileResult : Type := (bool * option string * option DataFrame)%type.

Definition rejected (msg : string) : FileResult := (false, Some msg, None).

(** [validate_excel_file] *)
Definition validate_excel_file (path : string) (w : World) : FileResult :=
  match Py.dict_get path (fs w) with
  | None => rejected ("File does not exist: " ++ path)
  | Some bytes =>
      if (String.length bytes =? 0)%nat
      then rejected ("File is empty: " ++ path)
      else if negb (Py.endswith (Py.lower path) ".xlsx"
                    || Py.endswith (Py.lower path) ".xls")
      then rejected ("Not an Excel file: " ++ path)
      else match read_excel bytes with
           | inl e => rejected ("Error reading Excel file: " ++ e)
           | inr df =>
               if DF.empty df
               then rejected ("Excel file contains no data: " ++ path)
               else
                 let required_columns := ["hawb"] in
                 let missing_columns :=
                   filter (fun col => negb (DF.has_column col df))
                          required_columns in
                 match missing_columns with
                 | _ :: _ =>
                     rejected ("Missing required columns: "
                               ++ Py.repr_list missing_columns)
                 | [] => (true, None, Some df)
                 end
           end
  end.

(** The last loop of [_process_dataframe]: text columns are trimmed, and
    the texts [nan] and the empty text become missing.  When a name
    denotes several columns [df[col].dtype] raises, and the frame is
    returned as it stands. *)
Definition clean_text (c : Cell) : Cell :=
  let s := Py.strip (astype_str c) in
  let s := if String.eqb s "nan" then EmptyString else s in
  if String.eqb s EmptyString then NaN else Str s.

Fixpoint clean_text_columns (cols : list string) (df : DataFrame)
  : DataFrame :=
  match cols with
  | [] => df
  | col :: rest =>
      match DF.dtype_of col df with
      | None => df
      | Some DObject =>
          clean_text_columns rest
            (DF.map_column col clean_text (fun dt => dt) df)
      | Some _ => clean_text_columns rest df
      end
  end.

(** [_process_dataframe] *)
Definition _process_dataframe (df : DataFrame) (path : string) (w : World)
  : DataFrame * World :=
  let df := DF.dropna_all df in
  let unique_key := "hawb" in
  let df := if DF.has_column unique_key df
            then DF.drop_duplicates unique_key df else df in
  let df := DF.rename_columns
              (fun c => Py.replace_space (Py.lower (Py.strip c))) df in
  let df := DF.assign "file_source" DObject (Str (Path.name path)) df in
  let '(t, w) := now w in
  let df := DF.assign "processed_at" DDatetime (Stamp t) df in
  (clean_text_columns (DF.columns df) df, w).

(** [process_excel_file]: validation, the byte fingerprint, the content
    fingerprint, then cleaning. *)
Definition process_excel_file (path : string) (w : World)
  : FileResult * World :=
  match validate_excel_file path w with
  | (true, _, Some df) =>
      match is_duplicate_file path w with
      | (true, Some duplicate_file) =>
          (rejected ("File is duplicate of " ++ duplicate_file), w)
      | _ =>
          match is_duplicate_content df path w with
          | (true, Some duplicate_content_file) =>
              (rejected ("Content is duplicate of "
                         ++ duplicate_content_file), w)
          | _ =>
              let '(df, w) := _process_dataframe df path w in
              ((true, None, Some df), w)
          end
      end
  | (_, error_msg, _) => ((false, error_msg, None), w)
  end.

(** [mark_file_as_processed]: the clock is read while the record is
    built; nothing is recorded when the file is gone ([stat] raises and the
    exception is swallowed). *)
Definition mark_file_as_processed (path : string) (df : DataFrame)
           (stats : FileStats) (w : World) : World :=
  let '(t, w) := now w in
  match Py.dict_get path (fs w) with
  | None => w
  | Some bytes =>
      let file_info :=
        {| file_path := path;
           file_hash := _calculate_file_hash path w;
           content_hash := _calculate_content_hash df;
           processed_at := t;
           file_size := Z.of_nat (String.length bytes);
           records_count := DF.len df;
           fi_processing_stats := stats |} in
      with_processed_files (Py.dict_set path file_info (_processed_files w)) w
  end.

(** The loop of [move_to_processed] that looks for a free name. *)
Fixpoint free_destination (fuel : nat) (subdir stem ext : string)
         (counter : nat) (destination : string) (files : list (string * string))
  : option string :=
  if negb (Py.dict_mem destination files) then Some destination
  else match fuel with
       | O => None
       | S fuel' =>
           free_destination fuel' subdir stem ext (S counter)
             (Path.join subdir (stem ++ "_" ++ Py.str_nat counter ++ ext))
             files
       end.

(** [move_to_processed].  The map of files says nothing about
    directories, access rights or room on the disk: whether [mkdir] and
    [shutil.move] go through at the time of the call is the world's
    [io_ok]; when one of them raises, the handler returns [False]. *)
Definition move_to_processed (path : string) (w : World) : bool * World :=
  match Py.dict_get path (fs w) with
  | None => (false, w)
  | Some bytes =>
      let '(t, w) := now w in
      let processed_subdir :=
        Path.join (processed_dir proc_config) (strftime_Ymd t) in
      if negb (io_ok w t) then (false, w)
      else
        let '(stem, ext) := Path.stem_suffix (Path.name path) in
        match free_destination (S (List.length (fs w))) processed_subdir
                stem ext 1%nat
                (Path.join processed_subdir (Path.name path)) (fs w) with
        | Some destination =>
            (true, with_fs (Py.dict_set destination bytes
                              (Py.dict_del path (fs w))) w)
        | None => (false, w)
        end
  end.

(** [_cleanup_processed_files_db]: the records older than the cut-off
    date are dropped from the index (the copy of the index that is
    written to disk is not part of the world). *)
Definition _cleanup_processed_files_db (cutoff_date : Z) (w : World) : World :=
  with_processed_files
    (filter (fun entry => cutoff_date <=? processed_at (snd entry))
            (_processed_files w)) w.

(** *** database_handler.py *)

Definition nl : string := String (ascii_of_nat 10) EmptyString.

Fixpoint spaces (n : nat) : string :=
  match n with
  | O => EmptyString
  | S k => String " "%char (spaces k)
  end.

(** [f"{self.config.temp_schema}.{table_name}"] *)
Definition full_table_name (table_name : string) : string :=
  (temp_schema db_config ++ "." ++ table_name)%string.

(** The text of [create_table_query]. *)
Definition create_table_query (target_table full_temp_table : string)
  : string :=
  (nl ++ spaces 24 ++ "CREATE TABLE " ++ target_table ++ " AS " ++
   nl ++ spaces 24 ++ "SELECT * FROM " ++ full_temp_table ++ " WHERE 1=0" ++
   nl ++ spaces 20)%string.

(** [update_str]: one assignment for every column but the key. *)
Definition update_assignments (unique_key : string) (columns : list string)
  : list string :=
  map (fun col => (col ++ " = src." ++ col)%string)
      (filter (fun col => negb (String.eqb col unique_key)) columns).

(** The text of [upsert_query]. *)
Definition upsert_query (target_table full_temp_table unique_key : string)
           (columns : list string) : string :=
  let columns_str := Py.join ", " columns in
  let update_str := Py.join ", " (update_assignments unique_key columns) in
  (nl ++ spaces 20 ++ "INSERT INTO " ++ target_table
      ++ " (" ++ columns_str ++ ")" ++
   nl ++ spaces 20 ++ "SELECT " ++ columns_str
      ++ " FROM " ++ full_temp_table ++ " src" ++
   nl ++ spaces 20 ++ "ON CONFLICT (" ++ unique_key ++ ") DO UPDATE SET" ++
   nl ++ spaces 20 ++ update_str ++
   nl ++ spaces 16)%string.

(** [create_temp_schema] *)
Definition create_temp_schema (w : World) : bool * World :=
  let '(ok, w) := db_call w in
  if ok
  then (true,
        if temp_schema_exists w then w
        else emit (EvSql ("CREATE SCHEMA IF NOT EXISTS "
                          ++ temp_schema db_config))
                  (with_temp_schema true w))
  else (false, w).

(** [create_temp_table] *)
Definition create_temp_table (table_name : string) (df : DataFrame)
           (w : World) : bool * World :=
  let '(ok, w) := db_call w in
  if ok
  then (true,
        emit (EvTempCreated table_name)
          (with_temp_tables (Py.dict_set table_name df (temp_tables w)) w))
  else (false, w).

(** The first loop of [_clean_dataframe]: a text column in which some
    value looks like a date is parsed as dates. *)
Fixpoint convert_dates (cols : list string) (df : DataFrame) : DataFrame :=
  match cols with
  | [] => df
  | col :: rest =>
      convert_dates rest
        match DF.dtype_of col df with
        | Some DObject =>
            let vals := DF.column_values col df in
            if existsb (fun c => Py.contains_date (astype_str c)) vals
            then match to_datetime vals with
                 | Some parsed => DF.put_column col DDatetime parsed df
                 | None => df
                 end
            else df
        | _ => df
        end
  end.

(** The second loop: missing text becomes the empty text, a missing
    number becomes zero. *)
Definition fillna (dt : Dtype) (c : Cell) : Cell :=
  match dt, c with
  | DObject, NaN => Str EmptyString
  | DInt64, NaN | DFloat64, NaN => Num 0
  | _, _ => c
  end.

Fixpoint fill_missing (cols : list string) (df : DataFrame) : DataFrame :=
  match cols with
  | [] => df
  | col :: rest =>
      fill_missing rest
        match DF.dtype_of col df with
        | Some dt => DF.map_column col (fillna dt) (fun d => d) df
        | None => df
        end
  end.

(** [_clean_dataframe]; [None] when it raises, which it does when a name
    denotes several columns. *)
Definition _clean_dataframe (df : DataFrame) (w : World)
  : option DataFrame * World :=
  let df := DF.dropna_all df in
  if negb (DF.unique_names (DF.columns df)) then (None, w)
  else
    let df := convert_dates (DF.columns df) df in
    let df := fill_missing (DF.columns df) df in
    let '(t, w) := now w in
    let df := DF.assign "processed_at" DDatetime (Stamp t) df in
    let df := DF.assign "file_source" DObject (Str "email_attachment") df in
    (Some df, w).

(** [load_excel_to_temp_table] *)
Definition load_excel_to_temp_table (path table_name : string) (w : World)
  : (bool * option DataFrame) * World :=
  match Py.dict_get path (fs w) with
  | None => ((false, None), w)
  | Some bytes =>
      match read_excel bytes with
      | inl _ => ((false, None), w)
      | inr df =>
          if DF.empty df then ((false, None), w)
          else if negb (DF.has_column (unique_key db_config) df)
          then ((false, None), w)
          else
            match _clean_dataframe df w with
            | (None, w) => ((false, None), w)
            | (Some df, w) =>
                let '(ok, w) := create_temp_table table_name df w in
                if ok then ((true, Some df), w) else ((false, None), w)
            end
      end
  end.

(** [upsert_data_to_target_table], with the default target table: the
    target is created from the staging table when the inspector does not
    find it, then the upsert statement is executed.  The world keeps the
    statements as they are sent and whether the target exists; what the
    server makes of the rows is not part of it. *)
Definition upsert_data_to_target_table (temp_table_name : string) (w : World)
  : bool * World :=
  let '(ok, w) := db_call w in
  match ok, Py.dict_get temp_table_name (temp_tables w) with
  | true, Some staged =>
      let full_temp_table := full_table_name temp_table_name in
      let w := if target w then w
               else emit (EvSql (create_table_query (target_table db_config)
                                   full_temp_table))
                         (with_target true w) in
      let columns := DF.columns staged in
      (true,
       emit (EvSql (upsert_query (target_table db_config) full_temp_table
                      (unique_key db_config) columns)) w)
  | _, _ => (false, w)
  end.

(** [cleanup_temp_table] *)
Definition cleanup_temp_table (table_name : string) (w : World)
  : bool * World :=
  let '(ok, w) := db_call w in
  if ok
  then (true,
        emit (EvTempDropped table_name)
          (with_temp_tables (Py.dict_del table_name (temp_tables w)) w))
  else (false, w).

(** *** queue_processor.py: JobProcessor *)

(** The body of the loop over [job.files] for one path: whether the path
    joins [processed_files], and what it adds to [total_records].  Every
    early [continue] of the source is a branch that returns here. *)
Definition process_file (job : ProcessingJob) (path : string) (w : World)
  : (bool * Z) * World :=
  match process_excel_file path w with
  | ((true, _, _), w) =>
      let temp_table_name :=
        ("temp_job_" ++ id job ++ "_" ++ uuid4_hex8 (uuids w))%string in
      let w := with_uuids (S (uuids w)) w in
      match load_excel_to_temp_table path temp_table_name w with
      | ((true, Some loaded_df), w) =>
          let '(upserted, w) := upsert_data_to_target_table temp_table_name w in
          if negb upserted then ((false, 0), w)
          else
            let record_count := DF.len loaded_df in
            let '(t, w) := now w in
            match started_at job with
            | None => ((false, record_count), w)
            | Some started =>
                let stats := {| records_processed := record_count;
                                temp_table := temp_table_name;
                                fs_processing_time := t - started |} in
                let w := mark_file_as_processed path loaded_df stats w in
                let '(moved, w) := move_to_processed path w in
                let '(_, w) := cleanup_temp_table temp_table_name w in
                ((moved, record_count), w)
            end
      | (_, w) => ((false, 0), w)
      end
  | (_, w) => ((false, 0), w)
  end.

(** The loop over [job.files], with its two accumulators. *)
Fixpoint process_files (job : ProcessingJob) (paths : list string)
         (total_records : Z) (processed : list string) (w : World)
  : Z * list string * World :=
  match paths with
  | [] => (total_records, processed, w)
  | path :: rest =>
      let '((counted, n), w) := process_file job path w in
      process_files job rest (total_records + n)
        (if counted then processed ++ [path] else processed) w
  end.

(** [JobProcessor.process_job].  The only exception that reaches the outer
    handler is the one raised when the staging schema cannot be created. *)
Definition process_job (job : ProcessingJob) (w : World)
  : bool * ProcessingJob * World :=
  let '(job, w) := set_status IN_PROGRESS job w in
  let '(job, w) := set_started_at job w in
  let '(ok, w) := create_temp_schema w in
  if negb ok then
    let '(job, w) := set_status FAILED job w in
    let job := with_error_message "Failed to create temporary schema" job in
    let '(job, w) := set_completed_at job w in
    (false, job, w)
  else
    let '(total, processed, w) := process_files job (files job) 0 [] w in
    let w := match processed with
             | [] => w
             | _ :: _ => emit (EvMarkRead (email_uid job)) w
             end in
    let '(job, w) := set_status COMPLETED job w in
    let '(job, w) := set_completed_at job w in
    let elapsed := match completed_at job, started_at job with
                   | Some c, Some s => c - s
                   | _, _ => 0
                   end in
    let n := Z.of_nat (List.length processed) in
    let job := with_processing_stats
                 {| total_records := total;
                    processed_files := n;
                    failed_files := Z.of_nat (List.length (files job)) - n;
                    processing_time := elapsed |} job in
    (true, job, w).

(** The first three statements of [process_job]: the job is marked as
    running and the staging schema is asked for. *)
Definition entry (job : ProcessingJob) (w : World)
  : bool * ProcessingJob * World :=
  let '(job, w) := set_status IN_PROGRESS job w in
  let '(job, w) := set_started_at job w in
  let '(ok, w) := create_temp_schema w in
  (ok, job, w).

(** *** queue_processor.py: QueueProcessor *)

(** What a call of [self.job_processor.process_job] can do: return a
    flag, or raise. *)
Inductive Outcome : Type :=
| Returned (success : bool)
| Raised (e : string).

Definition Processor : Type :=
  ProcessingJob -> World -> Outcome * ProcessingJob * World.

(** The loop of [_process_job_with_retry] over the attempts that are
    left. *)
Fixpoint retry_attempts (proc : Processor) (attempts : list Z)
         (job : ProcessingJob) (w : World) : bool * ProcessingJob * World :=
  match attempts with
  | [] => (false, job, w)
  | attempt :: rest =>
      let job := if 0 <? attempt then with_retry_count attempt job else job in
      let w := emit (EvAttempt (id job) attempt) w in
      match proc job w with
      | (Returned true, job, w) => (true, job, w)
      | (Returned false, job, w) =>
          let w := if attempt <? max_retries job
                   then sleep (retry_count job) (2 ^ attempt) w else w in
          retry_attempts proc rest job w
      | (Raised e, job, w) =>
          if attempt <? max_retries job
          then retry_attempts proc rest job
                 (sleep (retry_count job) (2 ^ attempt) w)
          else
            let '(job, w) := set_status FAILED job w in
            let job := with_error_message e job in
            let '(job, w) := set_completed_at job w in
            retry_attempts proc rest job w
      end
  end.

Definition retry_with (proc : Processor) (job : ProcessingJob) (w : World)
  : bool * ProcessingJob * World :=
  retry_attempts proc (Py.range (max_retries job + 1)) job w.

(** [self.job_processor.process_job]: it catches what it raises. *)
Definition job_processor : Processor :=
  fun job w =>
    let '(success, job, w) := process_job job w in
    (Returned success, job, w).

(** [QueueProcessor._process_job_with_retry] *)
Definition _process_job_with_retry (job : ProcessingJob) (w : World)
  : bool * ProcessingJob * World :=
  retry_with job_processor job w.

Record QueueProcessor : Type := {
  job_queue : list ProcessingJob;                 (* queue.Queue, FIFO *)
  processed_jobs : list (string * ProcessingJob); (* dict by job id *)
  is_running : bool
}.

Definition new_queue_processor : QueueProcessor :=
  {| job_queue := []; processed_jobs := []; is_running := false |}.

(** [QueueProcessor.add_job] *)
Definition add_job (job_data : JobData) (q : QueueProcessor) (w : World)
  : ProcessingJob * QueueProcessor * World :=
  let '(t, w) := now w in
  let job := new_job job_data t in
  (job,
   {| job_queue := job_queue q ++ [job];
      processed_jobs := processed_jobs q;
      is_running := is_running q |},
   w).

(** One turn of [_worker_loop]: nothing when the queue stays empty for
    the time-out, otherwise the head of the queue is run and stored. *)
Definition _worker_step (q : QueueProcessor) (w : World)
  : QueueProcessor * World :=
  match job_queue q with
  | [] => (q, w)
  | job :: rest =>
      let '(_, job, w) := _process_job_with_retry job w in
      ({| job_queue := rest;
          processed_jobs := Py.dict_set (id job) job (processed_jobs q);
          is_running := is_running q |}, w)
  end.

(** [_worker_loop], for a number of turns. *)
Fixpoint _worker_loop (turns : nat) (q : QueueProcessor) (w : World)
  : QueueProcessor * World :=
  match turns with
  | O => (q, w)
  | S n =>
      if is_running q
      then let '(q, w) := _worker_step q w in _worker_loop n q w
      else (q, w)
  end.

(** [QueueProcessor.cancel_job] *)
Definition cancel_job (job_id : string) (q : QueueProcessor) (w : World)
  : bool * QueueProcessor * World :=
  match Py.dict_get job_id (processed_jobs q) with
  | Some job =>
      if status_eqb (status job) PENDING then
        let '(job, w) := set_status CANCELLED job w in
        let '(job, w) := set_completed_at job w in
        (true,
         {| job_queue := job_queue q;
            processed_jobs := Py.dict_set job_id job (processed_jobs q);
            is_running := is_running q |},
         w)
      else (false, q, w)
  | None => (false, q, w)
  end.

(** [QueueProcessor.add_jobs] *)
Fixpoint add_jobs (jobs_data : list JobData) (q : QueueProcessor) (w : World)
  : list ProcessingJob * QueueProcessor * World :=
  match jobs_data with
  | [] => ([], q, w)
  | job_data :: rest =>
      let '(job, q, w) := add_job job_data q w in
      let '(jobs, q, w) := add_jobs rest q w in
      (job :: jobs, q, w)
  end.

(** [QueueProcessor.start_processing] and [stop_processing], without the
    thread they start and join. *)
Definition start_processing (q : QueueProcessor) : QueueProcessor :=
  if is_running q then q
  else {| job_queue := job_queue q; processed_jobs := processed_jobs q;
          is_running := true |}.

Definition stop_processing (q : QueueProcessor) : QueueProcessor :=
  {| job_queue := job_queue q; processed_jobs := processed_jobs q;
     is_running := false |}.

(** [QueueProcessor.get_active_job] *)
Definition get_active_job (q : QueueProcessor) : option ProcessingJob :=
  find (fun job => status_eqb (status job) IN_PROGRESS)
       (map snd (processed_jobs q)).

(** [QueueProcessor.clear_completed_jobs] *)
Definition clear_completed_jobs (q : QueueProcessor) : QueueProcessor :=
  {| job_queue := job_queue q;
     processed_jobs :=
       filter (fun entry =>
                 negb (existsb (status_eqb (status (snd entry)))
                         [COMPLETED; FAILED; CANCELLED]))
              (processed_jobs q);
     is_running := is_running q |}.

(** [QueueProcessor.get_queue_status] *)
Record QueueStatus : Type := {
  qs_is_running : bool;
  pending_jobs : Z;
  total_processed : Z;
  status_counts : list (string * Z)
}.

(** [status_counts[job.status.value] += 1] *)
Definition count_status (counts : list (string * Z)) (job : ProcessingJob)
  : list (string * Z) :=
  match Py.dict_get (status_value (status job)) counts with
  | Some n => Py.dict_set (status_value (status job)) (n + 1) counts
  | None => counts
  end.

Definition get_queue_status (q : QueueProcessor) : QueueStatus :=
  {| qs_is_running := is_running q;
     pending_jobs := Z.of_nat (List.length (job_queue q));
     total_processed := Z.of_nat (List.length (processed_jobs q));
     status_counts :=
       fold_left count_status (map snd (processed_jobs q))
                 (map (fun s => (status_value s, 0)) all_statuses) |}.

(** [QueueProcessor.get_job_history].  The key of the sort is
    [x.completed_at or x.created_at]; [jobs.sort(key=..., reverse=True)]
    puts the jobs in the order of falling keys and leaves jobs with equal
    keys in the order they had; [jobs[:limit]] cuts the list, from the
    end when the limit is negative.  An entry of the result is the job
    itself instead of the dictionary made of its fields. *)
Definition history_key (job : ProcessingJob) : Z :=
  match completed_at job with
  | Some t => t
  | None => created_at job
  end.

Fixpoint insert_desc (key : ProcessingJob -> Z) (x : ProcessingJob)
         (sorted : list ProcessingJob) : list ProcessingJob :=
  match sorted with
  | [] => [x]
  | y :: rest =>
      if key y <? key x then x :: sorted else y :: insert_desc key x rest
  end.

Definition sort_desc (key : ProcessingJob -> Z) (jobs : list ProcessingJob)
  : list ProcessingJob :=
  fold_left (fun sorted x => insert_desc key x sorted) jobs [].

Definition slice_to (limit : Z) (jobs : list ProcessingJob)
  : list ProcessingJob :=
  if 0 <=? limit then firstn (Z.to_nat limit) jobs
  else firstn (List.length jobs - Z.to_nat (- limit)) jobs.

Definition get_job_history (limit : Z) (q : QueueProcessor)
  : list ProcessingJob :=
  slice_to limit (sort_desc history_key (map snd (processed_jobs q))).

(** The states of the queue processor that its methods can lead to, in
    whatever world they are called. *)
Inductive reachable : QueueProcessor -> Prop :=
| reach_new : reachable new_queue_processor
| reach_add_job (job_data : JobData) (q q' : QueueProcessor) (w w' : World)
                (job : ProcessingJob) :
    reachable q -> add_job job_data q w = (job, q', w') -> reachable q'
| reach_worker (q q' : QueueProcessor) (w w' : World) :
    reachable q -> _worker_step q w = (q', w') -> reachable q'
| reach_cancel (job_id : string) (q q' : QueueProcessor) (w w' : World)
               (r : bool) :
    reachable q -> cancel_job job_id q w = (r, q', w') -> reachable q'
| reach_clear (q : QueueProcessor) :
    reachable q -> reachable (clear_completed_jobs q)
| reach_start (q : QueueProcessor) :
    reachable q -> reachable (start_processing q)
| reach_stop (q : QueueProcessor) :
    reachable q -> reachable (stop_processing q).

(** *** The duplicate index as the pipeline fills it *)

(** Every record of the index carries, as its content fingerprint, the
    fingerprint of a frame that has a [processed_at] column. *)
Definition index_from_pipeline (w : World) : Prop :=
  forall (p : string) (info : FileInfo),
    In (p, info) (_processed_files w) ->
    exists c : DataFrame,
      content_hash info = _calculate_content_hash c
      /\ DF.has_column "processed_at" c = true.

(** *** What a run leaves in the log *)

(** The events that concern the life of a job, without their time
    stamps. *)
Inductive Step : Type :=
| Attempt (k : Z)
| Status (s : JobStatus)
| Started
| Completed
| Sleep (retry_count seconds : Z).

Definition step_of (e : Event) : list Step :=
  match e with
  | EvAttempt _ k => [Attempt k]
  | EvStatus _ s => [Status s]
  | EvStartedAt _ _ => [Started]
  | EvCompletedAt _ _ => [Completed]
  | EvSleep r s => [Sleep r s]
  | EvTempCreated _ | EvTempDropped _ | EvSql _ | EvMarkRead _ => []
  end.

(** The steps logged so far, oldest first. *)
Definition trace (w : World) : list Step :=
  List.rev (flat_map step_of (log w)).

(** Projections of a trace. *)
Definition attempts_in (t : list Step) : list Z :=
  flat_map (fun s => match s with Attempt k => [k] | _ => [] end) t.

Definition sleeps_in (t : list Step) : list (Z * Z) :=
  flat_map (fun s => match s with Sleep r d => [(r, d)] | _ => [] end) t.

Definition statuses_in (t : list Step) : list JobStatus :=
  flat_map (fun s => match s with Status x => [x] | _ => [] end) t.



Definition ends_with_sleep (t : list Step) : bool :=
  match List.rev t with
  | Sleep _ _ :: _ => true
  | _ => false
  end.

(** Does a sequence of statuses ever leave a terminal state for another
    state? *)
Fixpoint leaves_terminal (ss : list JobStatus) : bool :=
  match ss with
  | a :: ((b :: _) as rest) =>
      (is_terminal a && negb (status_eqb a b)) || leaves_terminal rest
  | _ => false
  end.

(** The same, when the step from [FAILED] to [IN_PROGRESS] that a retry
    takes is not counted. *)
Fixpoint leaves_terminal_without_retry (ss : list JobStatus) : bool :=
  match ss with
  | a :: ((b :: _) as rest) =>
      (is_terminal a && negb (status_eqb a b)
       && negb (status_eqb a FAILED && status_eqb b IN_PROGRESS))
      || leaves_terminal_without_retry rest
  | _ => false
  end.

(** The staging tables created and not dropped again, by the log. *)
Fixpoint leaked_tables (history : list Event) (live : list string)
  : list string :=
  match history with
  | [] => live
  | EvTempCreated t :: rest =>
      leaked_tables rest (t :: filter (fun x => negb (String.eqb x t)) live)
  | EvTempDropped t :: rest =>
      leaked_tables rest (filter (fun x => negb (String.eqb x t)) live)
  | _ :: rest => leaked_tables rest live
  end.

(** The seconds a trace spends sleeping. *)
Definition total_sleep (t : list Step) : Z :=
  fold_right Z.add 0 (map snd (sleeps_in t)).

(** The e-mails [process_job] has asked to have marked as read, newest
    first. *)
Definition mark_reads (w : World) : list Z :=
  flat_map (fun e => match e with EvMarkRead uid => [uid] | _ => [] end)
           (log w).

(** The trace one failed attempt, numbered [k], adds; [m] is the retry
    budget. *)
Definition failed_attempt (m k : Z) : list Step :=
  [Attempt k; Status IN_PROGRESS; Started; Status FAILED; Completed]
    ++ (if k <? m then [Sleep k (2 ^ k)] else []).

Definition successful_attempt (k : Z) : list Step :=
  [Attempt k; Status IN_PROGRESS; Started; Status COMPLETED; Completed].

(* ===================================================================== *)
(** ** Properties                                                         *)
(* ===================================================================== *)

(** *** The trace under the operations *)

Lemma rev_step_of (e : Event) : List.rev (step_of e) = step_of e.
Proof. destruct e; reflexivity. Qed.

Lemma trace_emit (e : Event) (w : World) :
  trace (emit e w) = trace w ++ step_of e.
Proof.
  unfold trace; simpl. rewrite rev_app_distr, rev_step_of. reflexivity.
Qed.

Lemma trace_emit_quiet (e : Event) (w : World) :
  step_of e = [] -> trace (emit e w) = trace w.
Proof. intros H. rewrite trace_emit, H, app_nil_r. reflexivity. Qed.

(** Case analysis on the scrutinee of the first [match] of the goal. *)
Ltac case_match :=
  match goal with
  | |- context [match ?x with _ => _ end] => destruct x eqn:?
  end.

Ltac inv H := inversion H; subst; clear H.

Lemma validate_total (path : string) (w : World) :
  forall r, validate_excel_file path w = r ->
  fst (fst r) = true -> exists df, r = (true, None, Some df).
Proof.
  intros r <-. unfold validate_excel_file, rejected.
  repeat case_match; simpl; intros; try discriminate; eauto.
Qed.

Lemma process_dataframe_trace df path w df' w' :
  _process_dataframe df path w = (df', w') -> trace w' = trace w.
Proof. unfold _process_dataframe, now. intros H. inv H. reflexivity. Qed.

Lemma process_excel_file_trace path w r w' :
  process_excel_file path w = (r, w') -> trace w' = trace w.
Proof.
  unfold process_excel_file. repeat case_match; intros H; inv H;
    try reflexivity; eauto using process_dataframe_trace.
Qed.

Lemma mark_trace path df stats w :
  trace (mark_file_as_processed path df stats w) = trace w.
Proof. unfold mark_file_as_processed, now. case_match; reflexivity. Qed.

Lemma move_trace path w r w' :
  move_to_processed path w = (r, w') -> trace w' = trace w.
Proof.
  unfold move_to_processed, now. repeat case_match; intros H; inv H; reflexivity.
Qed.

Lemma cleanup_trace name w r w' :
  cleanup_temp_table name w = (r, w') -> trace w' = trace w.
Proof.
  unfold cleanup_temp_table, db_call. case_match; intros H; inv H; reflexivity.
Qed.

Lemma upsert_trace name w r w' :
  upsert_data_to_target_table name w = (r, w') -> trace w' = trace w.
Proof.
  unfold upsert_data_to_target_table, db_call.
  repeat case_match; intros H; inv H; reflexivity.
Qed.

Lemma clean_dataframe_trace df w r w' :
  _clean_dataframe df w = (r, w') -> trace w' = trace w.
Proof.
  unfold _clean_dataframe, now. case_match; intros H; inv H; reflexivity.
Qed.

Lemma create_temp_table_trace name df w r w' :
  create_temp_table name df w = (r, w') -> trace w' = trace w.
Proof.
  unfold create_temp_table, db_call. case_match; intros H; inv H; reflexivity.
Qed.

Lemma load_trace path name w r w' :
  load_excel_to_temp_table path name w = (r, w') -> trace w' = trace w.
Proof.
  unfold load_excel_to_temp_table.
  destruct (Py.dict_get path (fs w)); [|intros H; inv H; reflexivity].
  destruct (read_excel s); [intros H; inv H; reflexivity|].
  destruct (DF.empty d); [intros H; inv H; reflexivity|].
  destruct (negb _); [intros H; inv H; reflexivity|].
  destruct (_clean_dataframe d w) as [[df|] w1] eqn:Hc;
    apply clean_dataframe_trace in Hc.
  - destruct (create_temp_table name df w1) as [ok w2] eqn:Ht.
    apply create_temp_table_trace in Ht.
    destruct ok; intros H; inv H; congruence.
  - intros H; inv H; assumption.
Qed.

Lemma process_file_trace job path w r w' :
  process_file job path w = (r, w') -> trace w' = trace w.
Proof.
  unfold process_file.
  destruct (process_excel_file path w) as [[[ok msg] df] w1] eqn:H1.
  apply process_excel_file_trace in H1.
  destruct ok; [|intros H; inv H; assumption].
  destruct (load_excel_to_temp_table path _ _) as [[ok df'] w2] eqn:H2.
  apply load_trace in H2. change (trace w2 = trace w1) in H2.
  destruct ok; [|intros H; inv H; congruence].
  destruct df' as [loaded|]; [|intros H; inv H; congruence].
  destruct (upsert_data_to_target_table _ w2) as [up w3] eqn:H3.
  apply upsert_trace in H3.
  destruct up; simpl; [|intros H; inv H; congruence].
  destruct (started_at job);
    [|intros H; inv H; unfold trace in *; simpl in *; congruence].
  destruct (move_to_processed path _) as [moved w4] eqn:H4.
  apply move_trace in H4. rewrite mark_trace in H4.
  destruct (cleanup_temp_table _ w4) as [c w5] eqn:H5.
  apply cleanup_trace in H5.
  intros H; inv H. unfold trace in *; simpl in *. congruence.
Qed.

Lemma process_files_trace job paths :
  forall total processed w total' processed' w',
  process_files job paths total processed w = (total', processed', w') ->
  trace w' = trace w.
Proof.
  induction paths as [|p rest IH]; simpl; intros total processed w t' p' w' H.
  - inv H. reflexivity.
  - destruct (process_file job p w) as [[counted n] w1] eqn:H1.
    apply process_file_trace in H1. apply IH in H. congruence.
Qed.

(** Each path of the job is counted at most once, in order. *)
Lemma process_files_length job paths :
  forall total processed w total' processed' w',
  process_files job paths total processed w = (total', processed', w') ->
  (List.length processed <= List.length processed'
     <= List.length processed + List.length paths)%nat.
Proof.
  induction paths as [|p rest IH]; simpl; intros total processed w t' p' w' H.
  - inv H. lia.
  - destruct (process_file job p w) as [[counted n] w1] eqn:H1.
    apply IH in H. destruct counted; [rewrite length_app in H; simpl in H|]; lia.
Qed.

(** *** One call of [process_job] *)

(** The call in which the staging schema cannot be created. *)
Lemma process_job_fails (job : ProcessingJob) (w : World) :
  db_ok w (db_calls w) = false ->
  exists job' w',
    process_job job w = (false, job', w')
    /\ status job' = FAILED
    /\ completed_at job' = Some (clock w + 1)
    /\ started_at job' = Some (clock w)
    /\ id job' = id job
    /\ max_retries job' = max_retries job
    /\ retry_count job' = retry_count job
    /\ files job' = files job
    /\ db_ok w' = db_ok w
    /\ db_calls w' = S (db_calls w)
    /\ trace w' =
       trace w ++ [Status IN_PROGRESS; Started; Status FAILED; Completed].
Proof.
  intros H.
  unfold process_job, set_status, set_started_at, set_completed_at,
    create_temp_schema, db_call, now. simpl. rewrite H. simpl.
  do 2 eexists. split; [reflexivity|]. simpl.
  repeat split. unfold trace. simpl. rewrite <- !app_assoc. reflexivity.
Qed.

Lemma create_temp_schema_ok (w : World) :
  db_ok w (db_calls w) = true ->
  exists w', create_temp_schema w = (true, w')
             /\ trace w' = trace w /\ clock w' = clock w.
Proof.
  intros H. unfold create_temp_schema, db_call. rewrite H.
  eexists. split; [reflexivity|]. simpl.
  destruct (temp_schema_exists w); split; reflexivity.
Qed.

(** The call in which the staging schema is there: whatever the files do,
    the job is completed. *)
Lemma process_job_succeeds (job : ProcessingJob) (w : World) :
  db_ok w (db_calls w) = true ->
  exists job' w' stats,
    process_job job w = (true, job', w')
    /\ status job' = COMPLETED
    /\ (exists t, completed_at job' = Some t)
    /\ started_at job' = Some (clock w)
    /\ id job' = id job
    /\ max_retries job' = max_retries job
    /\ retry_count job' = retry_count job
    /\ files job' = files job
    /\ processing_stats job' = Some stats
    /\ 0 <= processed_files stats
    /\ 0 <= failed_files stats
    /\ processed_files stats + failed_files stats
       = Z.of_nat (List.length (files job))
    /\ trace w' =
       trace w ++ [Status IN_PROGRESS; Started; Status COMPLETED; Completed].
Proof.
  intros H.
  unfold process_job, set_status, set_started_at, set_completed_at, now.
  match goal with
  | |- context [create_temp_schema ?x] =>
      destruct (create_temp_schema_ok x H) as (w0 & -> & Ht0 & _)
  end.
  simpl.
  match goal with
  | |- context [process_files ?j ?p ?t ?a ?x] =>
      destruct (process_files j p t a x) as [[total processed] w1] eqn:Hp
  end.
  pose proof (process_files_trace _ _ _ _ _ Hp) as Ht.
  pose proof (process_files_length _ _ _ _ _ Hp) as Hl.
  simpl in Hl.
  do 3 eexists. split; [reflexivity|]. simpl.
  repeat split; eauto; simpl; try lia.
  rewrite Ht0 in Ht. unfold trace in *. simpl in *.
  destruct processed; simpl; rewrite Ht; rewrite <- !app_assoc; reflexivity.
Qed.

(** *** The retry loop *)

Unset Implicit Arguments.

Lemma trace_sleep r d w : trace (sleep r d w) = trace w ++ [Sleep r d].
Proof. unfold sleep. rewrite trace_emit. reflexivity. Qed.

(** One failing attempt of the loop: what it leaves for the attempts that
    follow. *)
Lemma retry_attempt_fails (a : nat) (rest : list Z) (job : ProcessingJob)
      (w : World) :
  db_ok w (db_calls w) = false ->
  (a = O -> retry_count job = 0) ->
  exists job' w',
    retry_attempts job_processor (Z.of_nat a :: rest) job w
    = retry_attempts job_processor rest job' w'
    /\ status job' = FAILED
    /\ (exists t, completed_at job' = Some t)
    /\ retry_count job' = Z.of_nat a
    /\ max_retries job' = max_retries job
    /\ id job' = id job
    /\ files job' = files job
    /\ db_ok w' = db_ok w
    /\ db_calls w' = S (db_calls w)
    /\ trace w' = trace w ++ failed_attempt (max_retries job) (Z.of_nat a).
Proof.
  intros Hdb H0.
  set (job1 := if 0 <? Z.of_nat a then with_retry_count (Z.of_nat a) job
               else job).
  assert (Hr : retry_count job1 = Z.of_nat a).
  { unfold job1. destruct (0 <? Z.of_nat a) eqn:E; [reflexivity|].
    apply Z.ltb_ge in E. assert (a = O) by lia. subst a. auto. }
  assert (Hm : max_retries job1 = max_retries job)
    by (unfold job1; destruct (0 <? Z.of_nat a); reflexivity).
  assert (Hi : id job1 = id job)
    by (unfold job1; destruct (0 <? Z.of_nat a); reflexivity).
  assert (Hf : files job1 = files job)
    by (unfold job1; destruct (0 <? Z.of_nat a); reflexivity).
  destruct (process_job_fails job1 (emit (EvAttempt (id job1) (Z.of_nat a)) w)
              Hdb)
    as (job2 & w2 & Hp & Hs & Hc & _ & Hi2 & Hm2 & Hr2 & Hf2 & Hok & Hcalls & Ht).
  rewrite trace_emit in Ht. simpl in Ht, Hok, Hcalls.
  cbn [retry_attempts]. fold job1. unfold job_processor at 1. rewrite Hp.
  rewrite Hm2, Hr2, Hr, Hm.
  unfold failed_attempt.
  destruct (Z.of_nat a <? max_retries job).
  - exists job2, (sleep (Z.of_nat a) (2 ^ Z.of_nat a) w2).
    split; [reflexivity|].
    rewrite trace_sleep, Ht, <- !app_assoc. simpl.
    repeat split; eauto; congruence.
  - exists job2, w2. split; [reflexivity|].
    rewrite Ht, <- !app_assoc. simpl.
    repeat split; eauto; congruence.
Qed.

(** A run of failing attempts, numbered from [a]. *)
Lemma retry_attempts_fail (n : nat) :
  forall (a : nat) (rest : list Z) (job : ProcessingJob) (w : World),
  (forall i, (i < n)%nat -> db_ok w (db_calls w + i)%nat = false) ->
  (a = O -> retry_count job = 0) ->
  exists job' w',
    retry_attempts job_processor (map Z.of_nat (seq a n) ++ rest) job w
    = retry_attempts job_processor rest job' w'
    /\ match n with
       | O => job' = job
       | S _ => status job' = FAILED
                /\ (exists t, completed_at job' = Some t)
                /\ retry_count job' = Z.of_nat (a + n - 1)
       end
    /\ max_retries job' = max_retries job
    /\ id job' = id job
    /\ files job' = files job
    /\ db_ok w' = db_ok w
    /\ db_calls w' = (db_calls w + n)%nat
    /\ trace w' =
       trace w ++ flat_map (failed_attempt (max_retries job))
                    (map Z.of_nat (seq a n)).
Proof.
  induction n as [|n IH]; intros a rest job w Hdb H0.
  - exists job, w. simpl. rewrite app_nil_r, Nat.add_0_r.
    repeat split; auto.
  - assert (Hfirst : db_ok w (db_calls w) = false).
    { replace (db_calls w) with (db_calls w + 0)%nat by lia.
      apply Hdb. lia. }
    destruct (retry_attempt_fails a (map Z.of_nat (seq (S a) n) ++ rest)
                job w Hfirst H0)
      as (job1 & w1 & E1 & Hs1 & Hc1 & Hr1 & Hm1 & Hi1 & Hf1 & Hok1 & Hcalls1
          & Ht1).
    destruct (IH (S a) rest job1 w1) as
      (job2 & w2 & E2 & Hlast & Hm2 & Hi2 & Hf2 & Hok2 & Hcalls2 & Ht2).
    { intros i Hi. rewrite Hok1, Hcalls1.
      replace (S (db_calls w) + i)%nat with (db_calls w + S i)%nat by lia.
      apply Hdb. lia. }
    { discriminate. }
    exists job2, w2.
    change (map Z.of_nat (seq a (S n)) ++ rest)
      with (Z.of_nat a :: map Z.of_nat (seq (S a) n) ++ rest).
    rewrite E1, E2.
    split; [reflexivity|].
    split.
    { destruct n as [|n'].
      - subst job2. rewrite Hr1. repeat split; auto. f_equal. lia.
      - destruct Hlast as (? & ? & Hr). repeat split; auto.
        rewrite Hr. f_equal. lia. }
    rewrite Ht2, Ht1, Hm1, Hcalls2, Hcalls1, <- app_assoc.
    change (map Z.of_nat (seq a (S n)))
      with (Z.of_nat a :: map Z.of_nat (seq (S a) n)).
    cbn [flat_map].
    repeat split; try congruence. lia.
Qed.

(** The attempt in which the staging schema is there ends the loop. *)
Lemma retry_attempt_succeeds (k : Z) (rest : list Z) (job : ProcessingJob)
      (w : World) :
  db_ok w (db_calls w) = true ->
  exists job' w' stats,
    retry_attempts job_processor (k :: rest) job w = (true, job', w')
    /\ status job' = COMPLETED
    /\ (exists t, completed_at job' = Some t)
    /\ processing_stats job' = Some stats
    /\ processed_files stats + failed_files stats
       = Z.of_nat (List.length (files job))
    /\ max_retries job' = max_retries job
    /\ id job' = id job
    /\ trace w' = trace w ++ successful_attempt k.
Proof.
  intros Hdb.
  set (job1 := if 0 <? k then with_retry_count k job else job).
  assert (Hm : max_retries job1 = max_retries job)
    by (unfold job1; destruct (0 <? k); reflexivity).
  assert (Hi : id job1 = id job)
    by (unfold job1; destruct (0 <? k); reflexivity).
  assert (Hf : files job1 = files job)
    by (unfold job1; destruct (0 <? k); reflexivity).
  destruct (process_job_succeeds job1 (emit (EvAttempt (id job1) k) w) Hdb)
    as (job2 & w2 & stats & Hp & Hs & Hc & _ & Hi2 & Hm2 & _ & Hf2 & Hst & _
        & _ & Hsum & Ht).
  rewrite trace_emit in Ht. simpl in Ht.
  exists job2, w2, stats.
  cbn [retry_attempts]. fold job1. unfold job_processor. rewrite Hp.
  split; [reflexivity|].
  rewrite Ht, <- app_assoc. simpl.
  repeat split; auto; congruence.
Qed.

(** *** Projections of the trace of a run of attempts *)

Lemma range_succ (m : Z) :
  0 <= m -> Py.range (m + 1) = Py.range m ++ [m].
Proof.
  intros H. unfold Py.range.
  replace (Z.to_nat (m + 1)) with (S (Z.to_nat m)) by lia.
  rewrite seq_S, map_app. simpl. rewrite Z2Nat.id by assumption. reflexivity.
Qed.

Lemma range_bound (m x : Z) : In x (Py.range m) -> 0 <= x < m.
Proof.
  unfold Py.range. rewrite in_map_iff. intros (i & <- & Hi).
  apply in_seq in Hi. lia.
Qed.

Lemma attempts_in_app (s t : list Step) :
  attempts_in (s ++ t) = attempts_in s ++ attempts_in t.
Proof. apply flat_map_app. Qed.

Lemma sleeps_in_app (s t : list Step) :
  sleeps_in (s ++ t) = sleeps_in s ++ sleeps_in t.
Proof. apply flat_map_app. Qed.

Lemma statuses_in_app (s t : list Step) :
  statuses_in (s ++ t) = statuses_in s ++ statuses_in t.
Proof. apply flat_map_app. Qed.

Lemma attempts_in_failed (m : Z) (l : list Z) :
  attempts_in (flat_map (failed_attempt m) l) = l.
Proof.
  induction l as [|k l IH]; [reflexivity|].
  cbn [flat_map]. rewrite attempts_in_app, IH.
  unfold failed_attempt. destruct (k <? m); reflexivity.
Qed.

Lemma sleeps_in_failed (m : Z) (l : list Z) :
  sleeps_in (flat_map (failed_attempt m) l)
  = map (fun k => (k, 2 ^ k)) (filter (fun k => k <? m) l).
Proof.
  induction l as [|k l IH]; [reflexivity|].
  cbn [flat_map filter]. rewrite sleeps_in_app, IH.
  unfold failed_attempt. destruct (k <? m); reflexivity.
Qed.

Lemma filter_below_range (m : Z) :
  0 <= m -> filter (fun k => k <? m) (Py.range (m + 1)) = Py.range m.
Proof.
  intros H. rewrite range_succ, filter_app by assumption. simpl.
  rewrite Z.ltb_irrefl, app_nil_r.
  apply forallb_filter_id. apply forallb_forall. intros x Hx.
  apply range_bound in Hx. apply Z.ltb_lt. lia.
Qed.

Lemma ends_with_sleep_failed (m : Z) (t : list Step) :
  0 <= m ->
  ends_with_sleep (t ++ flat_map (failed_attempt m) (Py.range (m + 1))) = false.
Proof.
  intros H. rewrite range_succ, flat_map_app by assumption.
  cbn [flat_map]. unfold failed_attempt at 2. rewrite Z.ltb_irrefl.
  unfold ends_with_sleep. rewrite !app_nil_r, !rev_app_distr. reflexivity.
Qed.

(** *** The retry policy *)

(** The two kinds of run: every attempt fails, or the attempt numbered [k]
    is the first to succeed. *)
Lemma retry_schedule (job : ProcessingJob) (w : World) :
  0 <= max_retries job ->
  retry_count job = 0 ->
  ((forall i, (i <= Z.to_nat (max_retries job))%nat ->
              db_ok w (db_calls w + i)%nat = false) ->
   exists job' w',
     _process_job_with_retry job w = (false, job', w')
     /\ status job' = FAILED
     /\ (exists t, completed_at job' = Some t)
     /\ trace w' = trace w ++ flat_map (failed_attempt (max_retries job))
                               (Py.range (max_retries job + 1))
     /\ attempts_in (trace w')
        = attempts_in (trace w) ++ Py.range (max_retries job + 1)
     /\ sleeps_in (trace w')
        = sleeps_in (trace w)
          ++ map (fun k => (k, 2 ^ k)) (Py.range (max_retries job))
     /\ ends_with_sleep (trace w') = false)
  /\
  (forall k : nat,
     (k <= Z.to_nat (max_retries job))%nat ->
     (forall i, (i < k)%nat -> db_ok w (db_calls w + i)%nat = false) ->
     db_ok w (db_calls w + k)%nat = true ->
     exists job' w',
       _process_job_with_retry job w = (true, job', w')
       /\ status job' = COMPLETED
       /\ (exists t, completed_at job' = Some t)
       /\ trace w' = trace w
                     ++ flat_map (failed_attempt (max_retries job))
                          (Py.range (Z.of_nat k))
                     ++ successful_attempt (Z.of_nat k)
       /\ attempts_in (trace w')
          = attempts_in (trace w) ++ Py.range (Z.of_nat k + 1)).
Proof.
  intros Hm Hr. unfold _process_job_with_retry, retry_with. split.
  - intros Hdb.
    destruct (retry_attempts_fail (S (Z.to_nat (max_retries job))) O [] job w)
      as (job' & w' & E & (Hs & Hc & _) & _ & _ & _ & _ & _ & Ht).
    { intros i Hi. apply Hdb. lia. }
    { intros _. exact Hr. }
    rewrite app_nil_r in E.
    assert (R : Py.range (max_retries job + 1)
                = map Z.of_nat (seq 0 (S (Z.to_nat (max_retries job))))).
    { unfold Py.range. f_equal. f_equal. lia. }
    rewrite <- R in E, Ht.
    exists job', w'. rewrite E, Ht. simpl.
    repeat split; auto.
    + rewrite attempts_in_app, attempts_in_failed. reflexivity.
    + rewrite sleeps_in_app, sleeps_in_failed, filter_below_range by assumption.
      reflexivity.
    + apply ends_with_sleep_failed. assumption.
  - intros k Hk Hdb Hok.
    assert (R : Py.range (max_retries job + 1)
                = map Z.of_nat (seq 0 k)
                  ++ Z.of_nat k
                     :: map Z.of_nat
                          (seq (S k) (Z.to_nat (max_retries job) - k))).
    { unfold Py.range.
      replace (Z.to_nat (max_retries job + 1))
        with (k + S (Z.to_nat (max_retries job) - k))%nat by lia.
      rewrite seq_app, map_app. reflexivity. }
    rewrite R.
    destruct (retry_attempts_fail k O
                (Z.of_nat k :: map Z.of_nat
                                 (seq (S k) (Z.to_nat (max_retries job) - k)))
                job w Hdb (fun _ => Hr))
      as (job1 & w1 & E & _ & Hm1 & _ & _ & Hok1 & Hcalls1 & Ht1).
    rewrite E.
    destruct (retry_attempt_succeeds (Z.of_nat k)
                (map Z.of_nat (seq (S k) (Z.to_nat (max_retries job) - k)))
                job1 w1)
      as (job2 & w2 & stats & E2 & Hs2 & Hc2 & _ & _ & _ & _ & Ht2).
    { rewrite Hok1, Hcalls1. exact Hok. }
    exists job2, w2. rewrite E2, Ht2, Ht1.
    assert (Rk : Py.range (Z.of_nat k) = map Z.of_nat (seq 0 k))
      by (unfold Py.range; rewrite Nat2Z.id; reflexivity).
    rewrite Rk, <- app_assoc.
    repeat split; auto.
    rewrite !attempts_in_app, attempts_in_failed.
    rewrite range_succ by lia. rewrite Rk. reflexivity.
Qed.

(** *** Claim C3 *)

(** C3.  A job with a retry budget [max_retries >= 0] and a fresh retry
    counter is run by [_process_job_with_retry] as follows.  When every
    attempt fails (the staging schema cannot be created in any of the
    [max_retries + 1] calls), the attempts are exactly [0 .. max_retries],
    after the failed attempt [k < max_retries] the controller sleeps
    [2 ^ k] seconds with [retry_count = k], it does not sleep after the
    last attempt, and the job is left [FAILED].  When the attempt
    numbered [k] is the first that succeeds, the job is [COMPLETED]
    by that attempt and no attempt follows it. *)
Theorem retry_policy (job : ProcessingJob) (w : World) :
  0 <= max_retries job ->
  retry_count job = 0 ->
  ((forall i, (i <= Z.to_nat (max_retries job))%nat ->
              db_ok w (db_calls w + i)%nat = false) ->
   exists job' w',
     _process_job_with_retry job w = (false, job', w')
     /\ status job' = FAILED
     /\ trace w' = trace w ++ flat_map (failed_attempt (max_retries job))
                               (Py.range (max_retries job + 1))
     /\ attempts_in (trace w')
        = attempts_in (trace w) ++ Py.range (max_retries job + 1)
     /\ sleeps_in (trace w')
        = sleeps_in (trace w)
          ++ map (fun k => (k, 2 ^ k)) (Py.range (max_retries job))
     /\ ends_with_sleep (trace w') = false)
  /\
  (forall k : nat,
     (k <= Z.to_nat (max_retries job))%nat ->
     (forall i, (i < k)%nat -> db_ok w (db_calls w + i)%nat = false) ->
     db_ok w (db_calls w + k)%nat = true ->
     exists job' w',
       _process_job_with_retry job w = (true, job', w')
       /\ status job' = COMPLETED
       /\ trace w' = trace w
                     ++ flat_map (failed_attempt (max_retries job))
                          (Py.range (Z.of_nat k))
                     ++ successful_attempt (Z.of_nat k)
       /\ attempts_in (trace w')
          = attempts_in (trace w) ++ Py.range (Z.of_nat k + 1)).
Proof.
  intros Hm Hr.
  destruct (retry_schedule job w Hm Hr) as [Hall Hsome]. split.
  - intros Hdb.
    destruct (Hall Hdb) as (job' & w' & E & Hs & _ & Ht & Ha & Hsl & He).
    exists job', w'. repeat split; assumption.
  - intros k Hk Hdb Hok.
    destruct (Hsome k Hk Hdb Hok) as (job' & w' & E & Hs & _ & Ht & Ha).
    exists job', w'. repeat split; assumption.
Qed.

(** *** Every run of the retry loop *)

(** Among the first [n] answers of the database either all are failures
    or there is a first success. *)
Lemma first_success (f : nat -> bool) (n : nat) :
  (forall i, (i < n)%nat -> f i = false)
  \/ exists k, (k < n)%nat /\ f k = true
               /\ forall i, (i < k)%nat -> f i = false.
Proof.
  induction n as [|n [IH | (k & Hk & Hf & Hlt)]].
  - left. intros i Hi. lia.
  - destruct (f n) eqn:E.
    + right. exists n. repeat split; auto.
    + left. intros i Hi. destruct (Nat.eq_dec i n); [subst; assumption|].
      apply IH. lia.
  - right. exists k. repeat split; auto.
Qed.

(** The shape of every run: [k] failed attempts, then either a successful
    one or, with the budget spent, none. *)
Lemma retry_run (job : ProcessingJob) (w : World) :
  0 <= max_retries job ->
  retry_count job = 0 ->
  exists (r : bool) (k : nat) job' w',
    _process_job_with_retry job w = (r, job', w')
    /\ trace w' = trace w
                  ++ flat_map (failed_attempt (max_retries job))
                       (Py.range (Z.of_nat k))
                  ++ (if r then successful_attempt (Z.of_nat k) else [])
    /\ (if r then (k <= Z.to_nat (max_retries job))%nat
        else k = S (Z.to_nat (max_retries job)))
    /\ status job' = (if r then COMPLETED else FAILED)
    /\ (exists t, completed_at job' = Some t).
Proof.
  intros Hm Hr.
  destruct (retry_schedule job w Hm Hr) as [Hall Hsome].
  destruct (first_success (fun i => db_ok w (db_calls w + i)%nat)
              (S (Z.to_nat (max_retries job))))
    as [Hfail | (k & Hk & Hok & Hbefore)].
  - destruct Hall as (job' & w' & E & Hs & Hc & Ht & _).
    { intros i Hi. apply Hfail. lia. }
    exists false, (S (Z.to_nat (max_retries job))), job', w'.
    rewrite app_nil_r.
    replace (Z.of_nat (S (Z.to_nat (max_retries job))))
      with (max_retries job + 1) by lia.
    repeat split; auto.
  - destruct (Hsome k) as (job' & w' & E & Hs & Hc & Ht & _); auto; try lia.
    exists true, k, job', w'. repeat split; auto. lia.
Qed.

(** *** Statuses and time stamps along a run *)

Lemma statuses_in_failed (m : Z) (l : list Z) :
  statuses_in (flat_map (failed_attempt m) l)
  = flat_map (fun _ => [IN_PROGRESS; FAILED]) l.
Proof.
  induction l as [|k l IH]; [reflexivity|].
  cbn [flat_map]. rewrite statuses_in_app, IH.
  unfold failed_attempt. destruct (k <? m); reflexivity.
Qed.

Lemma retries_only (l : list Z) (tail : list JobStatus) :
  tail = [] \/ tail = [IN_PROGRESS; COMPLETED] ->
  leaves_terminal_without_retry
    (flat_map (fun _ => [IN_PROGRESS; FAILED]) l ++ tail) = false.
Proof.
  intros Ht. induction l as [|x l IH].
  - destruct Ht as [-> | ->]; reflexivity.
  - cbn [flat_map app] in *.
    destruct l as [|y l].
    + destruct Ht as [-> | ->]; reflexivity.
    + cbn [flat_map app] in *.
      change (leaves_terminal_without_retry
                (IN_PROGRESS :: FAILED
                   :: (IN_PROGRESS :: FAILED
                         :: (flat_map (fun _ => [IN_PROGRESS; FAILED]) l
                             ++ tail))))
        with (leaves_terminal_without_retry
                (IN_PROGRESS :: FAILED
                   :: (flat_map (fun _ => [IN_PROGRESS; FAILED]) l ++ tail))).
      exact IH.
Qed.






(** *** The statuses a run writes *)

(** A run of [_process_job_with_retry] on a job that waits: the statuses
    it writes, in their order, after the status the job starts with. *)
Lemma run_statuses (job : ProcessingJob) (w : World) :
  status job = PENDING ->
  0 <= max_retries job ->
  retry_count job = 0 ->
  exists (r : bool) job' w' (news : list JobStatus),
    _process_job_with_retry job w = (r, job', w')
    /\ statuses_in (trace w') = statuses_in (trace w) ++ news
    /\ leaves_terminal_without_retry (status job :: news) = false
    /\ (forall before after,
          news = before ++ COMPLETED :: after -> after = [])
    /\ ~ In CANCELLED news
    /\ last news PENDING = status job'
    /\ is_terminal (status job') = true.
Proof.
  intros Hp Hm Hr.
  assert (Hnew : forall l tail,
            In CANCELLED
              (flat_map (fun _ : Z => [IN_PROGRESS; FAILED]) l ++ tail) ->
            In CANCELLED tail).
  { intros l tail Hin. apply in_app_or in Hin. destruct Hin as [Hin | Hin];
      [|exact Hin].
    apply in_flat_map in Hin.
    destruct Hin as (_ & _ & [H | [H | []]]); discriminate. }
  - destruct (retry_run job w Hm Hr) as (r & k & job' & w' & E & Ht & Hk & Hs & _).
    exists r, job', w',
      (flat_map (fun _ => [IN_PROGRESS; FAILED]) (Py.range (Z.of_nat k))
       ++ (if r then [IN_PROGRESS; COMPLETED] else [])).
    split; [exact E|]. split.
    { rewrite Ht, !statuses_in_app, statuses_in_failed.
      destruct r; reflexivity. }
    split.
    { rewrite Hp.
      assert (Hl : leaves_terminal_without_retry
                     (flat_map (fun _ : Z => [IN_PROGRESS; FAILED])
                        (Py.range (Z.of_nat k))
                      ++ (if r then [IN_PROGRESS; COMPLETED] else []))
                   = false)
        by (apply retries_only; destruct r; auto).
      revert Hl.
      generalize (flat_map (fun _ : Z => [IN_PROGRESS; FAILED])
                    (Py.range (Z.of_nat k))
                  ++ (if r then [IN_PROGRESS; COMPLETED] else [])).
      intros [|x rest] Hl; [reflexivity | exact Hl]. }
    split.
    { intros before after Hn.
      destruct r.
      - assert (Hin : forall l a b,
                  flat_map (fun _ : Z => [IN_PROGRESS; FAILED]) l
                  ++ [IN_PROGRESS; COMPLETED] = b ++ COMPLETED :: a ->
                  a = []).
        { induction l as [|x l IH]; intros a b Hl.
          - destruct b as [|s1 [|s2 [|s3 b]]]; try discriminate.
            all: inversion Hl; try reflexivity.
          - cbn [flat_map app] in Hl.
            destruct b as [|s1 [|s2 b]]; try discriminate.
            inversion Hl. eapply IH. eassumption. }
        eapply Hin. eassumption.
      - rewrite app_nil_r in Hn.
        assert (Hin : In COMPLETED
                        (flat_map (fun _ : Z => [IN_PROGRESS; FAILED])
                           (Py.range (Z.of_nat k))))
          by (rewrite Hn; apply in_or_app; right; left; reflexivity).
        apply in_flat_map in Hin. destruct Hin as (_ & _ & [H | [H | []]]);
          discriminate. }
    split.
    { intros Hin. apply Hnew in Hin.
      destruct r; [destruct Hin as [H | [H | []]]; discriminate | destruct Hin]. }
    split.
    { rewrite Hs. destruct r.
      - change [IN_PROGRESS; COMPLETED] with ([IN_PROGRESS] ++ [COMPLETED]).
        rewrite app_assoc. apply last_last.
      - subst k. rewrite app_nil_r.
        replace (Z.of_nat (S (Z.to_nat (max_retries job))))
          with (max_retries job + 1) by lia.
        rewrite range_succ, flat_map_app by assumption.
        cbn [flat_map]. rewrite app_nil_r.
        change [IN_PROGRESS; FAILED] with ([IN_PROGRESS] ++ [FAILED]).
        rewrite app_assoc. apply last_last. }
    rewrite Hs. destruct r; reflexivity.
Qed.

(** *** Claim C2 *)


(** *** Dictionaries *)

Lemma dict_get_set_same (V : Type) (k : string) (v : V) (d : list (string * V)) :
  Py.dict_get k (Py.dict_set k v d) = Some v.
Proof.
  induction d as [|[k' v'] d IH]; simpl.
  - rewrite String.eqb_refl. reflexivity.
  - destruct (String.eqb k' k) eqn:E; simpl.
    + rewrite String.eqb_refl. reflexivity.
    + rewrite E. exact IH.
Qed.

Lemma dict_get_set_other (V : Type) (k k' : string) (v : V)
      (d : list (string * V)) :
  String.eqb k k' = false ->
  Py.dict_get k' (Py.dict_set k v d) = Py.dict_get k' d.
Proof.
  intros Hk. induction d as [|[k0 v0] d IH]; simpl.
  - rewrite Hk. reflexivity.
  - destruct (String.eqb k0 k) eqn:E; simpl.
    + apply String.eqb_eq in E. subst k0. rewrite Hk. reflexivity.
    + rewrite IH. reflexivity.
Qed.

Lemma dict_get_del_same (V : Type) (k : string) (d : list (string * V)) :
  Py.dict_get k (Py.dict_del k d) = None.
Proof.
  induction d as [|[k' v'] d IH]; simpl; [reflexivity|].
  destruct (String.eqb k' k) eqn:E; simpl; [exact IH|].
  rewrite E. exact IH.
Qed.

Lemma dict_get_del_other (V : Type) (k k' : string) (d : list (string * V)) :
  String.eqb k k' = false ->
  Py.dict_get k' (Py.dict_del k d) = Py.dict_get k' d.
Proof.
  intros Hk. induction d as [|[k0 v0] d IH]; simpl; [reflexivity|].
  destruct (String.eqb k0 k) eqn:E; simpl.
  - apply String.eqb_eq in E. subst k0. rewrite Hk. exact IH.
  - rewrite IH. reflexivity.
Qed.

(** *** Claim C8 *)

(** C8 (what the code does).  [cancel_job] looks the job up in
    [processed_jobs], where a job arrives only when the worker is done
    with it.  A job that [add_job] has put in the queue, and that is still
    [PENDING] there, is therefore not found: the request returns [False]
    and the job stays [PENDING] in the queue.  For a job that is in
    [processed_jobs], the request succeeds when its status is [PENDING]
    (it becomes [CANCELLED], with [completed_at] set) and otherwise
    returns [False] and changes nothing. *)
Theorem cancel_job_misses_the_queue (job_data : JobData) (q : QueueProcessor)
        (w : World) :
  Py.dict_get (jd_id job_data) (processed_jobs q) = None ->
  (exists job q1 w1,
     add_job job_data q w = (job, q1, w1)
     /\ id job = jd_id job_data
     /\ status job = PENDING
     /\ In job (job_queue q1)
     /\ cancel_job (jd_id job_data) q1 w1 = (false, q1, w1))
  /\ (forall (q0 : QueueProcessor) (job_id : string) (j : ProcessingJob)
             (x : World),
        Py.dict_get job_id (processed_jobs q0) = Some j ->
        status_eqb (status j) PENDING = false ->
        cancel_job job_id q0 x = (false, q0, x))
  /\ (forall (q0 : QueueProcessor) (job_id : string) (j : ProcessingJob)
             (x : World),
        Py.dict_get job_id (processed_jobs q0) = Some j ->
        status j = PENDING ->
        exists q' x' j',
          cancel_job job_id q0 x = (true, q', x')
          /\ Py.dict_get job_id (processed_jobs q') = Some j'
          /\ status j' = CANCELLED
          /\ completed_at j' = Some (clock x)
          /\ job_queue q' = job_queue q0).
Proof.
  intros Hnone. split; [|split].
  - unfold add_job, now. do 3 eexists. split; [reflexivity|].
    repeat split.
    + simpl. apply in_or_app. right. left. reflexivity.
    + unfold cancel_job. simpl. rewrite Hnone. reflexivity.
  - intros q0 job_id j x Hget Hs. unfold cancel_job. rewrite Hget, Hs.
    reflexivity.
  - intros q0 job_id j x Hget Hs. unfold cancel_job. rewrite Hget, Hs.
    simpl. do 3 eexists. split; [reflexivity|]. simpl.
    rewrite dict_get_set_same. repeat split.
Qed.

(** *** Claim C6 *)

Lemma create_temp_table_creates name df w w' :
  create_temp_table name df w = (true, w') ->
  Py.dict_get name (temp_tables w') = Some df
  /\ In (EvTempCreated name) (log w')
  /\ db_ok w' = db_ok w.
Proof.
  unfold create_temp_table, db_call.
  destruct (db_ok w (db_calls w)); intros H; inv H. simpl.
  rewrite dict_get_set_same. auto.
Qed.

Lemma load_creates path name w df w' :
  load_excel_to_temp_table path name w = ((true, Some df), w') ->
  Py.dict_get name (temp_tables w') = Some df
  /\ In (EvTempCreated name) (log w')
  /\ db_ok w' = db_ok w.
Proof.
  unfold load_excel_to_temp_table.
  destruct (Py.dict_get path (fs w)); [|discriminate].
  destruct (read_excel s); [discriminate|].
  destruct (DF.empty d); [discriminate|].
  destruct (negb _); [discriminate|].
  destruct (_clean_dataframe d w) as [[cleaned|] w1] eqn:Hc; [|discriminate].
  assert (Hw1 : db_ok w1 = db_ok w).
  { unfold _clean_dataframe, now in Hc.
    destruct (negb _) in Hc; inv Hc. reflexivity. }
  destruct (create_temp_table name cleaned w1) as [ok w2] eqn:Ht.
  destruct ok; [|discriminate].
  intros H; inv H.
  destruct (create_temp_table_creates _ _ _ _ Ht) as (? & ? & ?).
  repeat split; auto. congruence.
Qed.

(** C6 (what the code does).  When a file has been validated and loaded
    into its staging table and the upsert then fails, [process_job] goes
    on to the next file ([continue]) without calling
    [cleanup_temp_table]: the file is not counted, and its staging table
    is still in the staging schema when the pipeline is done with the
    file. *)
Theorem staging_table_left_after_failed_upsert
        (job : ProcessingJob) (path : string) (w w1 w2 : World)
        (msg : option string) (df : option DataFrame) (loaded : DataFrame) :
  process_excel_file path w = ((true, msg, df), w1) ->
  load_excel_to_temp_table path
    ("temp_job_" ++ id job ++ "_" ++ uuid4_hex8 (uuids w1))
    (with_uuids (S (uuids w1)) w1)
  = ((true, Some loaded), w2) ->
  db_ok w2 (db_calls w2) = false ->
  exists w',
    process_file job path w = ((false, 0), w')
    /\ Py.dict_get ("temp_job_" ++ id job ++ "_" ++ uuid4_hex8 (uuids w1))
         (temp_tables w') = Some loaded
    /\ In (EvTempCreated
             ("temp_job_" ++ id job ++ "_" ++ uuid4_hex8 (uuids w1)))
          (log w')
    /\ log w' = log w2.
Proof.
  intros H1 H2 Hdb.
  destruct (load_creates _ _ _ _ _ H2) as (Hget & Hin & _).
  unfold process_file. rewrite H1, H2.
  unfold upsert_data_to_target_table, db_call. rewrite Hdb. simpl.
  eexists. split; [reflexivity|]. simpl. auto.
Qed.

(** *** Claim C7 *)

(** A file that does not pass validation is skipped: it is not counted,
    adds no record and changes nothing. *)
Lemma process_file_invalid (job : ProcessingJob) (path : string) (w : World) :
  fst (fst (validate_excel_file path w)) = false ->
  process_file job path w = ((false, 0), w).
Proof.
  intros H. unfold process_file, process_excel_file.
  destruct (validate_excel_file path w) as [[ok msg] df].
  simpl in H. subst ok. reflexivity.
Qed.

(** [process_job] in terms of its entry and of the loop over the files. *)
Lemma process_job_entry_ok (job j1 : ProcessingJob) (w w1 : World) :
  entry job w = (true, j1, w1) ->
  exists total processed w2 job' w',
    process_files j1 (files j1) 0 [] w1 = (total, processed, w2)
    /\ process_job job w = (true, job', w')
    /\ status job' = COMPLETED
    /\ files j1 = files job
    /\ exists elapsed,
        processing_stats job'
        = Some {| total_records := total;
                  processed_files := Z.of_nat (List.length processed);
                  failed_files := Z.of_nat (List.length (files job))
                                  - Z.of_nat (List.length processed);
                  processing_time := elapsed |}.
Proof.
  unfold entry, process_job, set_status, set_started_at, set_completed_at, now.
  destruct (create_temp_schema _) as [ok w0].
  intros H. inv H. simpl.
  destruct (process_files _ _ _ _ _) as [[total processed] w2].
  do 5 eexists. split; [reflexivity|]. split; [reflexivity|]. simpl.
  repeat split. eexists. reflexivity.
Qed.

(** C7.  When the staging schema can be set up, [process_job] returns
    [True] and the job is [COMPLETED] whatever happens to its files, and
    its statistics count every file once, as processed or as failed.  A
    file that fails validation is skipped and the loop goes on; so for a
    job with two files, the first of which fails validation (for one, it
    lacks the key column) and the second of which goes through, the
    statistics are [processed_files = 1] and [failed_files = 1].  The job
    is [FAILED] exactly when the staging schema cannot be set up. *)
Theorem job_completes_despite_failed_files (job : ProcessingJob) (w : World) :
  (db_ok w (db_calls w) = true ->
   exists job' w' stats,
     process_job job w = (true, job', w')
     /\ status job' = COMPLETED
     /\ processing_stats job' = Some stats
     /\ 0 <= processed_files stats
     /\ 0 <= failed_files stats
     /\ processed_files stats + failed_files stats
        = Z.of_nat (List.length (files job)))
  /\ (forall (path : string) (rest : list string) (j : ProcessingJob)
             (total : Z) (processed : list string) (x : World),
        fst (fst (validate_excel_file path x)) = false ->
        process_files j (path :: rest) total processed x
        = process_files j rest total processed x)
  /\ (forall (bad good : string) (j1 : ProcessingJob) (w1 w2 : World) (n : Z),
        files job = [bad; good] ->
        entry job w = (true, j1, w1) ->
        fst (fst (validate_excel_file bad w1)) = false ->
        process_file j1 good w1 = ((true, n), w2) ->
        exists job' w' stats,
          process_job job w = (true, job', w')
          /\ status job' = COMPLETED
          /\ processing_stats job' = Some stats
          /\ total_records stats = n
          /\ processed_files stats = 1
          /\ failed_files stats = 1)
  /\ (db_ok w (db_calls w) = false ->
      exists job' w',
        process_job job w = (false, job', w')
        /\ status job' = FAILED
        /\ error_message job' = Some "Failed to create temporary schema"%string).
Proof.
  split; [|split; [|split]].
  - intros Hdb.
    destruct (process_job_succeeds job w Hdb)
      as (job' & w' & stats & E & Hs & _ & _ & _ & _ & _ & _ & Hst & H1 & H2
          & H3 & _).
    exists job', w', stats. repeat split; assumption.
  - intros path rest j total processed x Hv. cbn [process_files].
    rewrite (process_file_invalid j path x Hv).
    rewrite Z.add_0_r. reflexivity.
  - intros bad good j1 w1 w2 n Hfiles He Hbad Hgood.
    destruct (process_job_entry_ok job j1 w w1 He)
      as (total & processed & w3 & job' & w' & Hp & E & Hs & Hf & elapsed
          & Hst).
    rewrite Hf, Hfiles in Hp. cbn [process_files] in Hp.
    rewrite (process_file_invalid j1 bad w1 Hbad), Hgood in Hp.
    inv Hp.
    exists job', w'. eexists. split; [exact E|]. split; [exact Hs|].
    split; [exact Hst|]. rewrite Hfiles. repeat split.
  - intros Hdb.
    destruct (process_job_fails job w Hdb) as (job' & w' & E & Hs & _).
    exists job', w'. split; [exact E|]. split; [exact Hs|].
    revert E. unfold process_job, set_status, set_started_at,
      set_completed_at, create_temp_schema, db_call, now.
    simpl. rewrite Hdb. simpl. intros E. inv E. reflexivity.
Qed.

(** *** Claim C5 *)

Lemma find_record_some (select : FileInfo -> string) (h : string)
      (d : list (string * FileInfo)) (p : string) (info : FileInfo) :
  In (p, info) d -> select info = h ->
  exists first info',
    find_record select h d = Some first
    /\ In (first, info') d /\ select info' = h.
Proof.
  intros Hin Hsel. induction d as [|[p0 i0] d IH]; [contradiction|].
  simpl. destruct (String.eqb (select i0) h) eqn:E.
  - exists p0, i0. apply String.eqb_eq in E. auto.
  - destruct Hin as [Heq | Hin].
    + inv Heq. rewrite String.eqb_refl in E. discriminate.
    + destruct (IH Hin) as (first & info' & Hf & Hi & Hs).
      exists first, info'. auto.
Qed.

(** C5.  A file that passes validation and whose bytes have the digest of
    a record of the duplicate index is rejected by [process_excel_file]
    with the message that names the first such record; the content check
    is not reached, and [process_job] skips the file without touching the
    staging schema, the target table, the index or the file system. *)
Theorem byte_identical_file_rejected
        (path : string) (w : World) (bytes prior : string) (info : FileInfo) :
  Py.dict_get path (fs w) = Some bytes ->
  fst (fst (validate_excel_file path w)) = true ->
  In (prior, info) (_processed_files w) ->
  file_hash info = md5 bytes ->
  String.eqb (md5 bytes) EmptyString = false ->
  exists first info',
    In (first, info') (_processed_files w)
    /\ file_hash info' = md5 bytes
    /\ is_duplicate_file path w = (true, Some first)
    /\ process_excel_file path w
       = (rejected ("File is duplicate of " ++ first), w)
    /\ forall job : ProcessingJob, process_file job path w = ((false, 0), w).
Proof.
  intros Hget Hvalid Hin Hhash Hne.
  destruct (find_record_some file_hash (md5 bytes) (_processed_files w)
              prior info Hin Hhash) as (first & info' & Hf & Hi & Hs).
  exists first, info'.
  assert (Hdup : is_duplicate_file path w = (true, Some first)).
  { unfold is_duplicate_file, _calculate_file_hash. rewrite Hget, Hne, Hf.
    reflexivity. }
  assert (Hrej : process_excel_file path w
                 = (rejected ("File is duplicate of " ++ first), w)).
  { unfold process_excel_file.
    destruct (@validate_total path w _ eq_refl Hvalid) as (df & ->).
    rewrite Hdup. reflexivity. }
  repeat split; auto.
  intros job. unfold process_file. rewrite Hrej. reflexivity.
Qed.

(** *** Claim C4 *)

Lemma columns_map_column col f dt df :
  DF.columns (DF.map_column col f dt df) = DF.columns df.
Proof.
  unfold DF.columns, DF.map_column. simpl. rewrite map_map.
  apply map_ext. intros [a b]. simpl. destruct (String.eqb a col); reflexivity.
Qed.

Lemma has_column_assign_same col dt v df :
  DF.has_column col (DF.assign col dt v df) = true.
Proof.
  unfold DF.assign. destruct (DF.has_column col df) eqn:E.
  - unfold DF.has_column in *. rewrite columns_map_column. exact E.
  - unfold DF.has_column, DF.columns. simpl. rewrite map_app, existsb_app.
    simpl. rewrite String.eqb_refl. apply orb_true_iff. right. reflexivity.
Qed.

Lemma has_column_assign_other c col dt v df :
  DF.has_column c df = true -> DF.has_column c (DF.assign col dt v df) = true.
Proof.
  intros H. unfold DF.assign. destruct (DF.has_column col df).
  - unfold DF.has_column in *. rewrite columns_map_column. exact H.
  - unfold DF.has_column, DF.columns in *. simpl.
    rewrite map_app, existsb_app, H. reflexivity.
Qed.

Lemma clean_has_processed_at d w c w1 :
  _clean_dataframe d w = (Some c, w1) ->
  DF.has_column "processed_at" c = true.
Proof.
  unfold _clean_dataframe, now. destruct (negb _); intros H; inv H.
  apply has_column_assign_other, has_column_assign_same.
Qed.

Lemma load_has_processed_at path name w c w1 :
  load_excel_to_temp_table path name w = ((true, Some c), w1) ->
  DF.has_column "processed_at" c = true.
Proof.
  unfold load_excel_to_temp_table.
  destruct (Py.dict_get path (fs w)); [|discriminate].
  destruct (read_excel s); [discriminate|].
  destruct (DF.empty d); [discriminate|].
  destruct (negb _); [discriminate|].
  destruct (_clean_dataframe d w) as [[cleaned|] w0] eqn:Hc; [|discriminate].
  destruct (create_temp_table name cleaned w0) as [ok w2].
  destruct ok; [|discriminate].
  intros H; inv H. eapply clean_has_processed_at. eassumption.
Qed.

(** Where the index stays as it is. *)
Lemma process_excel_file_index path w r w' :
  process_excel_file path w = (r, w') ->
  _processed_files w' = _processed_files w.
Proof.
  unfold process_excel_file, _process_dataframe, now.
  repeat case_match; intros H; inv H; reflexivity.
Qed.

Lemma load_index path name w r w' :
  load_excel_to_temp_table path name w = (r, w') ->
  _processed_files w' = _processed_files w.
Proof.
  unfold load_excel_to_temp_table.
  destruct (Py.dict_get path (fs w)); [|intros H; inv H; reflexivity].
  destruct (read_excel s); [intros H; inv H; reflexivity|].
  destruct (DF.empty d); [intros H; inv H; reflexivity|].
  destruct (negb _); [intros H; inv H; reflexivity|].
  unfold _clean_dataframe, create_temp_table, db_call, now.
  destruct (negb _); [intros H; inv H; reflexivity|].
  simpl. destruct (db_ok w (db_calls w)); intros H; inv H; reflexivity.
Qed.

Lemma upsert_index name w r w' :
  upsert_data_to_target_table name w = (r, w') ->
  _processed_files w' = _processed_files w.
Proof.
  unfold upsert_data_to_target_table, db_call.
  repeat case_match; intros H; inv H; reflexivity.
Qed.

Lemma move_index path w r w' :
  move_to_processed path w = (r, w') ->
  _processed_files w' = _processed_files w.
Proof.
  unfold move_to_processed, now. repeat case_match; intros H; inv H; reflexivity.
Qed.

Lemma cleanup_index name w r w' :
  cleanup_temp_table name w = (r, w') ->
  _processed_files w' = _processed_files w.
Proof.
  unfold cleanup_temp_table, db_call. case_match; intros H; inv H; reflexivity.
Qed.

Lemma in_dict_set (V : Type) (k : string) (v : V) (d : list (string * V))
      (p : string) (x : V) :
  In (p, x) (Py.dict_set k v d) -> (p, x) = (k, v) \/ In (p, x) d.
Proof.
  induction d as [|[k0 v0] d IH]; simpl.
  - intros [H | []]. left. symmetry. exact H.
  - destruct (String.eqb k0 k); simpl.
    + intros [H | H]; [left; symmetry; exact H | right; right; exact H].
    + intros [H | H]; [right; left; exact H|].
      destruct (IH H); auto.
Qed.

Lemma mark_keeps_invariant path df stats w :
  DF.has_column "processed_at" df = true ->
  index_from_pipeline w ->
  index_from_pipeline (mark_file_as_processed path df stats w).
Proof.
  intros Hcol Hinv. unfold mark_file_as_processed, now. simpl.
  destruct (Py.dict_get path (fs w)); [|exact Hinv].
  intros p info Hin. simpl in Hin.
  apply in_dict_set in Hin. destruct Hin as [Heq | Hin].
  - inv Heq. exists df. auto.
  - apply Hinv in Hin. exact Hin.
Qed.

Lemma index_from_pipeline_same w w' :
  _processed_files w' = _processed_files w ->
  index_from_pipeline w -> index_from_pipeline w'.
Proof. unfold index_from_pipeline. intros ->. auto. Qed.

Lemma process_file_keeps_invariant job path w r w' :
  process_file job path w = (r, w') ->
  index_from_pipeline w -> index_from_pipeline w'.
Proof.
  unfold process_file. intros H Hinv.
  destruct (process_excel_file path w) as [[[ok msg] df] w1] eqn:H1.
  apply process_excel_file_index in H1.
  assert (I1 : index_from_pipeline w1)
    by (eapply index_from_pipeline_same; eassumption).
  destruct ok; [|inv H; assumption].
  destruct (load_excel_to_temp_table path _ _) as [[ok df'] w2] eqn:H2.
  pose proof (load_index _ _ _ _ _ H2) as H2i.
  assert (I2 : index_from_pipeline w2)
    by (eapply index_from_pipeline_same; [exact H2i | exact I1]).
  destruct ok; [|inv H; assumption].
  destruct df' as [loaded|]; [|inv H; assumption].
  apply load_has_processed_at in H2.
  destruct (upsert_data_to_target_table _ w2) as [up w3] eqn:H3.
  apply upsert_index in H3.
  assert (I3 : index_from_pipeline w3)
    by (eapply index_from_pipeline_same; eassumption).
  destruct up; simpl in H; [|inv H; assumption].
  destruct (started_at job); [|inv H; exact I3].
  match type of H with
  | context [mark_file_as_processed ?p ?d ?s ?x] =>
      assert (I4 : index_from_pipeline (mark_file_as_processed p d s x))
        by (apply mark_keeps_invariant; [exact H2 | exact I3])
  end.
  destruct (move_to_processed path _) as [moved w4] eqn:H4.
  apply move_index in H4.
  destruct (cleanup_temp_table _ w4) as [c w5] eqn:H5.
  apply cleanup_index in H5.
  inv H. eapply index_from_pipeline_same; [exact H5|].
  eapply index_from_pipeline_same; [exact H4 | exact I4].
Qed.

Lemma find_record_in (select : FileInfo -> string) (h : string)
      (d : list (string * FileInfo)) (first : string) :
  find_record select h d = Some first ->
  exists info, In (first, info) d /\ select info = h.
Proof.
  induction d as [|[p i] d IH]; simpl; [discriminate|].
  destruct (String.eqb (select i) h) eqn:E.
  - intros H; inv H. exists i. apply String.eqb_eq in E. auto.
  - intros H. destruct (IH H) as (info & Hin & Hs). exists info. auto.
Qed.

(** C4 (what the code does).  [mark_file_as_processed] records the
    fingerprint of the frame that was staged, which [_clean_dataframe] has
    given a [processed_at] column holding the time of processing, while
    [is_duplicate_content] looks for the fingerprint of the frame as it
    was read from the file.  So every record the pipeline adds to the
    index carries the fingerprint of a frame with a [processed_at]
    column, and the check reports a file whose data has no such column
    as a duplicate only when its fingerprint collides with that of a
    different frame: data already processed is not recognised. *)
Theorem content_check_compares_unlike_frames :
  (forall (job : ProcessingJob) (path : string) (w w' : World)
          (r : bool * Z),
     process_file job path w = (r, w') ->
     index_from_pipeline w -> index_from_pipeline w')
  /\ (forall (raw : DataFrame) (path : string) (w : World),
        index_from_pipeline w ->
        DF.has_column "processed_at" raw = false ->
        fst (is_duplicate_content raw path w) = true ->
        exists c : DataFrame,
          DF.has_column "processed_at" c = true
          /\ DF.columns c <> DF.columns raw
          /\ _calculate_content_hash c = _calculate_content_hash raw).
Proof.
  split.
  - intros job path w w' r H. eapply process_file_keeps_invariant. exact H.
  - intros raw path w Hinv Hraw Hdup.
    unfold is_duplicate_content in Hdup.
    destruct (String.eqb (_calculate_content_hash raw) EmptyString);
      [discriminate|].
    destruct (find_record content_hash (_calculate_content_hash raw)
                (_processed_files w)) as [first|] eqn:Hf; [|discriminate].
    destruct (find_record_in _ _ _ _ Hf) as (info & Hin & Hs).
    destruct (Hinv first info Hin) as (c & Hc & Hcol).
    exists c. repeat split; auto; try congruence.
    intros Heq. unfold DF.has_column in *. rewrite Heq in Hcol. congruence.
Qed.

(** *** Claim C10 *)

Lemma length_put_rows cols col vals rs :
  List.length (DF.put_rows cols col vals rs) = List.length rs.
Proof.
  revert vals. induction rs as [|r rs IH]; intros [|v vs]; simpl; auto.
Qed.

Lemma length_rows_convert_dates cols :
  forall df, List.length (rows (convert_dates cols df)) = List.length (rows df).
Proof.
  induction cols as [|col rest IH]; intros df; simpl; [reflexivity|].
  rewrite IH.
  destruct (DF.dtype_of col df) as [[| | |]|]; try reflexivity.
  destruct (existsb _ _); [|reflexivity].
  destruct (to_datetime _); [|reflexivity].
  simpl. apply length_put_rows.
Qed.

Lemma length_rows_fill_missing cols :
  forall df, List.length (rows (fill_missing cols df)) = List.length (rows df).
Proof.
  induction cols as [|col rest IH]; intros df; simpl; [reflexivity|].
  rewrite IH. destruct (DF.dtype_of col df); [|reflexivity].
  simpl. apply length_map.
Qed.

Lemma length_rows_assign col dt v df :
  List.length (rows (DF.assign col dt v df)) = List.length (rows df).
Proof.
  unfold DF.assign. destruct (DF.has_column col df); simpl; apply length_map.
Qed.

Lemma clean_dataframe_rows d w c w1 :
  _clean_dataframe d w = (Some c, w1) ->
  List.length (rows c) = List.length (rows (DF.dropna_all d)).
Proof.
  unfold _clean_dataframe, now. destruct (negb _); intros H; inv H.
  rewrite !length_rows_assign, length_rows_fill_missing,
    length_rows_convert_dates. reflexivity.
Qed.

(** C10 (what the code does).  The frame that [_process_dataframe] has
    cleaned is not the one that is staged: [process_job] passes the path
    to [load_excel_to_temp_table], which reads the file again and
    prepares it with [_clean_dataframe].  That function removes the rows
    that are entirely empty and nothing else, so the staging table holds
    as many rows as the file has rows that are not empty, whatever keys
    they carry; and this table is the one [process_job] counts and
    upserts. *)
Theorem staged_rows_are_not_deduplicated
        (path name bytes : string) (raw staged : DataFrame) (w w' : World) :
  Py.dict_get path (fs w) = Some bytes ->
  read_excel bytes = inr raw ->
  load_excel_to_temp_table path name w = ((true, Some staged), w') ->
  Py.dict_get name (temp_tables w') = Some staged
  /\ DF.len staged = DF.len (DF.dropna_all raw)
  /\ List.length (rows staged)
     = List.length (filter (fun r => negb (forallb isna r)) (rows raw)).
Proof.
  intros Hget Hread Hload.
  destruct (load_creates _ _ _ _ _ Hload) as (Htab & _).
  split; [exact Htab|].
  unfold load_excel_to_temp_table in Hload. rewrite Hget, Hread in Hload.
  destruct (DF.empty raw); [discriminate|].
  destruct (negb _); [discriminate|].
  destruct (_clean_dataframe raw w) as [[cleaned|] w0] eqn:Hc; [|discriminate].
  destruct (create_temp_table name cleaned w0) as [ok w2].
  destruct ok; [|discriminate].
  inv Hload. apply clean_dataframe_rows in Hc.
  unfold DF.len. rewrite Hc. split; reflexivity.
Qed.

(** *** The upsert statement *)

Lemma in_update_assignments (key : string) (columns : list string)
      (a : string) :
  In a (update_assignments key columns)
  <-> exists col, In col columns /\ String.eqb col key = false
                  /\ a = (col ++ " = src." ++ col)%string.
Proof.
  unfold update_assignments. rewrite in_map_iff. split.
  - intros (col & <- & Hin). apply filter_In in Hin. destruct Hin as [Hin Hne].
    exists col. apply negb_true_iff in Hne. auto.
  - intros (col & Hin & Hne & ->). exists col. split; [reflexivity|].
    apply filter_In. rewrite Hne. auto.
Qed.

(** The statement of the upsert.  When the database answers and the
    staging table is there, [upsert_data_to_target_table] returns [True];
    it sends the [CREATE TABLE ... AS SELECT * ... WHERE 1=0] statement
    first exactly when the target is not there yet, and then the text
    [INSERT INTO target (cols) SELECT cols FROM staging src ON CONFLICT
    (key) DO UPDATE SET col = src.col, ...], with the columns of the
    staging table in their order and one assignment for every column but
    the key.  The staging tables are left as they are. *)
Theorem upsert_statement_text
        (name : string) (staged : DataFrame) (w : World) :
  db_ok w (db_calls w) = true ->
  Py.dict_get name (temp_tables w) = Some staged ->
  exists w',
    upsert_data_to_target_table name w = (true, w')
    /\ log w'
       = EvSql (upsert_query (target_table db_config)
                  (full_table_name name) (unique_key db_config)
                  (DF.columns staged))
         :: (if target w then []
             else [EvSql (create_table_query (target_table db_config)
                            (full_table_name name))])
         ++ log w
    /\ upsert_query (target_table db_config) (full_table_name name)
         (unique_key db_config) (DF.columns staged)
       = (nl ++ spaces 20 ++ "INSERT INTO " ++ target_table db_config ++ " ("
          ++ Py.join ", " (DF.columns staged) ++ ")"
          ++ nl ++ spaces 20 ++ "SELECT " ++ Py.join ", " (DF.columns staged)
          ++ " FROM " ++ (temp_schema db_config ++ "." ++ name) ++ " src"
          ++ nl ++ spaces 20 ++ "ON CONFLICT (" ++ unique_key db_config
          ++ ") DO UPDATE SET"
          ++ nl ++ spaces 20
          ++ Py.join ", "
               (map (fun col => col ++ " = src." ++ col)
                  (filter (fun col => negb (String.eqb col (unique_key db_config)))
                     (DF.columns staged)))
          ++ nl ++ spaces 16)%string
    /\ (forall a : string,
          In a (update_assignments (unique_key db_config) (DF.columns staged))
          <-> exists col, In col (DF.columns staged)
                          /\ String.eqb col (unique_key db_config) = false
                          /\ a = (col ++ " = src." ++ col)%string)
    /\ target w' = true
    /\ temp_tables w' = temp_tables w.
Proof.
  intros Hdb Hget.
  unfold upsert_data_to_target_table, db_call. rewrite Hdb.
  cbv beta iota zeta. simpl temp_tables. rewrite Hget.
  change (target (with_db_calls (S (db_calls w)) w)) with (target w).
  eexists. split; [reflexivity|].
  split; [destruct (target w); reflexivity|].
  split; [reflexivity|].
  split; [intros a; apply in_update_assignments|].
  destruct (target w) eqn:E; simpl; auto.
Qed.


(* ===================================================================== *)
(** ** Further properties of the queue processor                          *)
(* ===================================================================== *)

(** *** The time a failing job spends in back-off *)

Lemma total_sleep_app (s t : list Step) :
  total_sleep (s ++ t) = total_sleep s + total_sleep t.
Proof.
  unfold total_sleep. rewrite sleeps_in_app, map_app.
  induction (map snd (sleeps_in s)) as [|x l IH]; simpl; lia.
Qed.

Lemma sum_powers (n : nat) :
  fold_right Z.add 0 (map (fun k => 2 ^ k) (map Z.of_nat (seq 0 n)))
  = 2 ^ Z.of_nat n - 1.
Proof.
  induction n as [|n IH]; [reflexivity|].
  rewrite seq_S, !map_app. simpl map.
  assert (A : forall l x, fold_right Z.add 0 (l ++ [x])
                          = fold_right Z.add 0 l + x)
    by (induction l; simpl; intros; [lia | rewrite IHl; lia]).
  rewrite A, IH.
  replace (Z.of_nat (S n)) with (Z.of_nat n + 1) by lia.
  rewrite Z.pow_add_r by lia. simpl (0 + n)%nat. lia.
Qed.

(** A job whose every attempt fails keeps the worker asleep for
    [2 ^ max_retries - 1] seconds in all (7 seconds with the default of
    three retries), however long the attempts themselves take. *)
Theorem backoff_total_when_exhausted (job : ProcessingJob) (w : World) :
  0 <= max_retries job ->
  retry_count job = 0 ->
  (forall i, (i <= Z.to_nat (max_retries job))%nat ->
             db_ok w (db_calls w + i)%nat = false) ->
  exists job' w',
    _process_job_with_retry job w = (false, job', w')
    /\ total_sleep (trace w') = total_sleep (trace w) + (2 ^ max_retries job - 1).
Proof.
  intros Hm Hr Hdb.
  destruct (retry_schedule job w Hm Hr) as [Hall _].
  destruct (Hall Hdb) as (job' & w' & E & _ & _ & Ht & _ & Hs & _).
  exists job', w'. split; [exact E|].
  unfold total_sleep at 1. rewrite Hs, map_app, map_map. simpl.
  assert (A : forall l r, fold_right Z.add 0 (l ++ r)
                          = fold_right Z.add 0 l + fold_right Z.add 0 r)
    by (induction l; simpl; intros; [lia | rewrite IHl; lia]).
  rewrite A. unfold total_sleep. f_equal.
  unfold Py.range. rewrite sum_powers. rewrite Z2Nat.id by assumption.
  reflexivity.
Qed.


(** *** What the methods keep true *)

(** The jobs that wait are as [add_job] made them, and the jobs that the
    worker has stored are in a terminal state. *)
Definition queue_invariant (q : QueueProcessor) : Prop :=
  (forall job, In job (job_queue q) ->
     max_retries job = 3 /\ retry_count job = 0 /\ status job = PENDING)
  /\ (forall job_id job, In (job_id, job) (processed_jobs q) ->
        is_terminal (status job) = true).

Lemma is_terminal_listed (s : JobStatus) :
  existsb (status_eqb s) [COMPLETED; FAILED; CANCELLED] = is_terminal s.
Proof. destruct s; reflexivity. Qed.

Lemma reachable_invariant (q : QueueProcessor) :
  reachable q -> queue_invariant q.
Proof.
  induction 1 as [ | jd q q' w w' job Hq [IHa IHb] Hadd
                   | q q' w w' Hq [IHa IHb] Hstep
                   | job_id q q' w w' r Hq [IHa IHb] Hc
                   | q Hq [IHa IHb] | q Hq [IHa IHb] | q Hq [IHa IHb] ].
  - split; simpl; intros; contradiction.
  - unfold add_job, now in Hadd. inv Hadd. split; simpl; [|exact IHb].
    intros j Hin. apply in_app_or in Hin. destruct Hin as [Hin | [<- | []]].
    + apply IHa. exact Hin.
    + repeat split.
  - unfold _worker_step in Hstep.
    destruct (job_queue q) as [|job rest] eqn:Eq;
      [inv Hstep; split; [rewrite Eq; exact IHa | exact IHb]|].
    assert (Hjob : max_retries job = 3 /\ retry_count job = 0
                   /\ status job = PENDING)
      by (apply IHa; left; reflexivity).
    destruct Hjob as (Hm & Hr & _).
    destruct (retry_run job w) as (r & k & job' & w1 & E & _ & _ & Hs & _);
      [lia | exact Hr |].
    rewrite E in Hstep. inv Hstep. split; simpl.
    + intros j Hin. apply IHa. right. exact Hin.
    + intros job_id j Hin. apply in_dict_set in Hin.
      destruct Hin as [Heq | Hin]; [|eapply IHb; exact Hin].
      inv Heq. rewrite Hs. destruct r; reflexivity.
  - unfold cancel_job in Hc.
    destruct (Py.dict_get job_id (processed_jobs q)) as [job|]; [|inv Hc; split; auto].
    destruct (status_eqb (status job) PENDING); [|inv Hc; split; auto].
    unfold set_status, set_completed_at, now in Hc. inv Hc. split; simpl; [exact IHa|].
    intros k j Hin. apply in_dict_set in Hin.
    destruct Hin as [Heq | Hin]; [inv Heq; reflexivity | eapply IHb; exact Hin].
  - split; simpl; [exact IHa|].
    intros k j Hin. apply filter_In in Hin. destruct Hin as [Hin _].
    eapply IHb. exact Hin.
  - unfold start_processing. destruct (is_running q); split; simpl; auto.
  - split; simpl; auto.
Qed.

Lemma dict_get_in (V : Type) (k : string) (v : V) (d : list (string * V)) :
  Py.dict_get k d = Some v -> exists k', In (k', v) d.
Proof.
  induction d as [|[k0 v0] d IH]; [discriminate|].
  simpl. destruct (String.eqb k0 k).
  - intros E. inv E. exists k0. left. reflexivity.
  - intros E. destruct (IH E) as (k' & Hk). exists k'. right. exact Hk.
Qed.

Lemma cancel_job_of_terminal (q : QueueProcessor) (job_id : string)
      (w : World) :
  (forall k job, In (k, job) (processed_jobs q) ->
     is_terminal (status job) = true) ->
  cancel_job job_id q w = (false, q, w).
Proof.
  intros Hb. unfold cancel_job.
  destruct (Py.dict_get job_id (processed_jobs q)) as [job|] eqn:E;
    [|reflexivity].
  destruct (dict_get_in _ _ _ _ E) as (k & Hin). apply Hb in Hin.
  destruct (status job); try discriminate; reflexivity.
Qed.

(** *** Claim C1 *)

(** C1 (as the code has it).  A job that failed is put back to
    [IN_PROGRESS] by the next attempt of the retry controller, so a
    terminal state can be left.  What holds, in every state the methods
    of the queue processor lead to:
    - a job that waits is [PENDING], and its run by
      [_process_job_with_retry] writes a sequence of statuses in which
      the only step out of a terminal state is the one from [FAILED] to
      [IN_PROGRESS] that a retry takes; nothing is written after
      [COMPLETED]; [CANCELLED] is never written; the job ends in a
      terminal state;
    - every stored job is in a terminal state;
    - [cancel_job] returns [False] and changes nothing;
    - [add_job], [start_processing] and [stop_processing] leave the
      stored jobs as they are, [clear_completed_jobs] only removes
      entries;
    - a turn of the worker changes nothing when no job waits, and
      otherwise writes the entry of the job it has run, in a terminal
      state, and no other entry. *)
Theorem terminal_left_only_by_retry (q : QueueProcessor) :
  reachable q ->
  (forall (job : ProcessingJob) (w : World),
     In job (job_queue q) ->
     status job = PENDING
     /\ exists (r : bool) job' w' (news : list JobStatus),
          _process_job_with_retry job w = (r, job', w')
          /\ statuses_in (trace w') = statuses_in (trace w) ++ news
          /\ leaves_terminal_without_retry (status job :: news) = false
          /\ (forall before after,
                news = before ++ COMPLETED :: after -> after = [])
          /\ ~ In CANCELLED news
          /\ last news PENDING = status job'
          /\ is_terminal (status job') = true)
  /\ (forall (job_id : string) (job : ProcessingJob),
        In (job_id, job) (processed_jobs q) ->
        is_terminal (status job) = true)
  /\ (forall (job_id : string) (w : World),
        cancel_job job_id q w = (false, q, w))
  /\ (forall (job_data : JobData) (w : World),
        processed_jobs (snd (fst (add_job job_data q w))) = processed_jobs q)
  /\ processed_jobs (start_processing q) = processed_jobs q
  /\ processed_jobs (stop_processing q) = processed_jobs q
  /\ (forall (job_id : string) (job : ProcessingJob),
        In (job_id, job) (processed_jobs (clear_completed_jobs q)) ->
        In (job_id, job) (processed_jobs q))
  /\ (forall w : World, job_queue q = [] -> _worker_step q w = (q, w))
  /\ (forall (job : ProcessingJob) (rest : list ProcessingJob) (w : World),
        job_queue q = job :: rest ->
        exists (r : bool) job' w',
          _process_job_with_retry job w = (r, job', w')
          /\ _worker_step q w
             = ({| job_queue := rest;
                   processed_jobs :=
                     Py.dict_set (id job') job' (processed_jobs q);
                   is_running := is_running q |}, w')
          /\ is_terminal (status job') = true
          /\ forall k : string,
               String.eqb (id job') k = false ->
               Py.dict_get k (processed_jobs (fst (_worker_step q w)))
               = Py.dict_get k (processed_jobs q)).
Proof.
  intros Hq. destruct (reachable_invariant q Hq) as [Ha Hb].
  split.
  { intros job w Hin. destruct (Ha job Hin) as (Hm & Hr & Hp).
    split; [exact Hp|].
    apply run_statuses; [exact Hp | lia | exact Hr]. }
  split; [exact Hb|].
  split; [intros job_id w; apply cancel_job_of_terminal; exact Hb|].
  split; [intros job_data w; reflexivity|].
  split; [unfold start_processing; destruct (is_running q); reflexivity|].
  split; [reflexivity|].
  split.
  { intros job_id job Hin. simpl in Hin. apply filter_In in Hin.
    exact (proj1 Hin). }
  split.
  { intros w E. unfold _worker_step. rewrite E. reflexivity. }
  intros job rest w E.
  destruct (Ha job) as (Hm & Hr & Hp); [rewrite E; left; reflexivity|].
  destruct (run_statuses job w Hp) as (r & job' & w' & news & Erun & _ & _ & _
                                       & _ & _ & Hterm);
    [lia | exact Hr |].
  exists r, job', w'. split; [exact Erun|].
  assert (Estep : _worker_step q w
                  = ({| job_queue := rest;
                        processed_jobs :=
                          Py.dict_set (id job') job' (processed_jobs q);
                        is_running := is_running q |}, w'))
    by (unfold _worker_step; rewrite E, Erun; reflexivity).
  split; [exact Estep|]. split; [exact Hterm|].
  intros k Hk. rewrite Estep. simpl.
  apply dict_get_set_other. exact Hk.
Qed.

(** The worker stores a job when it is done with it, so no stored job is
    ever [IN_PROGRESS]: in every state the methods can lead to,
    [get_active_job] returns [None]. *)
Theorem get_active_job_finds_nothing (q : QueueProcessor) :
  reachable q -> get_active_job q = None.
Proof.
  intros Hq. destruct (reachable_invariant q Hq) as [_ Hb].
  unfold get_active_job.
  destruct (find _ _) as [job|] eqn:E; [|reflexivity].
  apply find_some in E. destruct E as [Hin Hs].
  apply in_map_iff in Hin. destruct Hin as ([k j] & <- & Hin).
  apply Hb in Hin. simpl in *. destruct (status j); discriminate.
Qed.

(** For the same reason no stored job is [PENDING]: in every state the
    methods can lead to, [cancel_job] returns [False] for every id and
    changes nothing. *)
Theorem cancel_job_never_cancels (q : QueueProcessor) (job_id : string)
        (w : World) :
  reachable q -> cancel_job job_id q w = (false, q, w).
Proof.
  intros Hq. destruct (reachable_invariant q Hq) as [_ Hb].
  unfold cancel_job.
  destruct (Py.dict_get job_id (processed_jobs q)) as [job|] eqn:E;
    [|reflexivity].
  assert (Hin : exists k, In (k, job) (processed_jobs q)).
  { clear Hb. induction (processed_jobs q) as [|[k v] d IH]; [discriminate|].
    simpl in E. destruct (String.eqb k job_id).
    - inv E. exists k. left. reflexivity.
    - destruct (IH E) as (k' & Hk). exists k'. right. exact Hk. }
  destruct Hin as (k & Hin). apply Hb in Hin.
  destruct (status job); try discriminate; reflexivity.
Qed.


(** *** [clear_completed_jobs] and [get_queue_status] *)

(** [clear_completed_jobs] removes from the history the jobs that are
    [COMPLETED], [FAILED] or [CANCELLED] and keeps the others; it leaves
    the queue alone, and a second call changes nothing.  As the worker
    stores finished jobs only, it empties the history in every state the
    methods can lead to. *)
Theorem clear_completed_jobs_spec (q : QueueProcessor) :
  (forall job_id job,
     In (job_id, job) (processed_jobs (clear_completed_jobs q))
     <-> In (job_id, job) (processed_jobs q)
         /\ is_terminal (status job) = false)
  /\ job_queue (clear_completed_jobs q) = job_queue q
  /\ clear_completed_jobs (clear_completed_jobs q) = clear_completed_jobs q
  /\ (reachable q -> processed_jobs (clear_completed_jobs q) = []).
Proof.
  split; [|split; [|split]].
  - intros job_id job. unfold clear_completed_jobs. simpl.
    rewrite filter_In. simpl.
    destruct (status job); simpl; intuition congruence.
  - reflexivity.
  - unfold clear_completed_jobs. simpl. f_equal.
    induction (processed_jobs q) as [|e d IH]; [reflexivity|].
    simpl. destruct (negb _) eqn:E; simpl; [rewrite E|]; congruence.
  - intros Hq. destruct (reachable_invariant q Hq) as [_ Hb].
    unfold clear_completed_jobs. cbn [processed_jobs].
    induction (processed_jobs q) as [|[k j] d IH]; [reflexivity|].
    cbn [filter snd]. rewrite is_terminal_listed, (Hb k j) by (left; reflexivity).
    simpl. apply IH. intros k' j' Hin. eapply Hb. right. exact Hin.
Qed.

Lemma status_value_injective (a b : JobStatus) :
  String.eqb (status_value a) (status_value b) = status_eqb a b.
Proof. destruct a, b; reflexivity. Qed.

Lemma count_status_get (counts : list (string * Z)) (job : ProcessingJob)
      (s : JobStatus) (n : Z) :
  Py.dict_get (status_value s) counts = Some n ->
  Py.dict_get (status_value (status job)) counts <> None ->
  Py.dict_get (status_value s) (count_status counts job)
  = Some (n + (if status_eqb (status job) s then 1 else 0)).
Proof.
  intros Hs Hj. unfold count_status.
  destruct (Py.dict_get (status_value (status job)) counts) as [m|] eqn:E;
    [|contradiction].
  destruct (status_eqb (status job) s) eqn:Eqb.
  - assert (status job = s) by (destruct (status job), s; auto; discriminate).
    subst s. rewrite dict_get_set_same. congruence.
  - rewrite dict_get_set_other by (rewrite status_value_injective; exact Eqb).
    rewrite Hs, Z.add_0_r. reflexivity.
Qed.

Lemma fold_count_status (jobs : list ProcessingJob) :
  forall counts : list (string * Z),
  (forall s, Py.dict_get (status_value s) counts <> None) ->
  forall (s : JobStatus) (n : Z),
  Py.dict_get (status_value s) counts = Some n ->
  Py.dict_get (status_value s) (fold_left count_status jobs counts)
  = Some (n + Z.of_nat
                (List.length
                   (filter (fun job => status_eqb (status job) s) jobs))).
Proof.
  induction jobs as [|job rest IH]; intros counts Hall s n Hs; simpl.
  - rewrite Z.add_0_r. exact Hs.
  - rewrite (IH (count_status counts job))
      with (n := n + (if status_eqb (status job) s then 1 else 0)).
    + destruct (status_eqb (status job) s); simpl List.length; f_equal; lia.
    + intros s'. destruct (Py.dict_get (status_value s') counts) as [m|] eqn:E.
      * rewrite (count_status_get counts job s' m E (Hall (status job))).
        discriminate.
      * exfalso. exact (Hall s' E).
    + apply count_status_get; [exact Hs | apply Hall].
Qed.

(** [get_queue_status] reports the length of the queue, the size of the
    history, and for every status the number of stored jobs that have
    it. *)
Theorem get_queue_status_counts (q : QueueProcessor) (s : JobStatus) :
  Py.dict_get (status_value s) (status_counts (get_queue_status q))
  = Some (Z.of_nat
            (List.length
               (filter (fun entry => status_eqb (status (snd entry)) s)
                  (processed_jobs q))))
  /\ pending_jobs (get_queue_status q) = Z.of_nat (List.length (job_queue q))
  /\ total_processed (get_queue_status q)
     = Z.of_nat (List.length (processed_jobs q)).
Proof.
  split; [|split; reflexivity].
  unfold get_queue_status. simpl status_counts.
  rewrite (fold_count_status (map snd (processed_jobs q)) _) with (n := 0).
  - f_equal. simpl. f_equal.
    induction (processed_jobs q) as [|[k j] d IH]; [reflexivity|].
    simpl. destruct (status_eqb (status j) s); simpl; rewrite IH; reflexivity.
  - intros s'. destruct s'; discriminate.
  - destruct s; reflexivity.
Qed.


(** *** Jobs are taken in the order they were submitted *)

Lemma process_job_keeps_id (job : ProcessingJob) (w : World) :
  id (snd (fst (process_job job w))) = id job.
Proof.
  unfold process_job, set_status, set_started_at, set_completed_at, now.
  destruct (create_temp_schema _) as [ok w0]. destruct ok; simpl.
  - destruct (process_files _ _ _ _ _) as [[total processed] w1]. reflexivity.
  - reflexivity.
Qed.

Lemma retry_keeps_id (attempts : list Z) :
  forall (job : ProcessingJob) (w : World),
  id (snd (fst (retry_attempts job_processor attempts job w))) = id job.
Proof.
  induction attempts as [|k rest IH]; intros job w; [reflexivity|].
  cbn [retry_attempts].
  set (job1 := if 0 <? k then with_retry_count k job else job).
  assert (Hi : id job1 = id job)
    by (unfold job1; destruct (0 <? k); reflexivity).
  unfold job_processor at 1.
  pose proof (process_job_keeps_id job1 (emit (EvAttempt (id job1) k) w)) as Hp.
  destruct (process_job job1 (emit (EvAttempt (id job1) k) w))
    as [[ok job2] w2].
  simpl in Hp. destruct ok; simpl; [congruence|].
  rewrite IH. congruence.
Qed.

Lemma dict_set_absent (V : Type) (k : string) (v : V) (d : list (string * V)) :
  Py.dict_get k d = None -> Py.dict_set k v d = d ++ [(k, v)].
Proof.
  induction d as [|[k0 v0] d IH]; simpl; [reflexivity|].
  destruct (String.eqb k0 k); [discriminate|].
  intros H. rewrite IH by exact H. reflexivity.
Qed.

Lemma add_job_appends (job_data : JobData) (q : QueueProcessor) (w : World) :
  exists job q' w',
    add_job job_data q w = (job, q', w')
    /\ job = new_job job_data (clock w)
    /\ job_queue q' = job_queue q ++ [job]
    /\ processed_jobs q' = processed_jobs q
    /\ is_running q' = is_running q.
Proof. unfold add_job, now. do 3 eexists. repeat split. Qed.

(** [add_jobs] puts the jobs at the end of the queue in the order of its
    argument, all of them [PENDING], and returns them in that order; a
    running worker that then takes as many turns as there are jobs waiting
    empties the queue and files the jobs in the history in the order in
    which they waited (their ids being new and different from each
    other). *)
Theorem jobs_are_taken_in_order :
  (forall (jobs_data : list JobData) (q : QueueProcessor) (w : World),
     exists jobs q' w',
       add_jobs jobs_data q w = (jobs, q', w')
       /\ job_queue q' = job_queue q ++ jobs
       /\ map id jobs = map jd_id jobs_data
       /\ Forall (fun job => status job = PENDING) jobs
       /\ processed_jobs q' = processed_jobs q)
  /\ (forall (q : QueueProcessor) (w : World),
        is_running q = true ->
        NoDup (map id (job_queue q)) ->
        (forall job, In job (job_queue q) ->
                     Py.dict_get (id job) (processed_jobs q) = None) ->
        exists q' w',
          _worker_loop (List.length (job_queue q)) q w = (q', w')
          /\ job_queue q' = []
          /\ map fst (processed_jobs q')
             = map fst (processed_jobs q) ++ map id (job_queue q)).
Proof.
  split.
  - induction jobs_data as [|job_data rest IH]; intros q w.
    + exists [], q, w. simpl. rewrite app_nil_r. repeat split. constructor.
    + cbn [add_jobs].
      destruct (add_job_appends job_data q w)
        as (job & q1 & w1 & -> & Hj & Hq1 & Hp1 & _).
      destruct (IH q1 w1) as (jobs & q2 & w2 & -> & Hq2 & Hids & Hst & Hp2).
      exists (job :: jobs), q2, w2. split; [reflexivity|].
      rewrite Hq2, Hq1, <- app_assoc. simpl.
      repeat split; try congruence.
      * rewrite Hids, Hj. reflexivity.
      * constructor; [rewrite Hj; reflexivity | exact Hst].
  - intros q w. remember (job_queue q) as l eqn:Hl.
    revert q w Hl. induction l as [|job rest IH]; intros q w Hl Hrun Hnd Hnew.
    + exists q, w. simpl. rewrite app_nil_r. auto.
    + cbn [List.length _worker_loop]. rewrite Hrun.
      unfold _worker_step. rewrite <- Hl.
      pose proof (retry_keeps_id (Py.range (max_retries job + 1)) job w) as Hid.
      unfold _process_job_with_retry, retry_with.
      destruct (retry_attempts job_processor _ job w) as [[r job'] w1].
      simpl in Hid.
      inversion Hnd as [|x xs Hnotin Hnd']; subst.
      match goal with
      | |- context [_worker_loop _ ?q1 _] =>
          destruct (IH q1 w1) as (q' & w' & E & Hq' & Hhist)
      end.
      * reflexivity.
      * exact Hrun.
      * exact Hnd'.
      * intros j Hin. simpl. rewrite Hid.
        rewrite dict_get_set_other.
        -- apply Hnew. right. exact Hin.
        -- destruct (String.eqb (id job) (id j)) eqn:Eq; [|reflexivity].
           apply String.eqb_eq in Eq. exfalso. apply Hnotin.
           rewrite Eq. apply in_map. exact Hin.
      * exists q', w'. split; [exact E|]. split; [exact Hq'|].
        rewrite Hhist. simpl. rewrite Hid.
        rewrite dict_set_absent by (apply Hnew; left; reflexivity).
        rewrite map_app, <- app_assoc. reflexivity.
Qed.


(* ===================================================================== *)
(** ** Further properties of the file processor                           *)
(* ===================================================================== *)

(** *** Moving a file to the archive *)

Lemma append_cancel_l (a x y : string) :
  (a ++ x)%string = (a ++ y)%string -> x = y.
Proof. induction a as [|c a IH]; simpl; intros H; [exact H|]. inv H. auto. Qed.

Lemma length_append (a b : string) :
  String.length (a ++ b) = (String.length a + String.length b)%nat.
Proof. induction a as [|c a IH]; simpl; [reflexivity|]. rewrite IH. reflexivity. Qed.

Lemma append_cancel_r (e : string) :
  forall a b : string, (a ++ e)%string = (b ++ e)%string -> a = b.
Proof.
  induction a as [|c a IH]; intros [|d b] H; simpl in H.
  - reflexivity.
  - apply (f_equal String.length) in H. simpl in H.
    rewrite length_append in H. lia.
  - apply (f_equal String.length) in H. simpl in H.
    rewrite length_append in H. lia.
  - inv H. f_equal. apply IH. assumption.
Qed.

Lemma str_nat_injective (m n : nat) : Py.str_nat m = Py.str_nat n -> m = n.
Proof.
  unfold Py.str_nat. intros H.
  apply (f_equal NilEmpty.uint_of_string) in H.
  rewrite !NilEmpty.usu in H. inv H.
  rewrite <- (DecimalNat.Unsigned.of_to m), <- (DecimalNat.Unsigned.of_to n).
  congruence.
Qed.

(** The names the loop of [move_to_processed] tries after the first. *)
Definition candidate (subdir stem ext : string) (counter : nat) : string :=
  Path.join subdir (stem ++ "_" ++ Py.str_nat counter ++ ext).

Lemma candidate_injective (subdir stem ext : string) (m n : nat) :
  candidate subdir stem ext m = candidate subdir stem ext n -> m = n.
Proof.
  unfold candidate, Path.join. intros H.
  apply append_cancel_l in H. simpl in H. inv H.
  apply append_cancel_l in H1. simpl in H1. inv H1.
  apply append_cancel_r in H0. apply str_nat_injective. exact H0.
Qed.

Lemma free_destination_free (fuel : nat) (subdir stem ext : string) :
  forall (counter : nat) (destination : string) (files : list (string * string))
         (found : string),
  free_destination fuel subdir stem ext counter destination files = Some found ->
  Py.dict_get found files = None.
Proof.
  induction fuel as [|fuel IH]; intros counter destination files found;
    simpl; unfold Py.dict_mem.
  - destruct (Py.dict_get destination files) eqn:E; simpl; [discriminate|].
    intros H; inv H. exact E.
  - destruct (Py.dict_get destination files) eqn:E; simpl.
    + apply IH.
    + intros H; inv H. exact E.
Qed.

Lemma free_destination_first (fuel : nat) (subdir stem ext : string)
      (counter : nat) (destination : string) (files : list (string * string)) :
  free_destination fuel subdir stem ext counter destination files = None ->
  Py.dict_mem destination files = true.
Proof.
  destruct fuel; simpl; destruct (Py.dict_mem destination files); simpl;
    intros H; try reflexivity; discriminate.
Qed.

Lemma free_destination_none (fuel : nat) (subdir stem ext : string) :
  forall (counter : nat) (destination : string) (files : list (string * string)),
  free_destination fuel subdir stem ext counter destination files = None ->
  forall i, (i < fuel)%nat ->
            Py.dict_mem (candidate subdir stem ext (counter + i)) files = true.
Proof.
  induction fuel as [|fuel IH]; intros counter destination files H i Hi; [lia|].
  simpl in H. destruct (negb (Py.dict_mem destination files)); [discriminate|].
  destruct i as [|i].
  - rewrite Nat.add_0_r. eapply free_destination_first. exact H.
  - replace (counter + S i)%nat with (S counter + i)%nat by lia.
    eapply IH; [exact H | lia].
Qed.

Lemma dict_mem_in (V : Type) (k : string) (d : list (string * V)) :
  Py.dict_mem k d = true -> In k (map fst d).
Proof.
  unfold Py.dict_mem. induction d as [|[k0 v0] d IH]; simpl; [discriminate|].
  destruct (String.eqb k0 k) eqn:E.
  - intros _. left. apply String.eqb_eq. exact E.
  - intros H. right. apply IH. exact H.
Qed.

Lemma NoDup_candidates (subdir stem ext : string) (l : list nat) :
  NoDup l -> NoDup (map (candidate subdir stem ext) l).
Proof.
  induction 1 as [|c l Hc Hl IH]; simpl; constructor; [|exact IH].
  intros Hin. apply in_map_iff in Hin. destruct Hin as (c' & Heq & Hc').
  apply candidate_injective in Heq. subst c'. contradiction.
Qed.

(** The loop finds a free name before it has tried more names than there
    are files. *)
Lemma free_destination_total (subdir stem ext : string) (counter : nat)
      (destination : string) (files : list (string * string)) :
  exists found,
    free_destination (S (List.length files)) subdir stem ext counter
      destination files = Some found.
Proof.
  destruct (free_destination (S (List.length files)) subdir stem ext counter
              destination files) as [found|] eqn:E; [eauto|].
  exfalso.
  pose proof (free_destination_none _ _ _ _ _ _ _ E) as Hall.
  assert (Hincl : incl (map (candidate subdir stem ext)
                          (seq counter (S (List.length files))))
                       (map fst files)).
  { intros x Hx. apply in_map_iff in Hx. destruct Hx as (c & <- & Hc).
    apply in_seq in Hc.
    replace c with (counter + (c - counter))%nat by lia.
    apply dict_mem_in. apply Hall. lia. }
  assert (Hnd : NoDup (map (candidate subdir stem ext)
                         (seq counter (S (List.length files))))).
  { apply NoDup_candidates, seq_NoDup. }
  pose proof (NoDup_incl_length Hnd Hincl) as Hlen.
  rewrite !length_map, length_seq in Hlen. lia.
Qed.

Lemma move_to_processed_result (path bytes : string) (w : World) :
  Py.dict_get path (fs w) = Some bytes ->
  io_ok w (clock w) = true ->
  exists file_name,
    Py.dict_get
      (Path.join (Path.join (processed_dir proc_config)
                    (strftime_Ymd (clock w))) file_name) (fs w) = None
    /\ move_to_processed path w
       = (true,
          with_fs (Py.dict_set
                     (Path.join (Path.join (processed_dir proc_config)
                                   (strftime_Ymd (clock w))) file_name)
                     bytes (Py.dict_del path (fs w)))
            (with_clock (clock w + 1) w)).
Proof.
  intros Hget Hio. unfold move_to_processed, now. rewrite Hget.
  cbv beta iota zeta.
  change (fs (with_clock (clock w + 1) w)) with (fs w).
  change (io_ok (with_clock (clock w + 1) w)) with (io_ok w).
  rewrite Hio. cbv beta iota zeta delta [negb].
  destruct (Path.stem_suffix (Path.name path)) as [stem ext].
  destruct (free_destination_total
              (Path.join (processed_dir proc_config) (strftime_Ymd (clock w)))
              stem ext 1
              (Path.join (Path.join (processed_dir proc_config)
                            (strftime_Ymd (clock w))) (Path.name path))
              (fs w)) as (found & Hfound).
  rewrite Hfound.
  pose proof (free_destination_free _ _ _ _ _ _ _ _ Hfound) as Hfree.
  assert (Hshape : exists file_name,
             found = Path.join (Path.join (processed_dir proc_config)
                                  (strftime_Ymd (clock w))) file_name).
  { clear Hfree. revert Hfound.
    generalize (Path.name path) at 1. generalize 1%nat.
    induction (S (List.length (fs w))) as [|fuel IH]; intros counter nm; simpl.
    - destruct (negb _); [|discriminate]. intros H; inv H. eauto.
    - destruct (negb _); [intros H; inv H; eauto|]. apply IH. }
  destruct Hshape as (file_name & ->).
  exists file_name. split; [exact Hfree | reflexivity].
Qed.

Lemma move_to_processed_refused (path bytes : string) (w : World) :
  Py.dict_get path (fs w) = Some bytes ->
  io_ok w (clock w) = false ->
  move_to_processed path w = (false, with_clock (clock w + 1) w).
Proof.
  intros Hget Hio. unfold move_to_processed, now. rewrite Hget.
  cbv beta iota zeta.
  change (io_ok (with_clock (clock w + 1) w)) with (io_ok w).
  rewrite Hio. reflexivity.
Qed.

Lemma failed_move_keeps_files (path : string) (w : World) :
  fst (move_to_processed path w) = false ->
  fs (snd (move_to_processed path w)) = fs w.
Proof.
  destruct (Py.dict_get path (fs w)) as [bytes|] eqn:Hget.
  - destruct (io_ok w (clock w)) eqn:Hio.
    + destruct (move_to_processed_result path bytes w Hget Hio)
        as (nm & _ & E).
      rewrite E. discriminate.
    + rewrite (move_to_processed_refused path bytes w Hget Hio).
      reflexivity.
  - unfold move_to_processed. rewrite Hget. reflexivity.
Qed.

(** [move_to_processed] returns [True] exactly when the file is there and
    neither [mkdir] nor [shutil.move] raises: the loop that looks for a
    free name cannot run for ever.  When it returns [False], the file is
    where it was, if it was there. *)
Theorem move_to_processed_succeeds_iff (path : string) (w : World) :
  fst (move_to_processed path w)
  = Py.dict_mem path (fs w) && io_ok w (clock w)
  /\ (fst (move_to_processed path w) = false ->
      Py.dict_get path (fs (snd (move_to_processed path w)))
      = Py.dict_get path (fs w)).
Proof.
  unfold Py.dict_mem.
  destruct (Py.dict_get path (fs w)) as [bytes|] eqn:Hget.
  - destruct (io_ok w (clock w)) eqn:Hio.
    + destruct (move_to_processed_result path bytes w Hget Hio)
        as (nm & _ & E).
      rewrite E. split; [reflexivity | discriminate].
    + rewrite (move_to_processed_refused path bytes w Hget Hio).
      split; [reflexivity|]. intros _. simpl. exact Hget.
  - unfold move_to_processed. rewrite Hget.
    split; [reflexivity|]. intros _. simpl. exact Hget.
Qed.

Lemma move_to_processed_effect (path : string) (w w' : World) :
  move_to_processed path w = (true, w') ->
  exists bytes file_name,
    Py.dict_get path (fs w) = Some bytes
    /\ io_ok w (clock w) = true
    /\ Py.dict_get (Path.join (Path.join (processed_dir proc_config)
                                 (strftime_Ymd (clock w))) file_name)
         (fs w) = None
    /\ Py.dict_get (Path.join (Path.join (processed_dir proc_config)
                                 (strftime_Ymd (clock w))) file_name)
         (fs w') = Some bytes
    /\ Py.dict_get path (fs w') = None
    /\ (forall other,
          String.eqb path other = false ->
          String.eqb (Path.join (Path.join (processed_dir proc_config)
                                   (strftime_Ymd (clock w))) file_name)
                     other = false ->
          Py.dict_get other (fs w') = Py.dict_get other (fs w)).
Proof.
  intros Hmove.
  destruct (Py.dict_get path (fs w)) as [bytes|] eqn:Hget;
    [|unfold move_to_processed in Hmove; rewrite Hget in Hmove;
      discriminate].
  destruct (io_ok w (clock w)) eqn:Hio;
    [|rewrite (move_to_processed_refused path bytes w Hget Hio) in Hmove;
      discriminate].
  destruct (move_to_processed_result path bytes w Hget Hio)
    as (nm & Hfree & E).
  rewrite E in Hmove. inv Hmove.
  exists bytes, nm. simpl.
  split; [reflexivity|]. split; [reflexivity|].
  split; [exact Hfree|]. split; [apply dict_get_set_same|].
  assert (Hne : String.eqb
                  (Path.join (Path.join (processed_dir proc_config)
                                (strftime_Ymd (clock w))) nm) path = false).
  { destruct (String.eqb _ path) eqn:Eq; [|reflexivity].
    apply String.eqb_eq in Eq. rewrite Eq in Hfree. congruence. }
  split.
  - rewrite dict_get_set_other by exact Hne. apply dict_get_del_same.
  - intros other H1 H2.
    rewrite dict_get_set_other by exact H2.
    apply dict_get_del_other. exact H1.
Qed.

(** When [move_to_processed] returns [True], the file was there and has
    been put under a name of the dated archive directory that no file
    had, with the same content; the file is gone from where it was, and
    every other file is as it was: no archived file is ever
    overwritten. *)
Theorem move_to_processed_overwrites_nothing (path : string) (w w' : World) :
  move_to_processed path w = (true, w') ->
  exists bytes file_name,
    Py.dict_get path (fs w) = Some bytes
    /\ Py.dict_get (Path.join (Path.join (processed_dir proc_config)
                                 (strftime_Ymd (clock w))) file_name)
         (fs w) = None
    /\ Py.dict_get (Path.join (Path.join (processed_dir proc_config)
                                 (strftime_Ymd (clock w))) file_name)
         (fs w') = Some bytes
    /\ Py.dict_get path (fs w') = None
    /\ (forall other,
          String.eqb path other = false ->
          String.eqb (Path.join (Path.join (processed_dir proc_config)
                                   (strftime_Ymd (clock w))) file_name)
                     other = false ->
          Py.dict_get other (fs w') = Py.dict_get other (fs w)).
Proof.
  intros Hmove.
  destruct (move_to_processed_effect path w w' Hmove)
    as (bytes & nm & H1 & _ & H2 & H3 & H4 & H5).
  exists bytes, nm. auto.
Qed.

(** *** Rejected files, and files that have been recorded *)

Lemma validate_shape (path : string) (w : World) :
  (exists df, validate_excel_file path w = (true, None, Some df))
  \/ (exists msg, validate_excel_file path w = rejected msg).
Proof.
  unfold validate_excel_file, rejected.
  repeat case_match; eauto.
Qed.

(** A file that [process_excel_file] rejects comes with a message and
    without a frame, and nothing is changed by the attempt; a file that
    does not exist, is empty or does not carry an Excel extension is
    rejected with the message that says so, before the file is opened as
    a workbook. *)
Theorem rejected_file_changes_nothing (path : string) (w : World) :
  (forall r w',
     process_excel_file path w = (r, w') ->
     fst (fst r) = false ->
     w' = w /\ snd r = None /\ exists msg, snd (fst r) = Some msg)
  /\ (Py.dict_get path (fs w) = None ->
      process_excel_file path w
      = (rejected ("File does not exist: " ++ path), w))
  /\ (Py.dict_get path (fs w) = Some EmptyString ->
      process_excel_file path w = (rejected ("File is empty: " ++ path), w))
  /\ (forall bytes,
        Py.dict_get path (fs w) = Some bytes ->
        bytes <> EmptyString ->
        Py.endswith (Py.lower path) ".xlsx" = false ->
        Py.endswith (Py.lower path) ".xls" = false ->
        process_excel_file path w
        = (rejected ("Not an Excel file: " ++ path), w)).
Proof.
  split; [|split; [|split]].
  - intros r w'. unfold process_excel_file.
    destruct (validate_shape path w) as [(df & ->) | (msg & ->)].
    + unfold rejected, _process_dataframe, now.
      repeat case_match; intros H; inv H; simpl; intros; try discriminate;
        repeat split; eauto.
    + unfold rejected. intros H; inv H. simpl. repeat split; eauto.
  - intros H. unfold process_excel_file, validate_excel_file. rewrite H.
    reflexivity.
  - intros H. unfold process_excel_file, validate_excel_file. rewrite H.
    reflexivity.
  - intros bytes H Hne H1 H2.
    unfold process_excel_file, validate_excel_file. rewrite H, H1, H2.
    destruct bytes; [contradiction|]. reflexivity.
Qed.

Lemma in_dict_set_same (V : Type) (k : string) (v : V) (d : list (string * V)) :
  In (k, v) (Py.dict_set k v d).
Proof.
  induction d as [|[k0 v0] d IH]; simpl; [left; reflexivity|].
  destruct (String.eqb k0 k); [left; reflexivity | right; exact IH].
Qed.

(** Once [mark_file_as_processed] has recorded a file, every file with the
    same bytes is reported by [is_duplicate_file], wherever it lies and
    whatever it is called, and the record named has the same digest. *)
Theorem recorded_file_is_recognised
        (path other bytes : string) (df : DataFrame) (stats : FileStats)
        (w : World) :
  Py.dict_get path (fs w) = Some bytes ->
  Py.dict_get other (fs w) = Some bytes ->
  String.eqb (md5 bytes) EmptyString = false ->
  exists first info,
    is_duplicate_file other (mark_file_as_processed path df stats w)
    = (true, Some first)
    /\ In (first, info)
          (_processed_files (mark_file_as_processed path df stats w))
    /\ file_hash info = md5 bytes.
Proof.
  intros Hpath Hother Hne.
  unfold mark_file_as_processed, now. simpl. rewrite Hpath.
  unfold is_duplicate_file, _calculate_file_hash. simpl.
  rewrite Hother, Hne, Hpath.
  match goal with
  | |- context [Py.dict_set path ?i (_processed_files w)] =>
      destruct (find_record_some file_hash (md5 bytes)
                  (Py.dict_set path i (_processed_files w)) path i
                  (in_dict_set_same _ path i (_processed_files w)) eq_refl)
        as (first & info & Hf & Hin & Hh)
  end.
  rewrite Hf. exists first, info. auto.
Qed.


(** *** When the e-mail is marked as read *)

(** The file and database operations ask for no e-mail to be marked. *)
Lemma process_dataframe_reads df path w df' w' :
  _process_dataframe df path w = (df', w') -> mark_reads w' = mark_reads w.
Proof. unfold _process_dataframe, now. intros H. inv H. reflexivity. Qed.

Lemma process_excel_file_reads path w r w' :
  process_excel_file path w = (r, w') -> mark_reads w' = mark_reads w.
Proof.
  unfold process_excel_file. repeat case_match; intros H; inv H;
    try reflexivity; eauto using process_dataframe_reads.
Qed.

Lemma mark_file_reads path df stats w :
  mark_reads (mark_file_as_processed path df stats w) = mark_reads w.
Proof. unfold mark_file_as_processed, now. case_match; reflexivity. Qed.

Lemma move_reads path w r w' :
  move_to_processed path w = (r, w') -> mark_reads w' = mark_reads w.
Proof.
  unfold move_to_processed, now. repeat case_match; intros H; inv H; reflexivity.
Qed.

Lemma cleanup_reads name w r w' :
  cleanup_temp_table name w = (r, w') -> mark_reads w' = mark_reads w.
Proof.
  unfold cleanup_temp_table, db_call. case_match; intros H; inv H; reflexivity.
Qed.

Lemma upsert_reads name w r w' :
  upsert_data_to_target_table name w = (r, w') -> mark_reads w' = mark_reads w.
Proof.
  unfold upsert_data_to_target_table, db_call.
  repeat case_match; intros H; inv H; reflexivity.
Qed.

Lemma clean_dataframe_reads df w r w' :
  _clean_dataframe df w = (r, w') -> mark_reads w' = mark_reads w.
Proof.
  unfold _clean_dataframe, now. case_match; intros H; inv H; reflexivity.
Qed.

Lemma create_temp_table_reads name df w r w' :
  create_temp_table name df w = (r, w') -> mark_reads w' = mark_reads w.
Proof.
  unfold create_temp_table, db_call. case_match; intros H; inv H; reflexivity.
Qed.

Lemma load_reads path name w r w' :
  load_excel_to_temp_table path name w = (r, w') -> mark_reads w' = mark_reads w.
Proof.
  unfold load_excel_to_temp_table.
  destruct (Py.dict_get path (fs w)); [|intros H; inv H; reflexivity].
  destruct (read_excel s); [intros H; inv H; reflexivity|].
  destruct (DF.empty d); [intros H; inv H; reflexivity|].
  destruct (negb _); [intros H; inv H; reflexivity|].
  destruct (_clean_dataframe d w) as [[df|] w1] eqn:Hc;
    apply clean_dataframe_reads in Hc.
  - destruct (create_temp_table name df w1) as [ok w2] eqn:Ht.
    apply create_temp_table_reads in Ht.
    destruct ok; intros H; inv H; congruence.
  - intros H; inv H; assumption.
Qed.

Lemma process_file_reads job path w r w' :
  process_file job path w = (r, w') -> mark_reads w' = mark_reads w.
Proof.
  unfold process_file.
  destruct (process_excel_file path w) as [[[ok msg] df] w1] eqn:H1.
  apply process_excel_file_reads in H1.
  destruct ok; [|intros H; inv H; assumption].
  destruct (load_excel_to_temp_table path _ _) as [[ok df'] w2] eqn:H2.
  apply load_reads in H2. change (mark_reads w2 = mark_reads w1) in H2.
  destruct ok; [|intros H; inv H; congruence].
  destruct df' as [loaded|]; [|intros H; inv H; congruence].
  destruct (upsert_data_to_target_table _ w2) as [up w3] eqn:H3.
  apply upsert_reads in H3.
  destruct up; simpl; [|intros H; inv H; congruence].
  destruct (started_at job);
    [|intros H; inv H; unfold mark_reads in *; simpl in *; congruence].
  destruct (move_to_processed path _) as [moved w4] eqn:H4.
  apply move_reads in H4. rewrite mark_file_reads in H4.
  destruct (cleanup_temp_table _ w4) as [c w5] eqn:H5.
  apply cleanup_reads in H5.
  intros H; inv H. unfold mark_reads in *; simpl in *. congruence.
Qed.

Lemma process_files_reads job paths :
  forall total processed w total' processed' w',
  process_files job paths total processed w = (total', processed', w') ->
  mark_reads w' = mark_reads w.
Proof.
  induction paths as [|p rest IH]; simpl; intros total processed w t' p' w' H.
  - inv H. reflexivity.
  - destruct (process_file job p w) as [[counted n] w1] eqn:H1.
    apply process_file_reads in H1. apply IH in H. congruence.
Qed.

Lemma create_temp_schema_reads w r w' :
  create_temp_schema w = (r, w') -> mark_reads w' = mark_reads w.
Proof.
  unfold create_temp_schema, db_call.
  repeat case_match; intros H; inv H; reflexivity.
Qed.

(** [process_job] asks for the e-mail to be marked as read when at least
    one file of the job went through, and only then (not, as its comment
    has it, when all of them did): a job none of whose files could be
    processed is [COMPLETED] and leaves its e-mail unread, and so does a
    job that fails. *)
Theorem email_marked_read_iff_a_file_went_through
        (job : ProcessingJob) (w : World) :
  exists ok job' w',
    process_job job w = (ok, job', w')
    /\ email_uid job' = email_uid job
    /\ if ok
       then exists stats,
              processing_stats job' = Some stats
              /\ status job' = COMPLETED
              /\ mark_reads w'
                 = (if 0 <? processed_files stats then [email_uid job]
                    else []) ++ mark_reads w
       else status job' = FAILED /\ mark_reads w' = mark_reads w.
Proof.
  unfold process_job, set_status, set_started_at, set_completed_at, now.
  destruct (create_temp_schema _) as [ok w0] eqn:Hs.
  apply create_temp_schema_reads in Hs.
  destruct ok; simpl.
  - destruct (process_files _ _ _ _ _) as [[total processed] w1] eqn:Hp.
    apply process_files_reads in Hp.
    do 3 eexists. split; [reflexivity|]. simpl.
    split; [reflexivity|]. eexists. split; [reflexivity|].
    split; [reflexivity|].
    unfold mark_reads in *. simpl in *.
    destruct processed as [|p ps]; simpl; rewrite Hp, Hs; reflexivity.
  - do 3 eexists. split; [reflexivity|]. simpl.
    split; [reflexivity|]. split; [reflexivity|]. exact Hs.
Qed.


(** *** Forgetting old records *)

(** After [_cleanup_processed_files_db] the index holds the records that
    are not older than the cut-off date, and [is_duplicate_file] reports
    a file exactly when one of these has the digest of its bytes: a file
    processed before the cut-off date is accepted again. *)
Theorem cleanup_forgets_old_files (cutoff_date : Z) (path : string) (w : World) :
  (forall p info,
     In (p, info) (_processed_files (_cleanup_processed_files_db cutoff_date w))
     <-> In (p, info) (_processed_files w) /\ cutoff_date <= processed_at info)
  /\ (fst (is_duplicate_file path (_cleanup_processed_files_db cutoff_date w))
      = true
      <-> String.eqb (_calculate_file_hash path w) EmptyString = false
          /\ exists p info,
               In (p, info) (_processed_files w)
               /\ cutoff_date <= processed_at info
               /\ file_hash info = _calculate_file_hash path w).
Proof.
  assert (Hin : forall p info,
     In (p, info) (_processed_files (_cleanup_processed_files_db cutoff_date w))
     <-> In (p, info) (_processed_files w) /\ cutoff_date <= processed_at info).
  { intros p info. unfold _cleanup_processed_files_db. simpl.
    rewrite filter_In. simpl. rewrite Z.leb_le. reflexivity. }
  split; [exact Hin|].
  unfold is_duplicate_file.
  change (_calculate_file_hash path (_cleanup_processed_files_db cutoff_date w))
    with (_calculate_file_hash path w).
  destruct (String.eqb (_calculate_file_hash path w) EmptyString) eqn:Eh.
  - simpl. split; [discriminate | intros [H _]; discriminate].
  - destruct (find_record file_hash (_calculate_file_hash path w)
                (_processed_files (_cleanup_processed_files_db cutoff_date w)))
      as [first|] eqn:Ef; simpl.
    + split; [intros _ | reflexivity]. split; [reflexivity|].
      destruct (find_record_in _ _ _ _ Ef) as (info & Hi & Hh).
      apply Hin in Hi. destruct Hi as [Hi Hc]. exists first, info. auto.
    + split; [discriminate|]. intros (_ & p & info & Hi & Hc & Hh).
      assert (Hi' : In (p, info)
                      (_processed_files
                         (_cleanup_processed_files_db cutoff_date w)))
        by (apply Hin; auto).
      destruct (find_record_some file_hash _ _ p info Hi' Hh)
        as (first & info' & Hf & _).
      congruence.
Qed.


(* ===================================================================== *)
(** ** Further properties of one file's way through [process_job]        *)
(* ===================================================================== *)

(** *** What each step leaves alone *)

Lemma process_excel_file_frame path w r w' :
  process_excel_file path w = (r, w') ->
  fs w' = fs w /\ temp_tables w' = temp_tables w /\ target w' = target w
  /\ db_ok w' = db_ok w /\ db_calls w' = db_calls w /\ uuids w' = uuids w.
Proof.
  unfold process_excel_file, _process_dataframe, now.
  repeat case_match; intros H; inv H; repeat split.
Qed.

Lemma load_frame path name w r w' :
  load_excel_to_temp_table path name w = (r, w') ->
  fs w' = fs w /\ target w' = target w /\ db_ok w' = db_ok w
  /\ (fst r = true -> db_calls w' = S (db_calls w)).
Proof.
  unfold load_excel_to_temp_table.
  destruct (Py.dict_get path (fs w)); [|intros H; inv H; repeat split; discriminate].
  destruct (read_excel s); [intros H; inv H; repeat split; discriminate|].
  destruct (DF.empty d); [intros H; inv H; repeat split; discriminate|].
  destruct (negb _); [intros H; inv H; repeat split; discriminate|].
  unfold _clean_dataframe, create_temp_table, db_call, now.
  destruct (negb _); [intros H; inv H; repeat split; discriminate|].
  simpl. destruct (db_ok w (db_calls w)); intros H; inv H; repeat split;
    discriminate.
Qed.

Lemma upsert_frame name w r w' :
  upsert_data_to_target_table name w = (r, w') ->
  fs w' = fs w /\ temp_tables w' = temp_tables w /\ db_ok w' = db_ok w
  /\ db_calls w' = S (db_calls w).
Proof.
  unfold upsert_data_to_target_table, db_call.
  repeat case_match; intros H; inv H; repeat split.
Qed.

Lemma mark_frame path df stats w :
  fs (mark_file_as_processed path df stats w) = fs w
  /\ temp_tables (mark_file_as_processed path df stats w) = temp_tables w
  /\ db_ok (mark_file_as_processed path df stats w) = db_ok w
  /\ db_calls (mark_file_as_processed path df stats w) = db_calls w.
Proof. unfold mark_file_as_processed, now. case_match; repeat split. Qed.

Lemma move_frame path w r w' :
  move_to_processed path w = (r, w') ->
  temp_tables w' = temp_tables w /\ db_ok w' = db_ok w
  /\ db_calls w' = db_calls w /\ _processed_files w' = _processed_files w.
Proof.
  unfold move_to_processed, now. repeat case_match; intros H; inv H;
    repeat split.
Qed.

Lemma load_reads_the_file path name w df w' :
  load_excel_to_temp_table path name w = ((true, Some df), w') ->
  exists bytes raw,
    Py.dict_get path (fs w) = Some bytes
    /\ read_excel bytes = inr raw
    /\ DF.has_column (unique_key db_config) raw = true.
Proof.
  unfold load_excel_to_temp_table.
  destruct (Py.dict_get path (fs w)) as [bytes|]; [|discriminate].
  destruct (read_excel bytes) as [e|raw] eqn:Hr; [discriminate|].
  destruct (DF.empty raw); [discriminate|].
  destruct (DF.has_column (unique_key db_config) raw) eqn:Hk;
    [|discriminate].
  intros _. exists bytes, raw. auto.
Qed.

Lemma process_excel_file_reads_the_file path w msg df w' :
  process_excel_file path w = ((true, msg, df), w') ->
  exists bytes raw,
    Py.dict_get path (fs w) = Some bytes
    /\ read_excel bytes = inr raw
    /\ DF.has_column "hawb" raw = true.
Proof.
  unfold process_excel_file, validate_excel_file, rejected.
  destruct (Py.dict_get path (fs w)) as [bytes|]; [|discriminate].
  destruct (_ =? _)%nat; [discriminate|].
  destruct (negb _); [discriminate|].
  destruct (read_excel bytes) as [e|raw] eqn:Hr; [discriminate|].
  destruct (DF.empty raw); [discriminate|].
  simpl. destruct (DF.has_column "hawb" raw) eqn:Hk; simpl; [|discriminate].
  intros _. exists bytes, raw. auto.
Qed.

(** *** A file that is counted, and one that is not *)

(** For a job that has been started: a file that the loop of
    [process_job] counts as processed was there, could be read, and has
    both the column [hawb] that the validation asks for and the key column
    of the configuration; it has been recorded in the index with the
    digest of its bytes and the number of its staged rows, and moved
    away.  A file that is not counted is still where it was; it adds
    nothing to [total_records] unless it was staged, upserted and recorded
    and only the move to the archive failed: then its rows are counted and
    it is in the index as processed. *)
Theorem counted_file_anatomy
        (job : ProcessingJob) (path : string) (w w' : World)
        (counted : bool) (n : Z) :
  (exists t, started_at job = Some t) ->
  process_file job path w = ((counted, n), w') ->
  (counted = true \/ n <> 0 ->
   exists bytes raw info,
     Py.dict_get path (fs w) = Some bytes
     /\ read_excel bytes = inr raw
     /\ DF.has_column "hawb" raw = true
     /\ DF.has_column (unique_key db_config) raw = true
     /\ Py.dict_get path (_processed_files w') = Some info
     /\ file_hash info = md5 bytes
     /\ records_count info = n
     /\ 0 <= n)
  /\ (counted = true -> Py.dict_get path (fs w') = None)
  /\ (counted = false -> Py.dict_get path (fs w') = Py.dict_get path (fs w)).
Proof.
  intros (t & Hst) H. unfold process_file in H.
  assert (Hskip : forall x, fs x = fs w ->
            (false = true \/ 0 <> 0 ->
             exists bytes raw info,
               Py.dict_get path (fs w) = Some bytes
               /\ read_excel bytes = inr raw
               /\ DF.has_column "hawb" raw = true
               /\ DF.has_column (unique_key db_config) raw = true
               /\ Py.dict_get path (_processed_files x) = Some info
               /\ file_hash info = md5 bytes
               /\ records_count info = 0
               /\ 0 <= 0)
            /\ (false = true -> Py.dict_get path (fs x) = None)
            /\ (false = false ->
                Py.dict_get path (fs x) = Py.dict_get path (fs w))).
  { intros x Hx. split; [|split].
    - intros [Hc | Hn]; [discriminate | contradiction].
    - discriminate.
    - intros _. rewrite Hx. reflexivity. }
  destruct (process_excel_file path w) as [[[ok msg] df] w1] eqn:H1.
  pose proof (process_excel_file_frame _ _ _ _ H1) as (Hfs1 & _).
  destruct ok; [|inv H; apply Hskip; exact Hfs1].
  destruct (process_excel_file_reads_the_file _ _ _ _ _ H1)
    as (bytes & raw & Hget & Hread & Hhawb).
  destruct (load_excel_to_temp_table path _ _) as [[ok df'] w2] eqn:H2.
  pose proof (load_frame _ _ _ _ _ H2) as (Hfs2 & _). simpl in Hfs2.
  destruct ok; [|inv H; apply Hskip; congruence].
  destruct df' as [loaded|]; [|inv H; apply Hskip; congruence].
  destruct (load_reads_the_file _ _ _ _ _ H2)
    as (bytes' & raw' & Hget' & Hread' & Hkey).
  simpl in Hget'.
  rewrite Hfs1, Hget in Hget'. inv Hget'. rewrite Hread in Hread'. inv Hread'.
  destruct (upsert_data_to_target_table _ w2) as [up w3] eqn:H3.
  apply upsert_frame in H3. destruct H3 as (Hfs3 & _).
  destruct up; simpl in H; [|inv H; apply Hskip; congruence].
  rewrite Hst in H.
  match type of H with
  | context [mark_file_as_processed ?p ?d ?s ?x] =>
      pose proof (mark_frame p d s x) as (Hfs4 & _);
      assert (Hrec : exists info,
                 Py.dict_get path
                   (_processed_files (mark_file_as_processed p d s x))
                 = Some info
                 /\ file_hash info = md5 bytes'
                 /\ records_count info = DF.len loaded);
      [| set (w4 := mark_file_as_processed p d s x) in * ]
  end.
  { unfold mark_file_as_processed, now. simpl.
    rewrite Hfs3, Hfs2, Hfs1, Hget. simpl.
    rewrite dict_get_set_same. eexists. split; [reflexivity|].
    unfold _calculate_file_hash. simpl. rewrite Hfs3, Hfs2, Hfs1, Hget.
    split; reflexivity. }
  assert (Hthere : Py.dict_get path (fs w4) = Py.dict_get path (fs w)).
  { rewrite Hfs4. simpl. rewrite Hfs3, Hfs2, Hfs1. reflexivity. }
  destruct (move_to_processed path w4) as [moved w5] eqn:Hmove.
  pose proof (move_frame _ _ _ _ Hmove) as (_ & _ & _ & Hidx).
  destruct (cleanup_temp_table _ w5) as [c w6] eqn:H6.
  assert (Hc : fs w6 = fs w5 /\ _processed_files w6 = _processed_files w5).
  { unfold cleanup_temp_table, db_call in H6.
    destruct (db_ok w5 (db_calls w5)); inv H6; split; reflexivity. }
  destruct Hc as (Hfs6 & Hidx6). inv H.
  destruct Hrec as (info & Hinfo & Hh & Hn).
  split; [|split].
  - intros _. exists bytes', raw', info. rewrite Hidx6, Hidx.
    repeat split; auto. unfold DF.len. lia.
  - intros ->. rewrite Hfs6.
    destruct (move_to_processed_effect path w4 w5 Hmove)
      as (b & nm & _ & _ & _ & _ & Hgone & _).
    exact Hgone.
  - intros ->. rewrite Hfs6.
    pose proof (failed_move_keeps_files path w4) as Hsame.
    rewrite Hmove in Hsame. simpl in Hsame. rewrite (Hsame eq_refl).
    exact Hthere.
Qed.

(** *** The staging table of a file that goes through *)

Lemma upsert_clock name w r w' :
  upsert_data_to_target_table name w = (r, w') ->
  clock w' = clock w /\ io_ok w' = io_ok w.
Proof.
  unfold upsert_data_to_target_table, db_call.
  repeat case_match; intros H; inv H; split; reflexivity.
Qed.

Lemma mark_clock path df stats w :
  clock (mark_file_as_processed path df stats w) = clock w + 1
  /\ io_ok (mark_file_as_processed path df stats w) = io_ok w.
Proof. unfold mark_file_as_processed, now. case_match; split; reflexivity. Qed.

Lemma move_to_processed_flag (path bytes : string) (w : World) :
  Py.dict_get path (fs w) = Some bytes ->
  fst (move_to_processed path w) = io_ok w (clock w).
Proof.
  intros Hget. destruct (io_ok w (clock w)) eqn:Hio.
  - destruct (move_to_processed_result path bytes w Hget Hio) as (nm & _ & E).
    rewrite E. reflexivity.
  - rewrite (move_to_processed_refused path bytes w Hget Hio). reflexivity.
Qed.

(** When a file has been staged and the upsert succeeds, its rows are
    counted, and the file is counted as processed exactly when the move
    to the archive goes through, whether or not the staging table can
    then be dropped: the table is gone when the database answers the call
    of [cleanup_temp_table], and stays when it does not, and in neither
    case does the result of the file change. *)
Theorem cleanup_failure_is_not_an_error
        (job : ProcessingJob) (path : string) (w w1 w2 : World)
        (msg : option string) (df : option DataFrame) (loaded : DataFrame)
        (t : Z) :
  started_at job = Some t ->
  process_excel_file path w = ((true, msg, df), w1) ->
  load_excel_to_temp_table path
    ("temp_job_" ++ id job ++ "_" ++ uuid4_hex8 (uuids w1))
    (with_uuids (S (uuids w1)) w1)
  = ((true, Some loaded), w2) ->
  db_ok w2 (db_calls w2) = true ->
  exists w',
    process_file job path w
    = ((io_ok w2 (clock w2 + 2), DF.len loaded), w')
    /\ Py.dict_get ("temp_job_" ++ id job ++ "_" ++ uuid4_hex8 (uuids w1))
         (temp_tables w')
       = (if db_ok w2 (S (db_calls w2)) then None else Some loaded).
Proof.
  intros Hst H1 H2 Hdb.
  destruct (load_creates _ _ _ _ _ H2) as (Htab & _ & _).
  destruct (load_reads_the_file _ _ _ _ _ H2) as (bytes & raw & Hget & _).
  pose proof (load_frame _ _ _ _ _ H2) as (Hfs2 & _). simpl in Hfs2, Hget.
  unfold process_file. rewrite H1, H2.
  destruct (upsert_data_to_target_table _ w2) as [up w3] eqn:H3.
  pose proof (upsert_frame _ _ _ _ H3) as (Hfs3 & Htt3 & Hok3 & Hcalls3).
  pose proof (upsert_clock _ _ _ _ H3) as (Hclock3 & Hio3).
  assert (up = true).
  { unfold upsert_data_to_target_table, db_call in H3.
    rewrite Hdb in H3. cbv beta iota zeta in H3.
    change (temp_tables (with_db_calls (S (db_calls w2)) w2))
      with (temp_tables w2) in H3.
    rewrite Htab in H3. inv H3. reflexivity. }
  subst up. simpl. rewrite Hst.
  match goal with
  | |- context [mark_file_as_processed ?p ?d ?s ?x] =>
      pose proof (mark_frame p d s x) as (Hfs4 & Htt4 & Hok4 & Hcalls4);
      pose proof (mark_clock p d s x) as (Hclock4 & Hio4);
      set (w4 := mark_file_as_processed p d s x) in *
  end.
  simpl in Hfs4, Htt4, Hok4, Hcalls4, Hclock4, Hio4.
  assert (Hthere : Py.dict_get path (fs w4) = Some bytes).
  { rewrite Hfs4, Hfs3, Hfs2. exact Hget. }
  pose proof (move_to_processed_flag path bytes w4 Hthere) as Hflag.
  destruct (move_to_processed path w4) as [moved w5] eqn:Hmove.
  pose proof (move_frame _ _ _ _ Hmove) as (Htt5 & Hok5 & Hcalls5 & _).
  simpl in Hflag. subst moved.
  rewrite Hio4, Hio3, Hclock4, Hclock3.
  replace (clock w2 + 1 + 1) with (clock w2 + 2) by lia.
  unfold cleanup_temp_table, db_call.
  rewrite Hok5, Hok4, Hok3, Hcalls5, Hcalls4, Hcalls3.
  destruct (db_ok w2 (S (db_calls w2))).
  - eexists. split; [reflexivity|]. simpl. apply dict_get_del_same.
  - eexists. split; [reflexivity|].
    change (Py.dict_get
              ("temp_job_" ++ id job ++ "_" ++ uuid4_hex8 (uuids w1))
              (temp_tables w5) = Some loaded).
    rewrite Htt5, Htt4, Htt3. exact Htab.
Qed.


(** *** The columns of a staged frame *)

Lemma columns_put_column col dt vals df :
  DF.columns (DF.put_column col dt vals df) = DF.columns df.
Proof.
  unfold DF.columns, DF.put_column. simpl. rewrite map_map.
  apply map_ext. intros [a b]. simpl. destruct (String.eqb a col); reflexivity.
Qed.

Lemma columns_convert_dates cols :
  forall df, DF.columns (convert_dates cols df) = DF.columns df.
Proof.
  induction cols as [|col rest IH]; intros df; simpl; [reflexivity|].
  rewrite IH.
  destruct (DF.dtype_of col df) as [[| | |]|]; try reflexivity.
  destruct (existsb _ _); [|reflexivity].
  destruct (to_datetime _); [|reflexivity].
  apply columns_put_column.
Qed.

Lemma columns_fill_missing cols :
  forall df, DF.columns (fill_missing cols df) = DF.columns df.
Proof.
  induction cols as [|col rest IH]; intros df; simpl; [reflexivity|].
  rewrite IH. destruct (DF.dtype_of col df); [|reflexivity].
  apply columns_map_column.
Qed.

Lemma unique_names_snoc (cols : list string) (c : string) :
  DF.unique_names cols = true ->
  existsb (String.eqb c) cols = false ->
  DF.unique_names (cols ++ [c]) = true.
Proof.
  induction cols as [|x l IH]; simpl; [reflexivity|].
  intros Hu Hc. apply andb_true_iff in Hu. destruct Hu as [Hx Hl].
  apply orb_false_iff in Hc. destruct Hc as [Hcx Hcl].
  rewrite IH by assumption. rewrite existsb_app. simpl.
  apply negb_true_iff in Hx. rewrite Hx.
  rewrite String.eqb_sym, Hcx. reflexivity.
Qed.

Lemma unique_names_assign col dt v df :
  DF.unique_names (DF.columns df) = true ->
  DF.unique_names (DF.columns (DF.assign col dt v df)) = true.
Proof.
  intros Hu. unfold DF.assign. destruct (DF.has_column col df) eqn:E.
  - rewrite columns_map_column. exact Hu.
  - unfold DF.columns in *. simpl. rewrite map_app. simpl.
    apply unique_names_snoc; assumption.
Qed.

Lemma has_column_in col df :
  DF.has_column col df = true <-> In col (DF.columns df).
Proof.
  unfold DF.has_column. rewrite existsb_exists. split.
  - intros (x & Hin & He). apply String.eqb_eq in He. subst. exact Hin.
  - intros Hin. exists col. split; [exact Hin | apply String.eqb_refl].
Qed.

(** The frame that [load_excel_to_temp_table] stages has the key column
    of the configuration, the two columns [processed_at] and
    [file_source], and no column name twice; so the upsert statement
    built from the staging table names every column once and its SET
    list is not empty. *)
Theorem staged_frame_columns
        (path name : string) (staged : DataFrame) (w w' : World) :
  load_excel_to_temp_table path name w = ((true, Some staged), w') ->
  In (unique_key db_config) (DF.columns staged)
  /\ In "processed_at"%string (DF.columns staged)
  /\ In "file_source"%string (DF.columns staged)
  /\ DF.unique_names (DF.columns staged) = true
  /\ exists assignment others,
       update_assignments (unique_key db_config) (DF.columns staged)
       = assignment :: others.
Proof.
  unfold load_excel_to_temp_table.
  destruct (Py.dict_get path (fs w)) as [bytes|]; [|discriminate].
  destruct (read_excel bytes) as [e|raw]; [discriminate|].
  destruct (DF.empty raw); [discriminate|].
  destruct (DF.has_column (unique_key db_config) raw) eqn:Hk; [|discriminate].
  simpl. unfold _clean_dataframe, now.
  destruct (DF.unique_names (DF.columns (DF.dropna_all raw))) eqn:Hu;
    [|discriminate].
  simpl. destruct (create_temp_table _ _ _) as [ok w2]. destruct ok;
    [|discriminate].
  intros H. inv H.
  match goal with
  | |- context [DF.assign "file_source" DObject ?v (DF.assign "processed_at" DDatetime ?t ?d)] =>
      set (base := d);
      set (staged := DF.assign "file_source" DObject v
                       (DF.assign "processed_at" DDatetime t d))
  end.
  assert (Hbase : DF.columns base = DF.columns raw).
  { unfold base. rewrite columns_fill_missing, columns_convert_dates.
    reflexivity. }
  assert (H1 : In (unique_key db_config) (DF.columns staged)).
  { apply has_column_in. unfold staged.
    do 2 apply has_column_assign_other.
    apply has_column_in.
    change (In (unique_key db_config) (DF.columns base)).
    rewrite Hbase. apply has_column_in. exact Hk. }
  assert (H2 : In "processed_at"%string (DF.columns staged)).
  { apply has_column_in. unfold staged.
    apply has_column_assign_other, has_column_assign_same. }
  assert (H3 : In "file_source"%string (DF.columns staged)).
  { apply has_column_in. unfold staged. apply has_column_assign_same. }
  assert (H4 : DF.unique_names (DF.columns staged) = true).
  { unfold staged. do 2 apply unique_names_assign.
    change (DF.unique_names (DF.columns base) = true).
    rewrite Hbase. exact Hu. }
  repeat split; auto.
  assert (Hsome : exists col, In col (DF.columns staged)
                              /\ String.eqb col (unique_key db_config) = false).
  { destruct (String.eqb "processed_at" (unique_key db_config)) eqn:E.
    - exists "file_source"%string. split; [exact H3|].
      apply String.eqb_eq in E. rewrite <- E. reflexivity.
    - exists "processed_at"%string. auto. }
  destruct Hsome as (col & Hin & Hne).
  destruct (update_assignments (unique_key db_config) (DF.columns staged))
    as [|a l] eqn:Eu; [|eauto].
  exfalso.
  assert (Hx : In (col ++ " = src." ++ col)%string
                 (update_assignments (unique_key db_config)
                    (DF.columns staged)))
    by (apply in_update_assignments; exists col; auto).
  rewrite Eu in Hx. exact Hx.
Qed.


(* ===================================================================== *)
(** ** The retry loop when the processor raises                           *)
(* ===================================================================== *)

(** One attempt in which the processor raises [e] and touches nothing. *)
Lemma retry_attempt_raises (proc : Processor) (e : string) (a : nat)
      (rest : list Z) (job : ProcessingJob) (w : World) :
  (forall j x, proc j x = (Raised e, j, x)) ->
  (a = O -> retry_count job = 0) ->
  exists job' w',
    retry_attempts proc (Z.of_nat a :: rest) job w
    = retry_attempts proc rest job' w'
    /\ retry_count job' = Z.of_nat a
    /\ max_retries job' = max_retries job
    /\ (if Z.of_nat a <? max_retries job
        then status job' = status job
             /\ error_message job' = error_message job
             /\ trace w' = trace w ++ [Attempt (Z.of_nat a);
                                       Sleep (Z.of_nat a) (2 ^ Z.of_nat a)]
        else status job' = FAILED
             /\ error_message job' = Some e
             /\ (exists t, completed_at job' = Some t)
             /\ trace w' = trace w ++ [Attempt (Z.of_nat a); Status FAILED;
                                       Completed]).
Proof.
  intros Hproc H0. cbn [retry_attempts].
  set (job1 := if 0 <? Z.of_nat a then with_retry_count (Z.of_nat a) job
               else job).
  assert (Hr : retry_count job1 = Z.of_nat a).
  { unfold job1. destruct (0 <? Z.of_nat a) eqn:E; [reflexivity|].
    apply Z.ltb_ge in E. assert (a = O) by lia. subst a. auto. }
  assert (Hm : max_retries job1 = max_retries job)
    by (unfold job1; destruct (0 <? Z.of_nat a); reflexivity).
  assert (Hs : status job1 = status job)
    by (unfold job1; destruct (0 <? Z.of_nat a); reflexivity).
  assert (He : error_message job1 = error_message job)
    by (unfold job1; destruct (0 <? Z.of_nat a); reflexivity).
  rewrite Hproc, Hm, Hr.
  destruct (Z.of_nat a <? max_retries job).
  - do 2 eexists. split; [reflexivity|].
    rewrite trace_sleep, trace_emit, <- app_assoc. auto.
  - unfold set_status, set_completed_at, now. simpl.
    do 2 eexists. split; [reflexivity|]. simpl.
    repeat split; eauto.
    unfold trace. simpl. rewrite <- !app_assoc. reflexivity.
Qed.

(** The trace of the attempt numbered [k] when the processor raises. *)
Definition raised_attempt (m k : Z) : list Step :=
  if k <? m then [Attempt k; Sleep k (2 ^ k)]
  else [Attempt k; Status FAILED; Completed].

Lemma retry_attempts_raise (proc : Processor) (e : string) (n : nat) :
  (forall j x, proc j x = (Raised e, j, x)) ->
  forall (a : nat) (job : ProcessingJob) (w : World),
  (a = O -> retry_count job = 0) ->
  exists job' w',
    retry_attempts proc (map Z.of_nat (seq a n)) job w = (false, job', w')
    /\ max_retries job' = max_retries job
    /\ trace w' = trace w ++ flat_map (raised_attempt (max_retries job))
                               (map Z.of_nat (seq a n))
    /\ (max_retries job < Z.of_nat (a + n) ->
        Z.of_nat a <= max_retries job
        \/ (status job = FAILED /\ error_message job = Some e
            /\ exists t, completed_at job = Some t) ->
        status job' = FAILED /\ error_message job' = Some e
        /\ exists t, completed_at job' = Some t).
Proof.
  intros Hproc. induction n as [|n IH]; intros a job w H0.
  - exists job, w. simpl. rewrite app_nil_r, Nat.add_0_r.
    split; [reflexivity|]. split; [reflexivity|]. split; [reflexivity|].
    intros Hlt [Hle | Hf]; [lia | exact Hf].
  - change (map Z.of_nat (seq a (S n)))
      with (Z.of_nat a :: map Z.of_nat (seq (S a) n)).
    destruct (retry_attempt_raises proc e a (map Z.of_nat (seq (S a) n))
                job w Hproc H0)
      as (job1 & w1 & E1 & Hr1 & Hm1 & Hcase).
    destruct (IH (S a) job1 w1) as (job2 & w2 & E2 & Hm2 & Ht2 & Hfin2);
      [discriminate|].
    exists job2, w2. rewrite E1, E2. split; [reflexivity|].
    split; [congruence|].
    cbn [flat_map]. unfold raised_attempt at 1.
    destruct (Z.of_nat a <? max_retries job) eqn:Elt.
    + destruct Hcase as (Hs1 & He1 & Ht1). split.
      * rewrite Ht2, Ht1, Hm1, <- app_assoc. reflexivity.
      * intros Hlt _. apply Z.ltb_lt in Elt. apply Hfin2; rewrite Hm1; lia.
    + destruct Hcase as (Hs1 & He1 & Hc1 & Ht1). split.
      * rewrite Ht2, Ht1, Hm1, <- app_assoc. reflexivity.
      * intros Hlt _. apply Hfin2; [rewrite Hm1; lia|]. right. auto.
Qed.

(** If the processor raised on every attempt, the controller would try
    the job [max_retries + 1] times, sleep [2 ^ k] seconds after the
    attempt numbered [k < max_retries], and in the handler of the last
    attempt set the job to [FAILED] with the text of the exception as its
    error message and with [completed_at]. *)
Theorem retry_when_the_processor_raises
        (proc : Processor) (e : string) (job : ProcessingJob) (w : World) :
  (forall j x, proc j x = (Raised e, j, x)) ->
  0 <= max_retries job ->
  retry_count job = 0 ->
  exists job' w',
    retry_with proc job w = (false, job', w')
    /\ status job' = FAILED
    /\ error_message job' = Some e
    /\ (exists t, completed_at job' = Some t)
    /\ attempts_in (trace w')
       = attempts_in (trace w) ++ Py.range (max_retries job + 1)
    /\ sleeps_in (trace w')
       = sleeps_in (trace w)
         ++ map (fun k => (k, 2 ^ k)) (Py.range (max_retries job))
    /\ statuses_in (trace w') = statuses_in (trace w) ++ [FAILED].
Proof.
  intros Hproc Hm Hr. unfold retry_with, Py.range at 1.
  destruct (retry_attempts_raise proc e (Z.to_nat (max_retries job + 1))
              Hproc O job w (fun _ => Hr))
    as (job' & w' & E & _ & Ht & Hfin).
  destruct Hfin as (Hs & He & Hc); [lia | left; lia |].
  exists job', w'. split; [exact E|].
  fold (Py.range (max_retries job + 1)) in Ht.
  assert (A : forall l,
             attempts_in (flat_map (raised_attempt (max_retries job)) l) = l).
  { induction l as [|k l IH]; [reflexivity|]. cbn [flat_map].
    rewrite attempts_in_app, IH. unfold raised_attempt.
    destruct (k <? max_retries job); reflexivity. }
  assert (S : forall l,
             sleeps_in (flat_map (raised_attempt (max_retries job)) l)
             = map (fun k => (k, 2 ^ k))
                   (filter (fun k => k <? max_retries job) l)).
  { induction l as [|k l IH]; [reflexivity|]. cbn [flat_map filter].
    rewrite sleeps_in_app, IH. unfold raised_attempt.
    destruct (k <? max_retries job); reflexivity. }
  assert (T : forall l,
             statuses_in (flat_map (raised_attempt (max_retries job)) l)
             = map (fun _ => FAILED)
                   (filter (fun k => negb (k <? max_retries job)) l)).
  { induction l as [|k l IH]; [reflexivity|]. cbn [flat_map filter].
    rewrite statuses_in_app, IH. unfold raised_attempt.
    destruct (k <? max_retries job); reflexivity. }
  rewrite Ht, attempts_in_app, sleeps_in_app, statuses_in_app, A, S, T.
  rewrite filter_below_range by assumption.
  repeat split; auto. f_equal.
  rewrite range_succ, filter_app by assumption. simpl.
  rewrite Z.ltb_irrefl. simpl.
  assert (N : forall l, (forall x, In x l -> x < max_retries job) ->
                        filter (fun k => negb (k <? max_retries job)) l = []).
  { induction l as [|k l IH]; intros Hl; [reflexivity|]. simpl.
    assert (Hk : (k <? max_retries job) = true)
      by (apply Z.ltb_lt, Hl; left; reflexivity).
    rewrite Hk. simpl. apply IH. intros x Hx. apply Hl. right. exact Hx. }
  rewrite N; [reflexivity|].
  intros x Hx. apply range_bound in Hx. lia.
Qed.


(* ===================================================================== *)
(** ** The history of jobs                                                *)
(* ===================================================================== *)

Lemma insert_desc_perm (key : ProcessingJob -> Z) (x : ProcessingJob)
      (l : list ProcessingJob) :
  Permutation (insert_desc key x l) (x :: l).
Proof.
  induction l as [|y l IH]; simpl; [reflexivity|].
  destruct (key y <? key x); [reflexivity|].
  rewrite IH. apply perm_swap.
Qed.

Lemma sort_desc_perm_acc (key : ProcessingJob -> Z) (l : list ProcessingJob) :
  forall acc,
  Permutation (fold_left (fun sorted x => insert_desc key x sorted) l acc)
              (acc ++ l).
Proof.
  induction l as [|x l IH]; intros acc; simpl.
  - rewrite app_nil_r. reflexivity.
  - rewrite IH, insert_desc_perm.
    change (x :: acc) with ([x] ++ acc).
    rewrite (Permutation_app_comm [x] acc), <- app_assoc. reflexivity.
Qed.

Definition falling (key : ProcessingJob -> Z) (a b : ProcessingJob) : Prop :=
  key b <= key a.

Lemma insert_desc_sorted (key : ProcessingJob -> Z) (x : ProcessingJob)
      (l : list ProcessingJob) :
  StronglySorted (falling key) l ->
  StronglySorted (falling key) (insert_desc key x l).
Proof.
  induction 1 as [|y l Hl IH Hy]; simpl.
  - repeat constructor.
  - destruct (key y <? key x) eqn:E.
    + apply Z.ltb_lt in E. constructor.
      * constructor; assumption.
      * constructor; [unfold falling; lia|].
        rewrite Forall_forall in *. intros z Hz. specialize (Hy z Hz).
        unfold falling in *. lia.
    + apply Z.ltb_ge in E. constructor; [exact IH|].
      rewrite Forall_forall in *. intros z Hz.
      apply (Permutation_in _ (insert_desc_perm key x l)) in Hz.
      destruct Hz as [<- | Hz]; [exact E | apply Hy; exact Hz].
Qed.

Lemma sort_desc_sorted (key : ProcessingJob -> Z) (l : list ProcessingJob) :
  StronglySorted (falling key) (sort_desc key l).
Proof.
  unfold sort_desc.
  assert (H : forall acc, StronglySorted (falling key) acc ->
                StronglySorted (falling key)
                  (fold_left (fun sorted x => insert_desc key x sorted) l acc)).
  { induction l as [|x l IH]; intros acc Hacc; simpl; [exact Hacc|].
    apply IH, insert_desc_sorted, Hacc. }
  apply H. constructor.
Qed.

Lemma firstn_sorted (key : ProcessingJob -> Z) (n : nat)
      (l : list ProcessingJob) :
  StronglySorted (falling key) l -> StronglySorted (falling key) (firstn n l).
Proof.
  revert l. induction n as [|n IH]; intros l Hl; simpl; [constructor|].
  destruct l as [|x l]; [constructor|].
  inversion Hl as [|? ? Hs Hf]; subst. constructor; [apply IH; exact Hs|].
  rewrite Forall_forall in *. intros z Hz. apply Hf.
  eapply (In_nth_error) in Hz. destruct Hz as (i & Hi).
  clear - Hi. revert l i Hi. induction n as [|n IHn]; intros l i Hi.
  - destruct i; discriminate.
  - destruct l as [|y l]; [destruct i; discriminate|].
    destruct i as [|i]; simpl in Hi.
    + inv Hi. left. reflexivity.
    + right. eapply IHn. exact Hi.
Qed.

Lemma sorted_app_falls (key : ProcessingJob -> Z)
      (l1 l2 : list ProcessingJob) :
  StronglySorted (falling key) (l1 ++ l2) ->
  forall a b, In a l1 -> In b l2 -> key b <= key a.
Proof.
  induction l1 as [|x l1 IH]; intros Hs a b Ha Hb; [destruct Ha|].
  simpl in Hs. inversion Hs as [|? ? Hs' Hf]; subst.
  destruct Ha as [<- | Ha].
  - rewrite Forall_forall in Hf. apply Hf. apply in_or_app. right. exact Hb.
  - apply IH; assumption.
Qed.

(** [get_job_history] cuts the sorted history at the front: the stored
    jobs are the returned jobs followed by the jobs left out, in the
    order of falling keys (the key of a job is its [completed_at], or its
    [created_at] when it has none), so every returned job is at least as
    recent as every job left out.  With a limit of zero or more, at most
    [limit] jobs are returned and the others are left out; a negative
    limit does not give the empty list: the [|limit|] least recent jobs
    are left out (all of them when there are no more) and the others are
    returned.  With a limit of at least the size of the history the
    result is the whole history in the sorted order. *)
Theorem get_job_history_spec (limit : Z) (q : QueueProcessor) :
  (exists dropped : list ProcessingJob,
     Permutation (get_job_history limit q ++ dropped)
                 (map snd (processed_jobs q))
     /\ StronglySorted (falling history_key)
          (get_job_history limit q ++ dropped)
     /\ (forall a b, In a (get_job_history limit q) -> In b dropped ->
                     history_key b <= history_key a)
     /\ List.length dropped
        = if 0 <=? limit
          then (List.length (processed_jobs q) - Z.to_nat limit)%nat
          else Nat.min (Z.to_nat (- limit))
                       (List.length (processed_jobs q)))
  /\ StronglySorted (falling history_key) (get_job_history limit q)
  /\ (forall job, In job (get_job_history limit q) ->
                  In job (map snd (processed_jobs q)))
  /\ (0 <= limit ->
      List.length (get_job_history limit q)
      = Nat.min (Z.to_nat limit) (List.length (processed_jobs q)))
  /\ (Z.of_nat (List.length (processed_jobs q)) <= limit ->
      Permutation (get_job_history limit q) (map snd (processed_jobs q)))
  /\ (limit < 0 ->
      List.length (get_job_history limit q)
      = (List.length (processed_jobs q) - Z.to_nat (- limit))%nat).
Proof.
  unfold get_job_history, slice_to.
  set (jobs := map snd (processed_jobs q)).
  assert (Hperm : Permutation (sort_desc history_key jobs) jobs)
    by (unfold sort_desc; rewrite sort_desc_perm_acc; reflexivity).
  assert (Hlen : List.length (sort_desc history_key jobs)
                 = List.length (processed_jobs q))
    by (rewrite (Permutation_length Hperm); unfold jobs; apply length_map).
  assert (Hin : forall n job, In job (firstn n (sort_desc history_key jobs)) ->
                              In job jobs).
  { intros n job H. apply (Permutation_in _ Hperm).
    rewrite <- (firstn_skipn n (sort_desc history_key jobs)).
    apply in_or_app. left. exact H. }
  assert (Hcut : forall n,
            Permutation (firstn n (sort_desc history_key jobs)
                         ++ skipn n (sort_desc history_key jobs)) jobs
            /\ StronglySorted (falling history_key)
                 (firstn n (sort_desc history_key jobs)
                  ++ skipn n (sort_desc history_key jobs))
            /\ (forall a b,
                  In a (firstn n (sort_desc history_key jobs)) ->
                  In b (skipn n (sort_desc history_key jobs)) ->
                  history_key b <= history_key a)
            /\ List.length (skipn n (sort_desc history_key jobs))
               = (List.length (processed_jobs q) - n)%nat).
  { intros n. split; [rewrite firstn_skipn; exact Hperm|].
    split; [rewrite firstn_skipn; apply sort_desc_sorted|].
    split; [|rewrite length_skipn, Hlen; reflexivity].
    apply sorted_app_falls. rewrite firstn_skipn. apply sort_desc_sorted. }
  split; [|split; [|split; [|split; [|split]]]].
  - destruct (0 <=? limit) eqn:E.
    + exists (skipn (Z.to_nat limit) (sort_desc history_key jobs)).
      apply Hcut.
    + exists (skipn (List.length (sort_desc history_key jobs)
                     - Z.to_nat (- limit))
                (sort_desc history_key jobs)).
      destruct (Hcut (List.length (sort_desc history_key jobs)
                      - Z.to_nat (- limit))%nat) as (H1 & H2 & H3 & H4).
      repeat split; try assumption.
      rewrite H4, Hlen. lia.
  - destruct (0 <=? limit); apply firstn_sorted, sort_desc_sorted.
  - intros job. destruct (0 <=? limit); apply Hin.
  - intros H. apply Z.leb_le in H. rewrite H, length_firstn, Hlen. reflexivity.
  - intros H.
    assert (H0 : (0 <=? limit) = true) by (apply Z.leb_le; lia).
    rewrite H0, firstn_all2 by (rewrite Hlen; lia). exact Hperm.
  - intros H.
    assert (H0 : (0 <=? limit) = false) by (apply Z.leb_gt; lia).
    rewrite H0, length_firstn, Hlen. lia.
Qed.

End Pipeline.

(* ===================================================================== *)
(** ** The claims on runs of the sample environment                       *)
(* ===================================================================== *)

Abbreviation sample_retry :=
  (_process_job_with_retry Sample.md5 Sample.read_excel Sample.to_string
     Sample.to_datetime Py.str_int Py.str_int Py.str_nat
     default_database_config Sample.proc_config).

Abbreviation sample_process_job :=
  (process_job Sample.md5 Sample.read_excel Sample.to_string
     Sample.to_datetime Py.str_int Py.str_int Py.str_nat
     default_database_config Sample.proc_config).

Abbreviation sample_process_file :=
  (process_file Sample.md5 Sample.read_excel Sample.to_string
     Sample.to_datetime Py.str_int Py.str_int Py.str_nat
     default_database_config Sample.proc_config).

Abbreviation sample_worker_step :=
  (_worker_step Sample.md5 Sample.read_excel Sample.to_string
     Sample.to_datetime Py.str_int Py.str_int Py.str_nat
     default_database_config Sample.proc_config).

Abbreviation sample_reachable :=
  (reachable Sample.md5 Sample.read_excel Sample.to_string
     Sample.to_datetime Py.str_int Py.str_int Py.str_nat
     default_database_config Sample.proc_config).

(** The queue processor after a job has been submitted. *)
Abbreviation one_job_waiting :=
  (snd (fst (add_job (Sample.job_data []) new_queue_processor
               (Sample.world [] Sample.always_up)))).

Lemma one_job_waiting_reachable : sample_reachable one_job_waiting.
Proof.
  eapply (reach_add_job (job_data := Sample.job_data [])
            (w := Sample.world [] Sample.always_up)); [apply reach_new|].
  reflexivity.
Qed.

(** The default job, with the database down for good: four attempts,
    pauses of 1, 2 and 4 seconds, no pause at the end, [FAILED]. *)
Lemma retry_policy_witness :
  exists job' w',
    sample_retry (new_job (Sample.job_data []) 0)
      (Sample.world [] Sample.always_down) = (false, job', w')
    /\ status job' = FAILED
    /\ trace w' = flat_map (failed_attempt 3) [0; 1; 2; 3]
    /\ attempts_in (trace w') = [0; 1; 2; 3]
    /\ sleeps_in (trace w') = [(0, 1); (1, 2); (2, 4)]
    /\ ends_with_sleep (trace w') = false.
Proof.
  exact (proj1 (retry_policy Sample.md5 Sample.read_excel Sample.to_string
                  Sample.to_datetime Py.str_int Py.str_int Py.str_nat
                  default_database_config Sample.proc_config
                  (new_job (Sample.job_data []) 0)
                  (Sample.world [] Sample.always_down)
                  ltac:(simpl; lia) eq_refl)
           (fun i _ => eq_refl)).
Defined.

(** C1, counterexample.  The database is down for the first call only:
    the job fails, is retried and completes, and its status has left the
    terminal state [FAILED]. *)
Lemma terminal_state_left_by_retry :
  statuses_in
    (trace (snd (sample_retry (new_job (Sample.job_data []) 0)
                   (Sample.world [] Sample.down_once))))
  = [IN_PROGRESS; FAILED; IN_PROGRESS; COMPLETED]
  /\ leaves_terminal
       (statuses_in
          (trace (snd (sample_retry (new_job (Sample.job_data []) 0)
                         (Sample.world [] Sample.down_once)))))
     = true.
Proof. split; vm_compute; reflexivity. Qed.

(** C1 on the sample: the job that waits is run with the database down
    for the first call. *)
Lemma terminal_left_only_by_retry_witness :
  status (new_job (Sample.job_data []) 0) = PENDING
  /\ exists (r : bool) job' w' (news : list JobStatus),
       sample_retry (new_job (Sample.job_data []) 0)
         (Sample.world [] Sample.down_once) = (r, job', w')
       /\ statuses_in (trace w') = [] ++ news
       /\ leaves_terminal_without_retry (PENDING :: news) = false
       /\ (forall before after,
             news = before ++ COMPLETED :: after -> after = [])
       /\ ~ In CANCELLED news
       /\ last news PENDING = status job'
       /\ is_terminal (status job') = true.
Proof.
  exact (proj1 (terminal_left_only_by_retry Sample.md5 Sample.read_excel
                  Sample.to_string Sample.to_datetime Py.str_int Py.str_int
                  Py.str_nat default_database_config Sample.proc_config
                  one_job_waiting one_job_waiting_reachable)
           (new_job (Sample.job_data []) 0)
           (Sample.world [] Sample.down_once)
           (or_introl eq_refl)).
Defined.



Abbreviation sample_process_excel_file :=
  (process_excel_file Sample.md5 Sample.read_excel Sample.to_string
     Py.str_int).

Abbreviation sample_load :=
  (load_excel_to_temp_table Sample.read_excel Sample.to_datetime Py.str_int
     default_database_config).

(** The world in which [a.xlsx] has been processed; [b.xlsx] has the
    bytes of [a.xlsx], [c.xlsx] its data in the other encoding. *)
Abbreviation three_files :=
  (Sample.world [("a.xlsx", Sample.sheet); ("b.xlsx", Sample.sheet);
                 ("c.xlsx", Sample.sheet_again)]%string Sample.always_up).

Abbreviation after_first_file :=
  (snd (sample_process_file (Sample.started_job []) "a.xlsx" three_files)).

(** C4 on the sample: [a.xlsx] is processed and recorded, the content
    check does not recognise its data in [c.xlsx], [c.xlsx] is staged and
    counted, and the index is as the theorem says. *)
Lemma content_check_compares_unlike_frames_witness :
  fst (sample_process_file (Sample.started_job []) "a.xlsx" three_files)
  = (true, 2)
  /\ map fst (_processed_files after_first_file) = ["a.xlsx"%string]
  /\ is_duplicate_content Sample.md5 Sample.to_string
       (Sample.parse Sample.sheet) "c.xlsx" after_first_file = (false, None)
  /\ fst (sample_process_file (Sample.started_job []) "c.xlsx"
            after_first_file) = (true, 2)
  /\ index_from_pipeline Sample.md5 Sample.to_string after_first_file.
Proof.
  split; [vm_compute; reflexivity|]. split; [vm_compute; reflexivity|].
  split; [vm_compute; reflexivity|]. split; [vm_compute; reflexivity|].
  eapply (proj1 (content_check_compares_unlike_frames Sample.md5
                   Sample.read_excel Sample.to_string Sample.to_datetime
                   Py.str_int Py.str_int Py.str_nat default_database_config
                   Sample.proc_config)).
  - apply surjective_pairing.
  - intros p info Hin. destruct Hin.
Defined.

(** C5 on the sample: [b.xlsx] has the bytes of the processed [a.xlsx]. *)
Lemma byte_identical_file_rejected_witness :
  exists first info',
    In (first, info') (_processed_files after_first_file)
    /\ file_hash info' = Sample.md5 Sample.sheet
    /\ is_duplicate_file Sample.md5 "b.xlsx" after_first_file
       = (true, Some first)
    /\ sample_process_excel_file "b.xlsx" after_first_file
       = (rejected ("File is duplicate of " ++ first), after_first_file)
    /\ forall job : ProcessingJob,
         sample_process_file job "b.xlsx" after_first_file
         = ((false, 0), after_first_file).
Proof.
  eapply (byte_identical_file_rejected Sample.md5 Sample.read_excel
            Sample.to_string Sample.to_datetime Py.str_int Py.str_int
            Py.str_nat default_database_config Sample.proc_config
            "b.xlsx" after_first_file Sample.sheet).
  - vm_compute. reflexivity.
  - vm_compute. reflexivity.
  - vm_compute. left. reflexivity.
  - vm_compute. reflexivity.
  - vm_compute. reflexivity.
Defined.

(** C6 on the sample: the database answers when the staging table is
    created and is down when the upsert is sent. *)
Lemma staging_table_left_after_failed_upsert_witness :
  exists loaded w',
    sample_process_file (Sample.started_job []) "a.xlsx"
      (Sample.world [("a.xlsx", Sample.sheet)]%string (Sample.up_for 1))
    = ((false, 0), w')
    /\ Py.dict_get "temp_job_email_7_0000_0" (temp_tables w') = Some loaded
    /\ In (EvTempCreated "temp_job_email_7_0000_0") (log w')
    /\ leaked_tables (List.rev (log w')) [] = ["temp_job_email_7_0000_0"%string].
Proof.
  pose (w := Sample.world [("a.xlsx", Sample.sheet)]%string (Sample.up_for 1)).
  pose (r1 := sample_process_excel_file "a.xlsx" w).
  pose (r2 := sample_load "a.xlsx" "temp_job_email_7_0000_0"
                (with_uuids 1 (snd r1))).
  destruct (staging_table_left_after_failed_upsert Sample.md5
              Sample.read_excel Sample.to_string Sample.to_datetime
              Py.str_int Py.str_int Py.str_nat default_database_config
              Sample.proc_config (Sample.started_job []) "a.xlsx"
              w (snd r1) (snd r2) (snd (fst (fst r1))) (snd (fst r1))
              (match snd (fst r2) with
               | Some d => d
               | None => Sample.parse EmptyString
               end)
              eq_refl eq_refl eq_refl)
    as (w' & E & Hget & Hin & Hlog).
  eexists. exists w'. split; [exact E|]. split; [exact Hget|].
  split; [exact Hin|]. rewrite Hlog. vm_compute. reflexivity.
Defined.

(** C7 on the sample: the first file has no key column, the second is in
    order. *)
Lemma job_completes_despite_failed_files_witness :
  exists job' w' stats,
    sample_process_job
      (new_job (Sample.job_data ["bad.xlsx"; "good.xlsx"]%string) 0)
      (Sample.world [("bad.xlsx", Sample.sheet_without_key);
                     ("good.xlsx", Sample.sheet)]%string Sample.always_up)
    = (true, job', w')
    /\ status job' = COMPLETED
    /\ processing_stats job' = Some stats
    /\ total_records stats = 2
    /\ processed_files stats = 1
    /\ failed_files stats = 1.
Proof.
  eapply (proj1 (proj2 (proj2
            (job_completes_despite_failed_files Sample.md5 Sample.read_excel
               Sample.to_string Sample.to_datetime Py.str_int Py.str_int
               Py.str_nat default_database_config Sample.proc_config
               (new_job (Sample.job_data ["bad.xlsx"; "good.xlsx"]%string) 0)
               (Sample.world [("bad.xlsx", Sample.sheet_without_key);
                              ("good.xlsx", Sample.sheet)]%string
                  Sample.always_up))))).
  - reflexivity.
  - vm_compute. reflexivity.
  - vm_compute. reflexivity.
  - vm_compute. reflexivity.
Defined.

(** C8 on the sample: a job is submitted and at once cancelled. *)
Lemma cancel_job_misses_the_queue_witness :
  exists job q1 w1,
    add_job (Sample.job_data []) new_queue_processor
      (Sample.world [] Sample.always_up) = (job, q1, w1)
    /\ id job = "email_7_0000"%string
    /\ status job = PENDING
    /\ In job (job_queue q1)
    /\ cancel_job "email_7_0000" q1 w1 = (false, q1, w1).
Proof.
  exact (proj1 (cancel_job_misses_the_queue (Sample.job_data [])
                  new_queue_processor (Sample.world [] Sample.always_up)
                  eq_refl)).
Defined.

(** C10 on the sample: both rows of key [A] are staged. *)
Lemma staged_rows_are_not_deduplicated_witness :
  exists staged w',
    sample_load "d.xlsx" "t"
      (Sample.world [("d.xlsx", Sample.sheet_with_repeated_key)]%string
         Sample.always_up)
    = ((true, Some staged), w')
    /\ Py.dict_get "t" (temp_tables w') = Some staged
    /\ DF.len staged = 2
    /\ DF.column_values "hawb" staged = [Str "A"; Str "A"]%string.
Proof.
  pose (w := Sample.world [("d.xlsx", Sample.sheet_with_repeated_key)]%string
               Sample.always_up).
  pose (r := sample_load "d.xlsx" "t" w).
  destruct (staged_rows_are_not_deduplicated Sample.read_excel
              Sample.to_datetime Py.str_int default_database_config
              "d.xlsx" "t" Sample.sheet_with_repeated_key
              (Sample.parse Sample.sheet_with_repeated_key)
              (match snd (fst r) with
               | Some d => d
               | None => Sample.parse EmptyString
               end)
              w (snd r) eq_refl eq_refl eq_refl)
    as (Hget & Hlen & _).
  eexists. exists (snd r). split; [vm_compute; reflexivity|].
  split; [exact Hget|]. split; [exact Hlen|]. vm_compute. reflexivity.
Defined.

(* ===================================================================== *)
(** ** The further properties on runs of the sample environment          *)
(* ===================================================================== *)

(** The queue processor after a job has been submitted and run. *)
Abbreviation after_one_job :=
  (fst (sample_worker_step
          (snd (fst (add_job (Sample.job_data []) new_queue_processor
                       (Sample.world [] Sample.always_up))))
          (Sample.world [] Sample.always_up))).

Lemma after_one_job_reachable : sample_reachable after_one_job.
Proof.
  eapply reach_worker; [|apply surjective_pairing].
  eapply (reach_add_job (job_data := Sample.job_data [])
            (w := Sample.world [] Sample.always_up)); [apply reach_new|].
  reflexivity.
Qed.

Lemma backoff_total_when_exhausted_witness :
  exists job' w',
    sample_retry (new_job (Sample.job_data []) 0)
      (Sample.world [] Sample.always_down) = (false, job', w')
    /\ total_sleep (trace w') = 0 + (2 ^ 3 - 1).
Proof.
  exact (backoff_total_when_exhausted Sample.md5 Sample.read_excel
           Sample.to_string Sample.to_datetime Py.str_int Py.str_int
           Py.str_nat default_database_config Sample.proc_config
           (new_job (Sample.job_data []) 0)
           (Sample.world [] Sample.always_down)
           ltac:(simpl; lia) eq_refl (fun i _ => eq_refl)).
Defined.

Lemma get_active_job_finds_nothing_witness :
  get_active_job after_one_job = None.
Proof.
  exact (get_active_job_finds_nothing Sample.md5 Sample.read_excel
           Sample.to_string Sample.to_datetime Py.str_int Py.str_int
           Py.str_nat default_database_config Sample.proc_config
           after_one_job after_one_job_reachable).
Defined.

Lemma cancel_job_never_cancels_witness :
  cancel_job "email_7_0000" after_one_job (Sample.world [] Sample.always_up)
  = (false, after_one_job, Sample.world [] Sample.always_up).
Proof.
  exact (cancel_job_never_cancels Sample.md5 Sample.read_excel
           Sample.to_string Sample.to_datetime Py.str_int Py.str_int
           Py.str_nat default_database_config Sample.proc_config
           after_one_job "email_7_0000" (Sample.world [] Sample.always_up)
           after_one_job_reachable).
Defined.

(** A file of the same name is in the archive of the day already. *)
Lemma move_to_processed_overwrites_nothing_witness :
  exists bytes file_name,
    Py.dict_get "a.xlsx"
      [("a.xlsx", Sample.sheet);
       ("processed/0/a.xlsx", Sample.sheet_again)]%string = Some bytes
    /\ Py.dict_get (Path.join (Path.join "processed" (Py.str_int 0)) file_name)
         [("a.xlsx", Sample.sheet);
          ("processed/0/a.xlsx", Sample.sheet_again)]%string = None
    /\ Py.dict_get (Path.join (Path.join "processed" (Py.str_int 0)) file_name)
         [("processed/0/a.xlsx", Sample.sheet_again);
          ("processed/0/a_1.xlsx", Sample.sheet)]%string = Some bytes
    /\ Py.dict_get "a.xlsx"
         [("processed/0/a.xlsx", Sample.sheet_again);
          ("processed/0/a_1.xlsx", Sample.sheet)]%string = None
    /\ (forall other,
          String.eqb "a.xlsx" other = false ->
          String.eqb (Path.join (Path.join "processed" (Py.str_int 0))
                        file_name) other = false ->
          Py.dict_get other
            [("processed/0/a.xlsx", Sample.sheet_again);
             ("processed/0/a_1.xlsx", Sample.sheet)]%string
          = Py.dict_get other
              [("a.xlsx", Sample.sheet);
               ("processed/0/a.xlsx", Sample.sheet_again)]%string).
Proof.
  apply (move_to_processed_overwrites_nothing Py.str_int Sample.proc_config
           "a.xlsx"
           (Sample.world [("a.xlsx", Sample.sheet);
                          ("processed/0/a.xlsx", Sample.sheet_again)]%string
              Sample.always_up)
           (with_fs [("processed/0/a.xlsx", Sample.sheet_again);
                     ("processed/0/a_1.xlsx", Sample.sheet)]%string
              (with_clock 1
                 (Sample.world [("a.xlsx", Sample.sheet);
                                ("processed/0/a.xlsx", Sample.sheet_again)]%string
                    Sample.always_up)))).
  vm_compute. reflexivity.
Defined.

Lemma recorded_file_is_recognised_witness :
  exists first info,
    is_duplicate_file Sample.md5 "b.xlsx"
      (mark_file_as_processed Sample.md5 Sample.to_string "a.xlsx"
         (Sample.parse Sample.sheet)
         {| records_processed := 2; temp_table := "t";
            fs_processing_time := 1 |} three_files)
    = (true, Some first)
    /\ In (first, info)
          (_processed_files
             (mark_file_as_processed Sample.md5 Sample.to_string "a.xlsx"
                (Sample.parse Sample.sheet)
                {| records_processed := 2; temp_table := "t";
                   fs_processing_time := 1 |} three_files))
    /\ file_hash info = Sample.md5 Sample.sheet.
Proof.
  exact (recorded_file_is_recognised Sample.md5 Sample.to_string
           "a.xlsx" "b.xlsx" Sample.sheet (Sample.parse Sample.sheet)
           {| records_processed := 2; temp_table := "t";
              fs_processing_time := 1 |} three_files
           eq_refl eq_refl eq_refl).
Defined.

Lemma counted_file_anatomy_witness :
  (exists bytes raw info,
     Py.dict_get "a.xlsx" (fs three_files) = Some bytes
     /\ Sample.read_excel bytes = inr raw
     /\ DF.has_column "hawb" raw = true
     /\ DF.has_column (unique_key default_database_config) raw = true
     /\ Py.dict_get "a.xlsx" (_processed_files after_first_file) = Some info
     /\ file_hash info = Sample.md5 bytes
     /\ records_count info = 2
     /\ 0 <= 2)
  /\ Py.dict_get "a.xlsx" (fs after_first_file) = None.
Proof.
  destruct (counted_file_anatomy Sample.md5 Sample.read_excel Sample.to_string
              Sample.to_datetime Py.str_int Py.str_int Py.str_nat
              default_database_config Sample.proc_config
              (Sample.started_job []) "a.xlsx" three_files after_first_file
              true 2 (ex_intro _ 0 eq_refl)
              ltac:(vm_compute; reflexivity))
    as (H1 & H2 & _).
  split; [apply H1; left; reflexivity | apply H2; reflexivity].
Defined.

(** The database answers two calls (staging table and upsert) or three
    (the call that drops the table as well); in the third run the move to
    the archive fails: the rows are counted, the file is not. *)
Lemma cleanup_failure_is_not_an_error_witness :
  (exists loaded w',
     sample_process_file (Sample.started_job []) "a.xlsx"
       (Sample.world [("a.xlsx", Sample.sheet)]%string (Sample.up_for 2))
     = ((true, DF.len loaded), w')
     /\ DF.len loaded = 2
     /\ Py.dict_get "temp_job_email_7_0000_0" (temp_tables w') = Some loaded)
  /\ (exists loaded w',
        sample_process_file (Sample.started_job []) "a.xlsx"
          (Sample.world [("a.xlsx", Sample.sheet)]%string (Sample.up_for 3))
        = ((true, DF.len loaded), w')
        /\ DF.len loaded = 2
        /\ Py.dict_get "temp_job_email_7_0000_0" (temp_tables w') = None)
  /\ (exists loaded w',
        sample_process_file (Sample.started_job []) "a.xlsx"
          (with_io_ok (fun _ => false)
             (Sample.world [("a.xlsx", Sample.sheet)]%string
                (Sample.up_for 3)))
        = ((false, DF.len loaded), w')
        /\ DF.len loaded = 2
        /\ Py.dict_get "temp_job_email_7_0000_0" (temp_tables w') = None).
Proof.
  split; [|split].
  - pose (w := Sample.world [("a.xlsx", Sample.sheet)]%string
                 (Sample.up_for 2)).
    pose (r1 := sample_process_excel_file "a.xlsx" w).
    pose (r2 := sample_load "a.xlsx" "temp_job_email_7_0000_0"
                  (with_uuids 1 (snd r1))).
    destruct (cleanup_failure_is_not_an_error Sample.md5 Sample.read_excel
                Sample.to_string Sample.to_datetime Py.str_int Py.str_int
                Py.str_nat default_database_config Sample.proc_config
                (Sample.started_job []) "a.xlsx" w (snd r1) (snd r2)
                (snd (fst (fst r1))) (snd (fst r1))
                (match snd (fst r2) with
                 | Some d => d
                 | None => Sample.parse EmptyString
                 end) 0 eq_refl ltac:(vm_compute; reflexivity)
                ltac:(vm_compute; reflexivity)
                ltac:(vm_compute; reflexivity))
      as (w' & E & Hget).
    assert (Hk : db_ok (snd r2) (S (db_calls (snd r2))) = false)
      by (vm_compute; reflexivity).
    rewrite Hk in Hget.
    eexists. exists w'. split; [exact E|].
    split; [vm_compute; reflexivity | exact Hget].
  - pose (w := Sample.world [("a.xlsx", Sample.sheet)]%string
                 (Sample.up_for 3)).
    pose (r1 := sample_process_excel_file "a.xlsx" w).
    pose (r2 := sample_load "a.xlsx" "temp_job_email_7_0000_0"
                  (with_uuids 1 (snd r1))).
    destruct (cleanup_failure_is_not_an_error Sample.md5 Sample.read_excel
                Sample.to_string Sample.to_datetime Py.str_int Py.str_int
                Py.str_nat default_database_config Sample.proc_config
                (Sample.started_job []) "a.xlsx" w (snd r1) (snd r2)
                (snd (fst (fst r1))) (snd (fst r1))
                (match snd (fst r2) with
                 | Some d => d
                 | None => Sample.parse EmptyString
                 end) 0 eq_refl ltac:(vm_compute; reflexivity)
                ltac:(vm_compute; reflexivity)
                ltac:(vm_compute; reflexivity))
      as (w' & E & Hget).
    assert (Hk : db_ok (snd r2) (S (db_calls (snd r2))) = true)
      by (vm_compute; reflexivity).
    rewrite Hk in Hget.
    eexists. exists w'. split; [exact E|].
    split; [vm_compute; reflexivity | exact Hget].
  - pose (w := with_io_ok (fun _ => false)
                 (Sample.world [("a.xlsx", Sample.sheet)]%string
                    (Sample.up_for 3))).
    pose (r1 := sample_process_excel_file "a.xlsx" w).
    pose (r2 := sample_load "a.xlsx" "temp_job_email_7_0000_0"
                  (with_uuids 1 (snd r1))).
    destruct (cleanup_failure_is_not_an_error Sample.md5 Sample.read_excel
                Sample.to_string Sample.to_datetime Py.str_int Py.str_int
                Py.str_nat default_database_config Sample.proc_config
                (Sample.started_job []) "a.xlsx" w (snd r1) (snd r2)
                (snd (fst (fst r1))) (snd (fst r1))
                (match snd (fst r2) with
                 | Some d => d
                 | None => Sample.parse EmptyString
                 end) 0 eq_refl ltac:(vm_compute; reflexivity)
                ltac:(vm_compute; reflexivity)
                ltac:(vm_compute; reflexivity))
      as (w' & E & Hget).
    assert (Hk : db_ok (snd r2) (S (db_calls (snd r2))) = true)
      by (vm_compute; reflexivity).
    rewrite Hk in Hget.
    eexists. exists w'. split; [exact E|].
    split; [vm_compute; reflexivity | exact Hget].
Defined.

(** The staging table is there and the target is not: the target is
    created first, then the upsert is sent. *)
Abbreviation staged_world :=
  (with_temp_tables [("t", Sample.parse Sample.sheet)]%string
     (Sample.world [] Sample.always_up)).

Lemma upsert_statement_text_witness :
  exists w',
    upsert_data_to_target_table default_database_config "t" staged_world
    = (true, w')
    /\ log w'
       = [EvSql (upsert_query "tracking_data" "temp_processing.t"
                   "hawb" ["hawb"; "x"]%string);
          EvSql (create_table_query "tracking_data" "temp_processing.t")]
    /\ update_assignments "hawb" ["hawb"; "x"]%string = ["x = src.x"%string]
    /\ target w' = true.
Proof.
  destruct (upsert_statement_text default_database_config "t"
              (Sample.parse Sample.sheet) staged_world eq_refl eq_refl)
    as (w' & E & Hlog & _ & _ & Ht & _).
  exists w'. split; [exact E|]. split; [exact Hlog|].
  split; [reflexivity | exact Ht].
Defined.

Lemma staged_frame_columns_witness :
  In "hawb"%string ["hawb"; "x"; "processed_at"; "file_source"]%string
  /\ In "processed_at"%string ["hawb"; "x"; "processed_at"; "file_source"]%string
  /\ In "file_source"%string ["hawb"; "x"; "processed_at"; "file_source"]%string
  /\ DF.unique_names ["hawb"; "x"; "processed_at"; "file_source"]%string = true
  /\ exists assignment others,
       update_assignments "hawb"
         ["hawb"; "x"; "processed_at"; "file_source"]%string
       = assignment :: others.
Proof.
  pose (w := Sample.world [("a.xlsx", Sample.sheet)]%string Sample.always_up).
  pose (r := sample_load "a.xlsx" "t" w).
  exact (staged_frame_columns Sample.read_excel Sample.to_datetime Py.str_int
           default_database_config "a.xlsx" "t"
           (match snd (fst r) with
            | Some d => d
            | None => Sample.parse EmptyString
            end) w (snd r) ltac:(vm_compute; reflexivity)).
Defined.

Lemma retry_when_the_processor_raises_witness :
  exists job' w',
    retry_with (fun job w => (Raised "connection reset", job, w))
      (new_job (Sample.job_data []) 0) (Sample.world [] Sample.always_up)
    = (false, job', w')
    /\ status job' = FAILED
    /\ error_message job' = Some "connection reset"%string
    /\ (exists t, completed_at job' = Some t)
    /\ attempts_in (trace w') = [0; 1; 2; 3]
    /\ sleeps_in (trace w') = [(0, 1); (1, 2); (2, 4)]
    /\ statuses_in (trace w') = [FAILED].
Proof.
  exact (retry_when_the_processor_raises
           (fun job w => (Raised "connection reset", job, w))
           "connection reset" (new_job (Sample.job_data []) 0)
           (Sample.world [] Sample.always_up)
           (fun _ _ => eq_refl) ltac:(simpl; lia) eq_refl).
Defined.
